(** * ayon-deadline: [submit_publish_job.py]

    A shallow embedding of the publish-job submitter plugin
    ([client/ayon_deadline/plugins/publish/global/submit_publish_job.py])
    and the properties of its behaviour: the resource collector
    [get_resource_files], the folder resolver [_get_publish_folder], the
    dependent job submitter [_submit_deadline_post_job] and the plugin
    entry point [process].

    Python dictionaries are finite maps ([gmap string pyval]); the one
    dictionary whose iteration order is observable (the environment block)
    is an insertion-ordered association list.  Exceptions are values of
    [exn]; code that raises returns [exn + A].  The plugin's effects (log
    lines, calls to the tracking service, the HTTP post, the metadata file
    write) are recorded as a list of [event]s. *)

From Stdlib Require Import ZArith Ascii String DecimalString DecimalN Sorted Lia.
From stdpp Require Import gmap strings list fin_maps pretty.

#[local] Set Warnings "-register-all,-clear-no-such-hyp".
#[local] Open Scope string_scope.

(** ** Python values *)

Module Py.

(** The values that travel through [instance.data], the context data,
    the farm payload and the metadata file.  Floats do not occur in the
    keys this plugin inspects and are left out. *)
Inductive pyval : Type :=
| PNone
| PBool (b : bool)
| PInt (n : Z)
| PStr (s : string)
| PList (l : list pyval)
| PDict (d : gmap string pyval).

Abbreviation dict := (gmap string pyval).

(** Python truth value testing ([if x:], [not x], [x or y]). *)
Definition truthy (v : pyval) : bool :=
  match v with
  | PNone => false
  | PBool b => b
  | PInt n => negb (n =? 0)%Z
  | PStr s => negb (String.eqb s "")
  | PList l => match l with [] => false | _ => true end
  | PDict d => negb (bool_decide (d = ∅))
  end.

(** [x or y]. *)
Definition py_or (x y : pyval) : pyval := if truthy x then x else y.

(** [d.get(k)]: a missing key reads as [None]. *)
Definition get (d : dict) (k : string) : pyval := default PNone (d !! k).

(** [d.get(k, dflt)]. *)
Definition get_default (d : dict) (k : string) (dflt : pyval) : pyval :=
  default dflt (d !! k).

(** [x == n] for an integer literal [n]: Python compares numbers by
    value, and [True == 1], [False == 0]. *)
Definition eq_int (v : pyval) (n : Z) : bool :=
  match v with
  | PInt m => (m =? n)%Z
  | PBool b => ((if b then 1 else 0) =? n)%Z
  | _ => false
  end.

(** [x is False]. *)
Definition is_False (v : pyval) : bool :=
  match v with PBool false => true | _ => false end.

(** The exceptions the plugin raises itself or provokes in the
    interpreter, and [External] for a failure inside a collaborator. *)
Inductive exn : Type :=
| AssertionError (msg : string)
| Exception (msg : string)
| KeyError (key : string)
| IndexError
| TypeError (msg : string)
| External (who : string) (msg : string).

(** The text of the raised error, [str(e)]; for a [KeyError] Python
    shows the key quoted. *)
Definition message (e : exn) : string :=
  match e with
  | AssertionError m | Exception m | TypeError m => m
  | KeyError k => "'" +:+ k +:+ "'"
  | IndexError => "list index out of range"
  | External _ m => m
  end.

Abbreviation result A := (exn + A)%type.

(** [d[k]]: raises [KeyError] on a missing key. *)
Definition getitem (d : dict) (k : string) : result pyval :=
  match d !! k with
  | Some v => inr v
  | None => inl (KeyError k)
  end.

(** [v[k]] where [v] is expected to be a dictionary. *)
Definition subscript (v : pyval) (k : string) : result pyval :=
  match v with
  | PDict d => getitem d k
  | _ => inl (TypeError "object is not subscriptable")
  end.

(** [v.get(k)] where [v] is expected to be a dictionary. *)
Definition get_of (v : pyval) (k : string) : result pyval :=
  match v with
  | PDict d => inr (get d k)
  | _ => inl (TypeError "object has no attribute get")
  end.

(** [x in s] for strings: [s] contains [x] as a substring. *)
Fixpoint contains (x s : string) : bool :=
  String.prefix x s ||
  match s with
  | EmptyString => false
  | String _ s' => contains x s'
  end.

End Py.
Export Py.

(** ** The file-sequence library (clique) *)

Module Clique.

(** [clique.Collection]: a head, a tail, a padding width and the sorted
    set of frame indexes.  The third-party library keeps [indexes] in a
    [SortedSet]: ascending, without duplicates. *)
Record Collection : Type := {
  head : string;
  tail : string;
  padding : nat;
  indexes : list Z
}.

(** The [SortedSet] invariant. *)
Definition well_formed (c : Collection) : Prop :=
  StronglySorted Z.lt (indexes c).

Definition digits (n : N) : string :=
  NilEmpty.string_of_uint (N.to_uint n).

Fixpoint zeros (k : nat) : string :=
  match k with
  | O => ""
  | S k' => String "0" (zeros k')
  end.

Definition zfill (w : nat) (s : string) : string :=
  zeros (w - String.length s) +:+ s.

(** ['{0:0{1}d}'.format(index, padding)]: sign-aware zero padding. *)
Definition format_index (w : nat) (i : Z) : string :=
  if (i <? 0)%Z
  then String "-" (zfill (w - 1) (digits (Z.abs_N i)))
  else zfill w (digits (Z.to_N i)).

(** Reading a padded index back: the number a digit string denotes, and
    the index a formatted string denotes. *)
Definition parse_digits (s : string) : option N :=
  N.of_uint <$> NilEmpty.uint_of_string s.

Definition parse_index (s : string) : option Z :=
  match parse_digits s with
  | Some n => Some (Z.of_N n)
  | None =>
      match s with
      | String "-" r => (fun n => (- Z.of_N n)%Z) <$> parse_digits r
      | _ => None
      end
  end.

(** One item of [Collection.__iter__]. *)
Definition item (c : Collection) (i : Z) : string :=
  head c +:+ format_index (padding c) i +:+ tail c.

(** [list(collection)]. *)
Definition members (c : Collection) : list string :=
  map (item c) (indexes c).

(** [frame in indexes]. *)
Definition mem (frame : Z) (idx : list Z) : bool :=
  bool_decide (frame ∈ idx).

(** [SortedSet.remove]: delete the member found at the frame's position;
    raises [KeyError] when the frame is no member. *)
Fixpoint discard (frame : Z) (idx : list Z) : list Z :=
  match idx with
  | [] => []
  | i :: idx' => if bool_decide (i = frame) then idx' else i :: discard frame idx'
  end.

Definition remove (frame : Z) (idx : list Z) : result (list Z) :=
  if mem frame idx then inr (discard frame idx)
  else inl (KeyError (format_index 0 frame)).

Definition set_indexes (c : Collection) (idx : list Z) : Collection :=
  {| head := head c; tail := tail c; padding := padding c; indexes := idx |}.

End Clique.

(** ** Resource Collector: [get_resource_files] *)

Module ResourceCollector.
Import Clique.

Section WithClique.

(** [clique.assemble]: the collections detected among the names, and
    the names that belong to no collection. *)
Variable assemble : list string -> list Collection * list string.

(** The body of [for frame in frame_range: ...]. *)
Fixpoint remove_frames (frame_range : list Z) (idx : list Z)
  : result (list Z) :=
  match frame_range with
  | [] => inr idx
  | frame :: rest =>
      if negb (mem frame idx) then remove_frames rest idx
      else
        match remove frame idx with
        | inr idx' => remove_frames rest idx'
        | inl e => inl e
        end
  end.

Definition get_resource_files (resources : list string)
    (frame_range : option (list Z)) : result (list string) :=
  let '(res_collections, _) := assemble resources in
  match res_collections with
  | [res_collection] =>
      match frame_range with
      | Some frames =>
          match remove_frames frames (indexes res_collection) with
          | inr idx => inr (members (set_indexes res_collection idx))
          | inl e => inl e
          end
      | None => inr (members res_collection)
      end
  | _ => inl (AssertionError "Multiple collections found")
  end.

End WithClique.

End ResourceCollector.


(** ** Effects of the plugin *)

Module Effects.

(** What [requests_post] hands back: [response.ok], [response.text] and
    [response.json()] (which raises on a body that is not JSON). *)
Record response : Type := {
  ok : bool;
  text : string;
  json : result pyval
}.

(** The farm payload: the three top-level keys of the posted JSON body. *)
Record payload : Type := {
  JobInfo : dict;
  PluginInfo : dict;
  AuxFiles : list pyval
}.

(** Observable steps of one plugin invocation, in program order. *)
Inductive event : Type :=
| Log (level msg : string)
| CreateSkeletonInstance
| CreateInstancesForAov
| PrepareRepresentations
| AttachInstancesToProduct
| CreateMetadataPath
| GetLastVersionByProductName (project_name product_name folder_id : pyval)
| GetVersioningStart (project_name host_name task_name task_type : pyval)
    (product_type : string) (product_name : pyval)
| GetPublishTemplateName (product_type task_name task_type : pyval)
| FormatStrict (template_name : pyval) (template_data : pyval)
| RequestsPost (url : string) (body : payload) (timeout : Z)
    (answer : result response)
| WriteFile (path : string) (content : dict).

(** The mutable part: [instance.data] and the [self.deadline_url]
    attribute that [process] assigns. *)
Record state : Type := {
  inst_data : dict;
  self_deadline_url : pyval
}.

(** A computation reads and updates the state, records its events and
    either returns or raises. *)
Definition M (A : Type) : Type := state -> result A * state * list event.

Definition ret {A} (a : A) : M A := fun s => (inr a, s, []).

Definition raise {A} (e : exn) : M A := fun s => (inl e, s, []).

Definition bind {A B} (m : M A) (f : A -> M B) : M B :=
  fun s =>
    match m s with
    | (inr a, s', t) =>
        let '(r, s'', t') := f a s' in (r, s'', (t ++ t')%list)
    | (inl e, s', t) => (inl e, s', t)
    end.

(** A pure step that may raise. *)
Definition lift {A} (r : result A) : M A := fun s => (r, s, []).

Definition emit (ev : event) : M unit := fun s => (inr tt, s, [ev]).

(** A call to a collaborator: the event is recorded, then the call
    returns or raises. *)
Definition call {A} (ev : event) (r : result A) : M A :=
  fun s => (r, s, [ev]).

Definition read_data : M dict := fun s => (inr (inst_data s), s, []).

Definition write_data (d : dict) : M unit :=
  fun s => (inr tt, {| inst_data := d; self_deadline_url := self_deadline_url s |}, []).

Definition read_url : M pyval := fun s => (inr (self_deadline_url s), s, []).

Definition write_url (u : pyval) : M unit :=
  fun s => (inr tt, {| inst_data := inst_data s; self_deadline_url := u |}, []).

(** [m] leaves the state as it found it and records only events that
    satisfy [P]. *)
Definition readonly {A} (P : event -> Prop) (m : M A) : Prop :=
  forall s, (m s).1.2 = s /\ Forall P (m s).2.

(** Events that touch neither the farm nor the file system. *)
Definition quiet (ev : event) : Prop :=
  match ev with
  | RequestsPost _ _ _ _ | WriteFile _ _ => False
  | _ => True
  end.

(** The two version lookups of the folder resolver. *)
Definition version_lookup (ev : event) : Prop :=
  match ev with
  | GetLastVersionByProductName _ _ _ | GetVersioningStart _ _ _ _ _ _ => True
  | _ => False
  end.

(** Events other than the formatting of the publish directory. *)
Definition not_a_format (ev : event) : Prop :=
  match ev with
  | FormatStrict _ _ => False
  | _ => True
  end.

(** A query to the tracking service. *)
Definition is_tracking_query (ev : event) : bool :=
  match ev with
  | GetLastVersionByProductName _ _ _ => true
  | _ => false
  end.

(** Events other than the metadata file write. *)
Definition not_a_write (ev : event) : Prop :=
  match ev with
  | WriteFile _ _ => False
  | _ => True
  end.

(** A post to the farm. *)
Definition is_post (ev : event) : bool :=
  match ev with
  | RequestsPost _ _ _ _ => true
  | _ => false
  end.

Definition events_of {A} (m : M A) (s : state) : list event := (m s).2.

Definition outcome_of {A} (m : M A) (s : state) : result A := (m s).1.1.

End Effects.
Export Effects.

Notation "x <- m ;; k" := (bind m (fun x => k))
  (at level 100, m at next level, right associativity).
Notation "m ;;; k" := (bind m (fun _ => k))
  (at level 100, right associativity).

(** ** The plugin [ProcessSubmittedJobOnFarm] *)

Module Plugin.

(** The class attributes; project settings may override them before any
    instance is processed. *)
Record plugin : Type := {
  aov_filter : list (string * list string);
  environ_keys : list string;
  deadline_department : string;
  deadline_pool : string;
  deadline_pool_secondary : string;
  deadline_group : string;
  deadline_priority : pyval;
  instance_transfer : list (string * list string);
  families_transfer : list string;
  plugin_pype_version : string;
  skip_integration_repre_list : list string
}.

(** The attribute values written in the class body. *)
Definition class_defaults : plugin := {|
  aov_filter := [
    ("maya", [".*([Bb]eauty).*"]);
    ("blender", [".*([Bb]eauty).*"]);
    ("aftereffects", [".*"]);
    ("harmony", [".*"]);
    ("celaction", [".*"]);
    ("max", [".*"])
  ];
  environ_keys := [
    "FTRACK_API_USER"; "FTRACK_API_KEY"; "FTRACK_SERVER"; "AYON_APP_NAME";
    "AYON_USERNAME"; "AYON_SG_USERNAME"; "KITSU_LOGIN"; "KITSU_PWD"
  ];
  deadline_department := "";
  deadline_pool := "";
  deadline_pool_secondary := "";
  deadline_group := "";
  deadline_priority := PNone;
  instance_transfer := [
    ("slate", ["slateFrames"; "slate"]);
    ("review", ["lutPath"]);
    ("render2d", ["bakingNukeScripts"; "version"]);
    ("renderlayer", ["convertToScanline"])
  ];
  families_transfer := ["render3d"; "render2d"; "slate"];
  plugin_pype_version := "3.0";
  skip_integration_repre_list := []
|}.

(** Everything the plugin consumes through a narrow call: the pipeline
    library (ayon_core), the tracking service (ayon_api), the HTTP helper
    [requests_post], the operating system and Python's own [str] and
    [int].  Each call either returns or raises. *)
Record collaborators : Type := {
  (** [str(x)], as used by [str.format] and [%]. *)
  str_of : pyval -> string;
  (** [int(s)] on a string. *)
  int_of_str : string -> result Z;
  create_skeleton_instance :
    dict -> dict -> list string -> list (string * list string) -> result dict;
  create_instances_for_aov :
    dict -> dict -> dict -> gmap string (list string) -> list string -> bool ->
    result (list dict);
  prepare_representations :
    dict -> pyval -> pyval -> gmap string (list string) -> list string ->
    bool -> dict -> result (list pyval);
  attach_instances_to_product : pyval -> list dict -> result (list dict);
  (** Returns [(metadata_path, rootless_metadata_path)]. *)
  create_metadata_path : dict -> dict -> pyval -> result (string * string);
  get_attr_values_from_data : dict -> result dict;
  is_in_tests : bool;
  get_last_version_by_product_name : pyval -> pyval -> pyval -> result pyval;
  get_versioning_start :
    pyval -> pyval -> pyval -> pyval -> string -> pyval -> pyval -> result pyval;
  get_publish_template_name :
    pyval -> pyval -> pyval -> pyval -> pyval -> result pyval;
  (** [anatomy.get_template_item("publish", template_name,
      "directory").format_strict(template_data)]. *)
  format_strict : pyval -> pyval -> pyval -> result string;
  requests_post : string -> payload -> Z -> pyval -> pyval -> result response;
  (** [os.environ]. *)
  environ : gmap string string;
  getpass_getuser : result string;
  os_path_basename : pyval -> result string;
  os_path_splitext : string -> string * string;
  os_path_isfile : pyval -> result bool;
  (** [open(path, "w")] followed by [json.dump]. *)
  write_json : string -> dict -> result unit
}.

(** *** Small pieces of Python *)

(** The double quote character. *)
Definition dquote : string := String (ascii_of_nat 34) "".

(** [s.replace(a, b)] for one-character [a] and [b]. *)
Fixpoint replace_char (a b : ascii) (s : string) : string :=
  match s with
  | EmptyString => EmptyString
  | String c s' =>
      String (if Ascii.eqb c a then b else c) (replace_char a b s')
  end.

(** [sep.join(l)]. *)
Fixpoint join (sep : string) (l : list string) : string :=
  match l with
  | [] => ""
  | [x] => x
  | x :: l' => x +:+ sep +:+ join sep l'
  end.

(** [v[k] = x] on a value expected to be a dictionary. *)
Definition setitem (v : pyval) (k : string) (x : pyval) : result pyval :=
  match v with
  | PDict d => inr (PDict (<[k:=x]> d))
  | _ => inl (TypeError "object does not support item assignment")
  end.

(** [v[0]]. *)
Definition first_item (v : pyval) : result pyval :=
  match v with
  | PList (x :: _) => inr x
  | PList [] => inl IndexError
  | PStr (String c _) => inr (PStr (String c ""))
  | PStr EmptyString => inl IndexError
  | PDict _ => inl (KeyError "0")
  | _ => inl (TypeError "object is not subscriptable")
  end.

(** [for x in v]: the items a [for] loop visits.  Iterating a dictionary
    visits its keys; the finite map does not record insertion order, so
    the keys come in the map's own order. *)
Definition iterate (v : pyval) : result (list pyval) :=
  match v with
  | PList l => inr l
  | PStr s => inr ((fun c => PStr (String c "")) <$> list_ascii_of_string s)
  | PDict d => inr (PStr <$> (map_to_list d).*1)
  | _ => inl (TypeError "object is not iterable")
  end.

(** [os.environ[k]]. *)
Definition environ_item (env : gmap string string) (k : string)
  : result string :=
  match env !! k with
  | Some v => inr v
  | None => inl (KeyError k)
  end.

(** [os.getenv(k)] used as a condition: set and not empty. *)
Definition getenv_truthy (env : gmap string string) (k : string) : bool :=
  match env !! k with
  | Some v => negb (String.eqb v "")
  | None => false
  end.

(** [os.environ.get(k)]. *)
Definition environ_get (env : gmap string string) (k : string) : pyval :=
  match env !! k with
  | Some v => PStr v
  | None => PNone
  end.

(** Assignment into an insertion-ordered dictionary: an existing key
    keeps its position. *)
Fixpoint odict_set (k : string) (v : pyval) (d : list (string * pyval))
  : list (string * pyval) :=
  match d with
  | [] => [(k, v)]
  | (k', v') :: d' =>
      if String.eqb k' k then (k, v) :: d' else (k', v') :: odict_set k v d'
  end.

(** [{item["name"]: item["value"] for item in self.aov_filter}]: a later
    item with the same name wins. *)
Definition aov_filter_dict (l : list (string * list string))
  : gmap string (list string) :=
  foldl (fun m it => <[it.1 := it.2]> m) ∅ l.

(** ["JobDependency{}".format(job_index)]. *)
Definition dependency_key (job_index : nat) : string :=
  "JobDependency" +:+ pretty job_index.

(** ["EnvironmentKeyValue%d" % index]. *)
Definition environment_key (index : nat) : string :=
  "EnvironmentKeyValue" +:+ pretty index.

(** Keys of the form [JobDependencyN] and [EnvironmentKeyValueN] begin
    with these prefixes. *)
Definition is_dependency_key (k : string) : bool :=
  String.prefix "JobDependency" k.

Definition is_environment_key (k : string) : bool :=
  String.prefix "EnvironmentKeyValue" k.

(** The loop [job_index = 0; for assembly_id in ids: ...; job_index += 1],
    started at [job_index]. *)
Fixpoint add_dependencies (job_index : nat) (ids : list pyval)
    (job_info : dict) : dict :=
  match ids with
  | [] => job_info
  | assembly_id :: rest =>
      add_dependencies (S job_index) rest
        (<[dependency_key job_index := assembly_id]> job_info)
  end.

(** What [_submit_deadline_post_job] returns once the farm has answered. *)
Definition submit_outcome (answer : result response) : result pyval :=
  match answer with
  | inl e => inl e
  | inr response =>
      if ok response then
        match json response with
        | inl e => inl e
        | inr body_json => subscript body_json "_id"
        end
      else inl (Exception (text response))
  end.

(** The keys of the [environment] literal, in the order they are written. *)
Definition fixed_environment_keys : list string :=
  [ "AYON_PROJECT_NAME"; "AYON_FOLDER_PATH"; "AYON_TASK_NAME";
    "AYON_USERNAME"; "AYON_LOG_NO_COLORS"; "AYON_IN_TESTS";
    "AYON_PUBLISH_JOB"; "AYON_RENDER_JOB"; "AYON_REMOTE_PUBLISH";
    "AYON_BUNDLE_NAME"; "AYON_DEFAULT_SETTINGS_VARIANT" ].

(** ["{key}={value}".format(key=key_, value=value_)]. *)
Definition environment_entry (str_of : pyval -> string)
    (item : string * pyval) : pyval :=
  PStr (item.1 +:+ "=" +:+ str_of item.2).

(** The keys [_get_publish_folder] assigns in the template data. *)
Definition resolver_keys : list string :=
  [ "version"; "subset"; "family"; "product" ].

Section WithCollaborators.

Variable ext : collaborators.
Variable self : plugin.

(** [instance.context.data]; the plugin only reads it. *)
Variable context_data : dict.

(** [int(x)]. *)
Definition py_int (v : pyval) : result Z :=
  match v with
  | PInt n => inr n
  | PBool b => inr (if b then 1 else 0)%Z
  | PStr s => int_of_str ext s
  | _ => inl (TypeError "int() argument must be a string or a number")
  end.

(** *** Folder Resolver: [_get_publish_folder] *)

(** The [else] branch of [if version_entity:]: the start version of the
    versioning policy. *)
Definition start_version (template_data product_name project_name
    host_name : pyval) : M pyval :=
  task <- lift (subscript template_data "task") ;;
  task_name <- lift (subscript task "name") ;;
  task' <- lift (subscript template_data "task") ;;
  task_type <- lift (subscript task' "type") ;;
  project_settings <- lift (getitem context_data "project_settings") ;;
  call (GetVersioningStart project_name host_name task_name task_type
          "render" product_name)
    (get_versioning_start ext project_name host_name task_name task_type
       "render" product_name project_settings).

(** The [if not version:] block: the version number the directory is
    formatted with. *)
Definition resolve_version (template_data folder_entity product_name
    project_name host_name version : pyval) : M pyval :=
  if negb (truthy version) then
    version_entity <-
      (if truthy folder_entity then
         folder_id <- lift (subscript folder_entity "id") ;;
         call (GetLastVersionByProductName project_name product_name folder_id)
           (get_last_version_by_product_name ext
              project_name product_name folder_id)
       else ret PNone) ;;
    if truthy version_entity then
      latest <- lift (subscript version_entity "version") ;;
      n <- lift (py_int latest) ;;
      ret (PInt (n + 1))
    else
      start_version template_data product_name project_name host_name
  else ret version.

Definition _get_publish_folder (anatomy template_data folder_entity
    product_name product_type version : pyval) : M string :=
  project_name <- lift (getitem context_data "projectName") ;;
  host_name <- lift (getitem context_data "hostName") ;;
  version <- resolve_version template_data folder_entity product_name
               project_name host_name version ;;
  host_name <- lift (getitem context_data "hostName") ;;
  task <- lift (get_of template_data "task") ;;
  let task_info := py_or task (PDict ∅) in
  task_name <- lift (get_of task_info "name") ;;
  task_type <- lift (get_of task_info "type") ;;
  template_name <-
    call (GetPublishTemplateName product_type task_name task_type)
      (get_publish_template_name ext project_name host_name product_type
         task_name task_type) ;;
  template_data <- lift (setitem template_data "version" version) ;;
  template_data <- lift (setitem template_data "subset" product_name) ;;
  template_data <- lift (setitem template_data "family" product_type) ;;
  template_data <-
    lift (setitem template_data "product"
            (PDict (<["type" := product_type]>
                      (<["name" := product_name]> ∅)))) ;;
  call (FormatStrict template_name template_data)
    (format_strict ext anatomy template_name template_data).

(** *** Dependent Job Submitter: [_submit_deadline_post_job] *)

(** [override_version]: [None], replaced by the instance's version when
    [instance_version != 1]. *)
Definition override_version (data : dict) : pyval :=
  let instance_version := get data "version" in
  if negb (eq_int instance_version 1) then instance_version else PNone.

(** The [environment] dictionary literal, in the order it is written. *)
Definition base_environment (settings_variant : string)
  : M (list (string * pyval)) :=
  project_name <- lift (getitem context_data "projectName") ;;
  folder_path <- lift (getitem context_data "folderPath") ;;
  task <- lift (getitem context_data "task") ;;
  user <- lift (getitem context_data "user") ;;
  bundle <- lift (environ_item (environ ext) "AYON_BUNDLE_NAME") ;;
  ret [ ("AYON_PROJECT_NAME", project_name);
        ("AYON_FOLDER_PATH", folder_path);
        ("AYON_TASK_NAME", task);
        ("AYON_USERNAME", user);
        ("AYON_LOG_NO_COLORS", PStr "1");
        ("AYON_IN_TESTS", PStr (if is_in_tests ext then "1" else "0"));
        ("AYON_PUBLISH_JOB", PStr "1");
        ("AYON_RENDER_JOB", PStr "0");
        ("AYON_REMOTE_PUBLISH", PStr "0");
        ("AYON_BUNDLE_NAME", PStr bundle);
        ("AYON_DEFAULT_SETTINGS_VARIANT", PStr settings_variant) ].

(** [for env_key in self.environ_keys: ...]. *)
Definition forward_environ (environment : list (string * pyval))
  : list (string * pyval) :=
  foldl (fun acc env_key =>
           if getenv_truthy (environ ext) env_key
           then odict_set env_key (environ_get (environ ext) env_key) acc
           else acc)
        environment (environ_keys self).

(** [for index, (key_, value_) in enumerate(environment.items()): ...],
    started at [index]. *)
Fixpoint add_environment (index : nat) (items : list (string * pyval))
    (job_info : dict) : dict :=
  match items with
  | [] => job_info
  | (key_, value_) :: rest =>
      add_environment (S index) rest
        (<[environment_key index :=
             PStr (key_ +:+ "=" +:+ str_of ext value_)]> job_info)
  end.

(** The command line of the publish process. *)
Definition publish_arguments (rootless_metadata_path settings_variant : string)
  : list string :=
  let args := [ "--headless"; "publish";
                dquote +:+ rootless_metadata_path +:+ dquote;
                "--targets"; "deadline"; "--targets"; "farm" ] in
  if String.eqb settings_variant "staging"
  then (args ++ ["--use-staging"])%list else args.

(** [secondary_pool]. *)
Definition secondary_pool (data : dict) : pyval :=
  py_or (PStr (deadline_pool_secondary self)) (get data "secondaryPool").

(** The [payload] dictionary literal. *)
Definition initial_payload (data : dict) (batch user : pyval)
    (job_name : string) (priority initial_status : pyval)
    (output_dir : string) (args : list string) : payload :=
  {| JobInfo :=
       list_to_map [
         ("Plugin", PStr "Ayon");
         ("BatchName", batch);
         ("Name", PStr job_name);
         ("UserName", user);
         ("Comment", get_default context_data "comment" (PStr ""));
         ("Department", PStr (deadline_department self));
         ("ChunkSize", PInt 1);
         ("Priority", priority);
         ("InitialStatus", initial_status);
         ("Group", PStr (deadline_group self));
         ("Pool", py_or (PStr (deadline_pool self)) (get data "primaryPool"));
         ("SecondaryPool", secondary_pool data);
         ("OutputDirectory0",
          PStr (replace_char (ascii_of_nat 92) (ascii_of_nat 47) output_dir))
       ];
     PluginInfo :=
       list_to_map [
         ("Version", PStr (plugin_pype_version self));
         ("Arguments", PStr (join " " args));
         ("SingleFrameOnly", PStr "True")
       ];
     AuxFiles := [] |}.

(** The [if]/[elif]/[elif] chain that adds the [JobDependencyN] keys. *)
Definition add_job_dependencies (data : dict) (job : pyval) (job_info : dict)
  : M dict :=
  if truthy (get data "tileRendering") then
    emit (Log "info" "Adding tile assembly jobs as dependencies...") ;;;
    ids <- lift (iterate (get data "assemblySubmissionJobs")) ;;
    ret (add_dependencies 0 ids job_info)
  else if truthy (get data "bakingSubmissionJobs") then
    emit (Log "info" "Adding baking submission jobs as dependencies...") ;;;
    baking <- lift (getitem data "bakingSubmissionJobs") ;;
    ids <- lift (iterate baking) ;;
    ret (add_dependencies 0 ids job_info)
  else
    job_id <- lift (get_of job "_id") ;;
    if truthy job_id then
      job_id <- lift (subscript job "_id") ;;
      ret (<["JobDependency0" := job_id]> job_info)
    else ret job_info.

(** Everything up to the HTTP call: the payload as it is posted. *)
Definition build_payload (job : pyval) (instances : list dict) : M payload :=
  data <- read_data ;;
  product_name <- lift (getitem data "productName") ;;
  let job_name := "Publish - " +:+ str_of ext product_name in
  anatomy <- lift (getitem context_data "anatomy") ;;
  anatomy_data <- lift (getitem data "anatomyData") ;;
  first <- lift (match instances with
                 | i :: _ => inr i
                 | [] => inl IndexError
                 end) ;;
  product_name0 <- lift (getitem first "productName") ;;
  product_type0 <- lift (getitem first "productType") ;;
  output_dir <- _get_publish_folder anatomy anatomy_data
                  (get data "folderEntity") product_name0 product_type0
                  (override_version data) ;;
  paths <- call CreateMetadataPath
             (create_metadata_path ext data context_data anatomy) ;;
  let rootless_metadata_path := paths.2 in
  settings_variant <-
    lift (environ_item (environ ext) "AYON_DEFAULT_SETTINGS_VARIANT") ;;
  environment <- base_environment settings_variant ;;
  let environment := forward_environ environment in
  let priority :=
    py_or (deadline_priority self) (get_default data "priority" (PInt 50)) in
  instance_settings <- lift (get_attr_values_from_data ext data) ;;
  let initial_status :=
    get_default instance_settings "publishJobState" (PStr "Active") in
  let args := publish_arguments rootless_metadata_path settings_variant in
  props <- lift (subscript job "Props") ;;
  batch <- lift (subscript props "Batch") ;;
  props' <- lift (subscript job "Props") ;;
  user <- lift (subscript props' "User") ;;
  let payload0 :=
    initial_payload data batch user job_name priority initial_status
      output_dir args in
  job_info <- add_job_dependencies data job (JobInfo payload0) ;;
  let job_info := add_environment 0 environment job_info in
  let job_info := delete "SecondaryPool" job_info in
  ret {| JobInfo := job_info;
         PluginInfo := PluginInfo payload0;
         AuxFiles := AuxFiles payload0 |}.

Definition _submit_deadline_post_job (job : pyval) (instances : list dict)
  : M pyval :=
  body <- build_payload job instances ;;
  emit (Log "debug" "Submitting Deadline publish job ...") ;;;
  deadline_url <- read_url ;;
  let url := str_of ext deadline_url +:+ "/api/jobs" in
  data <- read_data ;;
  deadline <- lift (getitem data "deadline") ;;
  auth <- lift (subscript deadline "auth") ;;
  deadline' <- lift (getitem data "deadline") ;;
  verify <- lift (subscript deadline' "verify") ;;
  let answer := requests_post ext url body 10 auth verify in
  response <- call (RequestsPost url body 10 answer) answer ;;
  if negb (ok response) then raise (Exception (text response))
  else
    body_json <- lift (json response) ;;
    deadline_publish_job_id <- lift (subscript body_json "_id") ;;
    ret deadline_publish_job_id.

(** *** Plugin entry point: [process] *)

(** From [anatomy = ...] to the [attachTo] step: the skeleton instance
    and the synthesized publish instances. *)
Definition synthesize_instances : M (pyval * dict * list dict) :=
  data <- read_data ;;
  anatomy <- lift (getitem context_data "anatomy") ;;
  instance_skeleton_data <-
    call CreateSkeletonInstance
      (create_skeleton_instance ext data context_data
         (families_transfer self) (instance_transfer self)) ;;
  do_not_add_review <-
    (if is_False (get data "review") then
       emit (Log "debug" "Instance has review explicitly disabled.") ;;;
       ret true
     else ret false) ;;
  let aov_filter := aov_filter_dict (aov_filter self) in
  first <- lift (first_item (get data "expectedFiles")) ;;
  skeleton_instances <-
    match first with
    | PDict _ =>
        instances <-
          call CreateInstancesForAov
            (create_instances_for_aov ext data context_data
               instance_skeleton_data aov_filter
               (skip_integration_repre_list self) do_not_add_review) ;;
        ret (instance_skeleton_data, instances)
    | _ =>
        representations <-
          call PrepareRepresentations
            (prepare_representations ext instance_skeleton_data
               (get data "expectedFiles") anatomy aov_filter
               (skip_integration_repre_list self) do_not_add_review
               context_data) ;;
        let skeleton :=
          match instance_skeleton_data !! "representations" with
          | Some _ => instance_skeleton_data
          | None => <["representations" := PList []]> instance_skeleton_data
          end in
        existing <- lift (getitem skeleton "representations") ;;
        extended <-
          lift (match existing with
                | PList l => inr (PList (l ++ representations))
                | _ => inl (TypeError "unsupported operand type(s) for +=")
                end) ;;
        let skeleton := <["representations" := extended]> skeleton in
        ret (skeleton, [skeleton])
    end ;;
  let '(instance_skeleton_data, instances) := skeleton_instances in
  instances <-
    (if truthy (get data "attachTo") then
       call AttachInstancesToProduct
         (attach_instances_to_product ext (get data "attachTo") instances)
     else ret instances) ;;
  ret (anatomy, instance_skeleton_data, instances).

(** The record assembled in the [if not render_job:] block: [Props] with
    the batch name, the user and the three environment values. *)
Definition fabricated_render_job (batch user : pyval) : pyval :=
  let env : dict :=
    <["FTRACK_SERVER" := environ_get (environ ext) "FTRACK_SERVER"]>
      (<["FTRACK_API_KEY" := environ_get (environ ext) "FTRACK_API_KEY"]>
         (<["FTRACK_API_USER" := environ_get (environ ext) "FTRACK_API_USER"]>
            ∅)) in
  let props : dict :=
    <["Env" := PDict env]> (<["User" := user]> (<["Batch" := batch]> ∅)) in
  PDict (<["Props" := PDict props]> ∅).

(** The [if not render_job:] block: the record fabricated when no prior
    farm submission exists. *)
Definition fake_render_job (data : dict) : M pyval :=
  emit (Log "debug" "Faking job data ...") ;;;
  batch <-
    (if truthy (get data "assemblySubmissionJobs") then
       ret (get data "jobBatchName")
     else
       base <- lift (os_path_basename ext (get context_data "currentFile")) ;;
       ret (PStr (os_path_splitext ext base).1)) ;;
  os_user <- lift (getpass_getuser ext) ;;
  let user := get_default context_data "deadlineUser" (PStr os_user) in
  ret (fabricated_render_job batch user).

(** From [instance.data.pop("deadlineSubmissionJob", None)] to the end of
    the fabrication block. *)
Definition get_render_job : M pyval :=
  data <- read_data ;;
  let render_job := get data "deadlineSubmissionJob" in
  write_data (delete "deadlineSubmissionJob" data) ;;;
  data <- read_data ;;
  if negb (truthy render_job) && is_False (get data "tileRendering") then
    raise (AssertionError "Cannot continue without valid Deadline submission.")
  else if negb (truthy render_job) then fake_render_job data
  else ret render_job.

(** The keys every metadata file carries. *)
Definition metadata_keys : list string :=
  [ "folderPath"; "frameStart"; "frameEnd"; "fps"; "source"; "user";
    "version"; "intent"; "comment"; "job"; "instances" ].

(** The [publish_job] dictionary, with its two optional keys. *)
Definition build_publish_job (instance_skeleton_data : dict)
    (render_job : pyval) (instances : list dict)
    (deadline_publish_job_id : pyval) : M dict :=
  folder_path <- lift (getitem instance_skeleton_data "folderPath") ;;
  frame_start <- lift (getitem instance_skeleton_data "frameStart") ;;
  frame_end <- lift (getitem instance_skeleton_data "frameEnd") ;;
  fps <- lift (getitem instance_skeleton_data "fps") ;;
  source <- lift (getitem instance_skeleton_data "source") ;;
  user <- lift (getitem context_data "user") ;;
  version <- lift (getitem context_data "version") ;;
  let publish_job : dict :=
    list_to_map [
      ("folderPath", folder_path);
      ("frameStart", frame_start);
      ("frameEnd", frame_end);
      ("fps", fps);
      ("source", source);
      ("user", user);
      ("version", version);
      ("intent", get context_data "intent");
      ("comment", get context_data "comment");
      ("job", py_or render_job PNone);
      ("instances", PList (PDict <$> instances))
    ] in
  let publish_job :=
    if truthy deadline_publish_job_id
    then <["deadline_publish_job_id" := deadline_publish_job_id]> publish_job
    else publish_job in
  let audio_file := get context_data "audioFile" in
  if truthy audio_file then
    is_file <- lift (os_path_isfile ext audio_file) ;;
    ret (if is_file : bool then <["audio" := audio_file]> publish_job
         else publish_job)
  else ret publish_job.

(** From [self.deadline_url = ...] to the end of [process]: the farm
    submission and the metadata file. *)
Definition submit_and_write_metadata (anatomy : pyval)
    (instance_skeleton_data : dict) (instances : list dict)
    (render_job : pyval) : M unit :=
  data <- read_data ;;
  deadline <- lift (getitem data "deadline") ;;
  deadline_url <- lift (subscript deadline "url") ;;
  write_url deadline_url ;;;
  (if truthy deadline_url then ret tt
   else raise (AssertionError "Requires Deadline Webservice URL")) ;;;
  deadline_publish_job_id <-
    _submit_deadline_post_job render_job instances ;;
  data <- read_data ;;
  instances <-
    (match instances with
     | [] => ret []
     | _ =>
         deadline <- lift (getitem data "deadline") ;;
         ret ((fun inst : dict => <["deadline" := deadline]> inst)
                <$> instances)
     end) ;;
  publish_job <-
    build_publish_job instance_skeleton_data render_job instances
      deadline_publish_job_id ;;
  paths <- call CreateMetadataPath
             (create_metadata_path ext data context_data anatomy) ;;
  let metadata_path := paths.1 in
  call (WriteFile metadata_path publish_job)
    (write_json ext metadata_path publish_job).

Definition process : M unit :=
  data <- read_data ;;
  if negb (truthy (get data "farm")) then
    emit (Log "debug" "Skipping local instance.")
  else
    synthesized <- synthesize_instances ;;
    let '(anatomy, instance_skeleton_data, instances) := synthesized in
    render_job <- get_render_job ;;
    submit_and_write_metadata anatomy instance_skeleton_data instances
      render_job.

End WithCollaborators.

End Plugin.

(** ** A concrete scenario

    The end-to-end scenario of the specification: a farm render instance
    with two expected frames and an existing render job [abc123].  The
    collaborators are small stand-ins that answer like the real services
    do on this scenario. *)

Module Scenario.
Import Clique Plugin.

Definition foo_collection : Collection :=
  {| head := "foo."; tail := ".exr"; padding := 4; indexes := [1; 2; 3; 4]%Z |}.

Definition foo_files : list string :=
  ["foo.0001.exr"; "foo.0002.exr"; "foo.0003.exr"; "foo.0004.exr"].

(** [clique.assemble] on the names used below. *)
Definition assemble (resources : list string)
  : list Collection * list string :=
  if bool_decide (resources = foo_files) then ([foo_collection], [])
  else if bool_decide (resources = (foo_files ++ ["bar.0001.exr"; "bar.0002.exr"])%list)
  then ([foo_collection;
         {| head := "bar."; tail := ".exr"; padding := 4;
            indexes := [1; 2]%Z |}], [])
  else ([], resources).

Definition str_of (v : pyval) : string :=
  match v with
  | PNone => "None"
  | PBool true => "True"
  | PBool false => "False"
  | PInt n => pretty n
  | PStr s => s
  | PList _ => "[...]"
  | PDict _ => "{...}"
  end.

Definition skeleton : dict :=
  list_to_map [
    ("folderPath", PStr "/shots/sh010");
    ("frameStart", PInt 1);
    ("frameEnd", PInt 2);
    ("fps", PInt 25);
    ("source", PStr "{root[work]}/sh010/work/sh010_v003.ma");
    ("productName", PStr "renderMain");
    ("productType", PStr "render")
  ].

Definition representation : pyval :=
  PDict (list_to_map [
    ("name", PStr "exr");
    ("ext", PStr "exr");
    ("files", PList [PStr "foo.0001.exr"; PStr "foo.0002.exr"]);
    ("frameStart", PInt 1);
    ("frameEnd", PInt 2)
  ]).

Definition farm_success : response :=
  {| ok := true;
     text := "{_id: pub42}";
     json := inr (PDict {[ "_id" := PStr "pub42" ]}) |}.

Definition farm_failure : response :=
  {| ok := false;
     text := "internal error";
     json := inl (External "json" "Expecting value") |}.

(** The tracking service knows version 7 of product [renderMain]. *)
Definition last_version (project_name product_name folder_id : pyval)
  : result pyval :=
  match product_name with
  | PStr "renderMain" => inr (PDict {[ "version" := PInt 7 ]})
  | _ => inr PNone
  end.

Definition collaborators_with (farm : response) : collaborators :=
  {| Plugin.str_of := str_of;
     int_of_str := fun _ => inl (External "int" "invalid literal");
     create_skeleton_instance := fun _ _ _ _ => inr skeleton;
     create_instances_for_aov := fun _ _ sk _ _ _ => inr [sk];
     prepare_representations := fun _ _ _ _ _ _ _ => inr [representation];
     attach_instances_to_product := fun _ instances => inr instances;
     create_metadata_path := fun _ _ _ =>
       inr ("/renders/sh010/renderMain_metadata.json",
            "{root[work]}/renders/sh010/renderMain_metadata.json");
     get_attr_values_from_data := fun _ => inr ∅;
     is_in_tests := false;
     get_last_version_by_product_name := last_version;
     get_versioning_start := fun _ _ _ _ _ _ _ => inr (PInt 1);
     get_publish_template_name := fun _ _ _ _ _ => inr (PStr "render");
     format_strict := fun _ _ template_data =>
       match template_data with
       | PDict d =>
           inr ("/publish/sh010/renderMain/v" +:+ str_of (get d "version"))
       | _ => inl (External "format_strict" "missing keys")
       end;
     requests_post := fun _ _ _ _ _ => inr farm;
     environ := list_to_map [
       ("AYON_DEFAULT_SETTINGS_VARIANT", "production");
       ("AYON_BUNDLE_NAME", "bundle-1");
       ("AYON_USERNAME", "artist")
     ];
     getpass_getuser := inr "osuser";
     os_path_basename := fun v =>
       match v with
       | PStr _ => inr "sh010_v003.ma"
       | _ => inl (TypeError "expected str, bytes or os.PathLike object")
       end;
     os_path_splitext := fun _ => ("sh010_v003", ".ma");
     os_path_isfile := fun v =>
       inr (match v with PStr "/audio/sh010.wav" => true | _ => false end);
     write_json := fun _ _ => inr tt |}.

Definition context_data : dict :=
  list_to_map [
    ("anatomy", PStr "<anatomy>");
    ("projectName", PStr "demo");
    ("hostName", PStr "maya");
    ("folderPath", PStr "/shots/sh010");
    ("task", PStr "lighting");
    ("user", PStr "artist");
    ("version", PInt 3);
    ("currentFile", PStr "/work/sh010/sh010_v003.ma");
    ("project_settings", PDict ∅)
  ].

Definition anatomy_data : pyval :=
  PDict {[ "task" := PDict (list_to_map [("name", PStr "lighting");
                                          ("type", PStr "Lighting")]) ]}.

Definition render_job : pyval :=
  PDict (list_to_map [
    ("_id", PStr "abc123");
    ("Props", PDict (list_to_map [("Batch", PStr "sh010_v003");
                                  ("User", PStr "artist")]))
  ]).

Definition deadline_info : pyval :=
  PDict (list_to_map [("url", PStr "http://farm:8082");
                      ("auth", PNone);
                      ("verify", PBool true)]).

(** The instance data of the scenario. *)
Definition instance_data : dict :=
  list_to_map [
    ("farm", PBool true);
    ("productName", PStr "renderMain");
    ("anatomyData", anatomy_data);
    ("folderEntity", PDict {[ "id" := PStr "f-010" ]});
    ("expectedFiles", PList [PStr "foo.0001.exr"; PStr "foo.0002.exr"]);
    ("deadlineSubmissionJob", render_job);
    ("deadline", deadline_info)
  ].

(** Variations of the instance data. *)
Definition tile_ids_without_flag : dict :=
  <["assemblySubmissionJobs" := PList [PStr "tileA"; PStr "tileB"]]>
    (<["tileRendering" := PBool false]> instance_data).

Definition tile_flag_without_ids : dict :=
  <["assemblySubmissionJobs" := PList []]>
    (<["tileRendering" := PBool true]> instance_data).

Definition tile_instance : dict :=
  <["bakingSubmissionJobs" := PList [PStr "bake0"]]>
    (<["assemblySubmissionJobs" := PList [PStr "tileA"; PStr "tileB"]]>
       (<["tileRendering" := PBool true]> instance_data)).

Definition initial (data : dict) : state :=
  {| inst_data := data; self_deadline_url := PNone |}.

(** The state in which [_submit_deadline_post_job] runs: [process] has
    stored the webservice URL. *)
Definition submitting (data : dict) : state :=
  {| inst_data := data; self_deadline_url := PStr "http://farm:8082" |}.

(** The scenario with a farm that accepts the job, and with one that
    answers HTTP 500. *)
Definition ext : collaborators := collaborators_with farm_success.

Definition ext_failing : collaborators := collaborators_with farm_failure.

(** An instance that is not meant for the farm. *)
Definition local_instance : dict := delete "farm" instance_data.

(** An instance without a prior farm submission, in a context that names
    the farm user. *)
Definition unsubmitted_instance : dict :=
  delete "deadlineSubmissionJob" instance_data.

Definition context_with_deadline_user : dict :=
  <["deadlineUser" := PStr "farm-user"]> context_data.

(** A context that names an audio file. *)
Definition context_with_audio : dict :=
  <["audioFile" := PStr "/audio/sh010.wav"]> context_data.

(** The first payload posted among the events, if any. *)
Definition posted (t : list event) : option payload :=
  hd_error (omap (fun ev => match ev with
                        | RequestsPost _ body _ _ => Some body
                        | _ => None
                        end) t).

Definition empty_payload : payload :=
  {| JobInfo := ∅; PluginInfo := ∅; AuxFiles := [] |}.

(** The first metadata content written among the events, if any. *)
Definition written (t : list event) : option dict :=
  hd_error (omap (fun ev => match ev with
                            | WriteFile _ content => Some content
                            | _ => None
                            end) t).

(** The submission of the scenario's instance data [data]. *)
Definition submission (data : dict) : M pyval :=
  _submit_deadline_post_job ext class_defaults context_data render_job
    [skeleton].

Definition posted_body (data : dict) : payload :=
  default empty_payload (posted (events_of (submission data) (submitting data))).

Definition posted_url : string := "http://farm:8082/api/jobs".

Definition metadata_path : string := "/renders/sh010/renderMain_metadata.json".

Definition written_content : dict :=
  default ∅
    (written (events_of (process ext class_defaults context_with_audio)
                (initial instance_data))).

(** The payload [process] posts for the scenario's instance. *)
Definition process_posted_body : payload :=
  default empty_payload
    (posted (events_of (process ext class_defaults context_data)
               (initial instance_data))).

(** A farm record that names no webservice, and an instance with it. *)
Definition no_url_deadline : pyval :=
  PDict (list_to_map [("url", PStr "");
                      ("auth", PNone);
                      ("verify", PBool true)]).

Definition no_url_instance : dict :=
  <["deadline" := no_url_deadline]> instance_data.

(** An instance that expects no files. *)
Definition no_files_instance : dict :=
  <["expectedFiles" := PList []]> instance_data.

(** The template data the folder resolver formats the directory with
    when it is called with the scenario's anatomy data and version 5. *)
Definition formatted_data : dict :=
  <["product" := PDict (<["type" := PStr "render"]>
                          (<["name" := PStr "renderMain"]> ∅))]>
    (<["family" := PStr "render"]>
       (<["subset" := PStr "renderMain"]>
          (<["version" := PInt 5]>
             {[ "task" := PDict (list_to_map [("name", PStr "lighting");
                                              ("type", PStr "Lighting")]) ]}))).

End Scenario.

Import Clique ResourceCollector Plugin.


(** * Properties *)

(** ** Resource Collector *)

Section ResourceCollectorFacts.

Variable assemble : list string -> list Collection * list string.

Lemma list_ascii_of_string_app (a b : string) :
  list_ascii_of_string (a +:+ b)
  = (list_ascii_of_string a ++ list_ascii_of_string b)%list.
Proof.
  induction a as [|c a IH]; simpl; [done|]. by rewrite IH.
Qed.

Lemma string_app_inv_tail (a b t : string) : a +:+ t = b +:+ t -> a = b.
Proof.
  intros H.
  apply (f_equal list_ascii_of_string) in H.
  rewrite !list_ascii_of_string_app in H.
  apply app_inv_tail in H.
  apply (f_equal string_of_list_ascii) in H.
  by rewrite !string_of_list_ascii_of_string in H.
Qed.

Lemma uint_of_string_zeros (k : nat) (s : string) :
  NilEmpty.uint_of_string (zeros k +:+ s)
  = Nat.iter k Decimal.D0 <$> NilEmpty.uint_of_string s.
Proof.
  induction k as [|k IH].
  - change (zeros 0 +:+ s) with s. by destruct (NilEmpty.uint_of_string s).
  - change (zeros (S k) +:+ s) with (String "0" (zeros k +:+ s)).
    cbn [NilEmpty.uint_of_string]. rewrite IH.
    by destruct (NilEmpty.uint_of_string s).
Qed.

Lemma of_uint_iter_D0 (k : nat) (d : Decimal.uint) :
  N.of_uint (Nat.iter k Decimal.D0 d) = N.of_uint d.
Proof. induction k as [|k IH]; simpl; [done|]. exact IH. Qed.

Lemma parse_digits_zfill (w : nat) (n : N) :
  parse_digits (zfill w (digits n)) = Some n.
Proof.
  unfold parse_digits, zfill, digits.
  rewrite uint_of_string_zeros, NilEmpty.usu. simpl.
  by rewrite of_uint_iter_D0, DecimalN.Unsigned.of_to.
Qed.

Lemma parse_digits_minus (r : string) : parse_digits (String "-" r) = None.
Proof.
  unfold parse_digits. cbn [NilEmpty.uint_of_string].
  by destruct (NilEmpty.uint_of_string r).
Qed.

Lemma parse_format_index (w : nat) (i : Z) :
  parse_index (format_index w i) = Some i.
Proof.
  unfold format_index, parse_index.
  destruct (Z.ltb_spec i 0) as [Hneg|Hpos].
  - rewrite parse_digits_minus, parse_digits_zfill. simpl. f_equal. lia.
  - rewrite parse_digits_zfill. f_equal. lia.
Qed.

Lemma format_index_inj (w : nat) : Inj (=) (=) (format_index w).
Proof.
  intros i j H. apply (f_equal parse_index) in H.
  rewrite !parse_format_index in H. congruence.
Qed.

Lemma item_inj (c : Collection) : Inj (=) (=) (item c).
Proof.
  intros i j H. unfold item in H.
  apply String.app_inj, string_app_inv_tail in H.
  by apply format_index_inj in H.
Qed.

Lemma well_formed_NoDup (c : Collection) : well_formed c -> NoDup (indexes c).
Proof.
  unfold well_formed. induction 1 as [|i idx _ IH Hall]; constructor; [|done].
  intros Hin. rewrite Forall_forall in Hall.
  specialize (Hall i Hin). lia.
Qed.

Lemma discard_sublist (frame : Z) (idx : list Z) :
  discard frame idx `sublist_of` idx.
Proof.
  induction idx as [|i idx IH]; simpl; [done|].
  case_bool_decide; [by apply sublist_cons | by apply sublist_skip].
Qed.

Lemma elem_of_discard (frame i : Z) (idx : list Z) :
  NoDup idx -> i ∈ discard frame idx <-> i ∈ idx ∧ i ≠ frame.
Proof.
  induction 1 as [|j idx Hj Hnd IH]; simpl.
  - set_solver.
  - case_bool_decide as Heq.
    + subst j. split.
      * intros Hin. split; [by right|]. by intros ->.
      * intros [[->|Hin]%elem_of_cons Hne]; done.
    + rewrite !elem_of_cons, IH. naive_solver.
Qed.

(** The removal loop never raises on a duplicate-free index list, keeps
    the order, and drops exactly the frames listed in [frame_range]. *)
Lemma remove_frames_spec (frame_range idx : list Z) :
  NoDup idx ->
  ∃ idx', remove_frames frame_range idx = inr idx'
          ∧ idx' `sublist_of` idx
          ∧ ∀ i, i ∈ idx' <-> i ∈ idx ∧ i ∉ frame_range.
Proof.
  revert idx. induction frame_range as [|frame rest IH]; intros idx Hnd.
  - exists idx. simpl. split_and!; [done|done|set_solver].
  - simpl. unfold remove, mem. case_bool_decide as Hin; simpl.
    + destruct (IH (discard frame idx)) as (idx' & Heq & Hsub & Hmem).
      { eapply sublist_NoDup; [done|apply discard_sublist]. }
      exists idx'. split_and!; [done| |].
      * etrans; [done|apply discard_sublist].
      * intros i. rewrite Hmem, elem_of_discard, not_elem_of_cons by done.
        naive_solver.
    + destruct (IH idx Hnd) as (idx' & Heq & Hsub & Hmem).
      exists idx'. split_and!; [done|done|].
      intros i. rewrite Hmem, not_elem_of_cons. naive_solver.
Qed.

(** C5: when [clique.assemble] detects more than one collection among the
    input names, [get_resource_files] raises the assertion error
    ["Multiple collections found"], with or without a frame range; it
    returns none of the sequences. *)
Theorem get_resource_files_multiple_collections
    (resources : list string) (frame_range : option (list Z)) :
  1 < length (assemble resources).1 ->
  get_resource_files assemble resources frame_range
  = inl (AssertionError "Multiple collections found").
Proof.
  unfold get_resource_files.
  destruct (assemble resources) as [[|c1 [|c2 cs]] rest]; simpl; [lia|lia|done].
Qed.

(** C6: when the input names form exactly one collection [c], then without
    a frame range the result is the full member list of [c] in index
    order; with a frame range the call succeeds, the member of frame [i]
    is in the result exactly when [i] is not listed in the frame range,
    and the result keeps the members' original order. *)
Theorem get_resource_files_single_collection
    (resources : list string) (c : Collection) (rest : list string) :
  assemble resources = ([c], rest) ->
  well_formed c ->
  get_resource_files assemble resources None = inr (members c)
  ∧ ∀ frame_range : list Z, ∃ out : list string,
      get_resource_files assemble resources (Some frame_range) = inr out
      ∧ (∀ i, i ∈ indexes c -> item c i ∈ out <-> i ∉ frame_range)
      ∧ out `sublist_of` members c.
Proof.
  intros Hasm Hwf. unfold get_resource_files. rewrite Hasm. split; [done|].
  intros frame_range.
  destruct (remove_frames_spec frame_range (indexes c)) as (idx & -> & Hsub & Hmem).
  { by apply well_formed_NoDup. }
  eexists. split; [done|]. unfold members. simpl. split.
  - intros i Hi.
    change (map (item (set_indexes c idx)) idx) with (item c <$> idx).
    pose proof (item_inj c) as Hinj. rewrite (list_elem_of_fmap_inj (item c)).
    rewrite Hmem. naive_solver.
  - change (map (item (set_indexes c idx)) idx) with (item c <$> idx).
    by apply fmap_sublist.
Qed.

End ResourceCollectorFacts.

Lemma get_resource_files_multiple_collections_witness :
  get_resource_files Scenario.assemble
    (Scenario.foo_files ++ ["bar.0001.exr"; "bar.0002.exr"])%list
    (Some [2]%Z)
  = inl (AssertionError "Multiple collections found").
Proof.
  apply (get_resource_files_multiple_collections Scenario.assemble).
  vm_compute. lia.
Defined.

Lemma get_resource_files_single_collection_witness :
  get_resource_files Scenario.assemble Scenario.foo_files None
  = inr Scenario.foo_files
  ∧ ∀ frame_range : list Z, ∃ out : list string,
      get_resource_files Scenario.assemble Scenario.foo_files (Some frame_range)
      = inr out
      ∧ (∀ i, i ∈ indexes Scenario.foo_collection ->
           item Scenario.foo_collection i ∈ out <-> i ∉ frame_range)
      ∧ out `sublist_of` members Scenario.foo_collection.
Proof.
  apply (get_resource_files_single_collection Scenario.assemble
           Scenario.foo_files Scenario.foo_collection []).
  - vm_compute. reflexivity.
  - unfold well_formed. simpl. repeat (constructor; try lia).
Defined.

(** ** The effect monad *)

Section MonadFacts.

Context {A B : Type}.

Lemma bind_eq (m : M A) (f : A -> M B) (s : state) :
  bind m f s
  = match m s with
    | (inr a, s', t) => let '(r, s'', t') := f a s' in (r, s'', (t ++ t')%list)
    | (inl e, s', t) => (inl e, s', t)
    end.
Proof. reflexivity. Qed.

Lemma bind_inr (m : M A) (f : A -> M B) (s s1 : state) (a : A) (t1 : list event) :
  m s = (inr a, s1, t1) ->
  bind m f s = ((f a s1).1.1, (f a s1).1.2, (t1 ++ (f a s1).2)%list).
Proof. intros H. rewrite bind_eq, H. by destruct (f a s1) as [[??]?]. Qed.

Lemma bind_inl (m : M A) (f : A -> M B) (s s1 : state) (e : exn) (t1 : list event) :
  m s = (inl e, s1, t1) -> bind m f s = (inl e, s1, t1).
Proof. intros H. by rewrite bind_eq, H. Qed.

Lemma readonly_ret (P : event -> Prop) (a : A) : readonly P (ret a).
Proof. intros s. by split; [|constructor]. Qed.

Lemma readonly_raise (P : event -> Prop) (e : exn) : readonly P (@raise A e).
Proof. intros s. by split; [|constructor]. Qed.

Lemma readonly_lift (P : event -> Prop) (r : result A) : readonly P (lift r).
Proof. intros s. by split; [|constructor]. Qed.

Lemma readonly_call (P : event -> Prop) (ev : event) (r : result A) :
  P ev -> readonly P (call ev r).
Proof. intros Hev s. split; [done|]. by repeat constructor. Qed.

Lemma readonly_bind (P : event -> Prop) (m : M A) (f : A -> M B) :
  readonly P m -> (forall a, readonly P (f a)) -> readonly P (bind m f).
Proof.
  intros Hm Hf s. rewrite bind_eq.
  destruct (Hm s) as [Hs Ht]. destruct (m s) as [[[e|a] s1] t1]; simpl in *.
  - done.
  - subst s1. destruct (Hf a s) as [Hs' Ht'].
    destruct (f a s) as [[r s2] t2]; simpl in *.
    split; [done|]. by apply Forall_app.
Qed.

Lemma readonly_weaken (P Q : event -> Prop) (m : M A) :
  (forall ev, P ev -> Q ev) -> readonly P m -> readonly Q m.
Proof.
  intros HPQ Hm s. destruct (Hm s) as [Hs Ht]. split; [done|].
  eapply Forall_impl; eauto.
Qed.

End MonadFacts.

Lemma bind_inr_inv {A B} (m : M A) (f : A -> M B) (s s' : state) (b : B)
    (t : list event) :
  bind m f s = (inr b, s', t) ->
  ∃ a s1 t1 t2, m s = (inr a, s1, t1) ∧ f a s1 = (inr b, s', t2)
                ∧ t = (t1 ++ t2)%list.
Proof.
  rewrite bind_eq. destruct (m s) as [[[e|a] s1] t1]; [done|].
  destruct (f a s1) as [[r s2] t2] eqn:Hf. intros [= -> -> <-].
  by exists a, s1, t1, t2.
Qed.

Lemma lift_inv {A} (r r' : result A) (s s' : state) (t : list event) :
  lift r s = (r', s', t) -> r = r' ∧ s' = s ∧ t = [].
Proof. by intros [= -> -> <-]. Qed.

Lemma ret_inv {A} (a : A) (r : result A) (s s' : state) (t : list event) :
  ret a s = (r, s', t) -> r = inr a ∧ s' = s ∧ t = [].
Proof. by intros [= <- -> <-]. Qed.

Lemma call_inv {A} (ev : event) (r r' : result A) (s s' : state)
    (t : list event) :
  call ev r s = (r', s', t) -> r = r' ∧ s' = s ∧ t = [ev].
Proof. by intros [= -> -> <-]. Qed.

Lemma emit_inv (ev : event) (r : result unit) (s s' : state) (t : list event) :
  emit ev s = (r, s', t) -> r = inr tt ∧ s' = s ∧ t = [ev].
Proof. by intros [= <- -> <-]. Qed.

Lemma read_data_inv (r : result dict) (s s' : state) (t : list event) :
  read_data s = (r, s', t) -> r = inr (inst_data s) ∧ s' = s ∧ t = [].
Proof. by intros [= <- -> <-]. Qed.

Lemma read_url_inv (r : result pyval) (s s' : state) (t : list event) :
  read_url s = (r, s', t) -> r = inr (self_deadline_url s) ∧ s' = s ∧ t = [].
Proof. by intros [= <- -> <-]. Qed.

Lemma readonly_inv {A} (P : event -> Prop) (m : M A) (r : result A)
    (s s' : state) (t : list event) :
  readonly P m -> m s = (r, s', t) -> s' = s ∧ Forall P t.
Proof. intros Hm Heq. destruct (Hm s) as [Hs Ht]. by rewrite Heq in Hs, Ht. Qed.

(** Invert a successful run along the binds it went through. *)
Ltac inv_run :=
  repeat match goal with
    | H : bind _ _ _ = (inr _, _, _) |- _ =>
        apply bind_inr_inv in H as (? & ? & ? & ? & ? & ? & ->)
    | H : lift _ _ = (_, _, _) |- _ =>
        apply lift_inv in H as (? & ? & ?); simplify_eq
    | H : ret _ _ = (_, _, _) |- _ =>
        apply ret_inv in H as (? & ? & ?); simplify_eq
    | H : call _ _ _ = (_, _, _) |- _ =>
        apply call_inv in H as (? & ? & ?); simplify_eq
    | H : emit _ _ = (_, _, _) |- _ =>
        apply emit_inv in H as (? & ? & ?); simplify_eq
    | H : read_data _ = (_, _, _) |- _ =>
        apply read_data_inv in H as (? & ? & ?); simplify_eq
    | H : read_url _ = (_, _, _) |- _ =>
        apply read_url_inv in H as (? & ? & ?); simplify_eq
    | H : raise _ _ = (inr _, _, _) |- _ => discriminate H
    | H : (if ?b then _ else _) _ = (_, _, _) |- _ => destruct b eqn:?
    | H : (match ?x with _ => _ end) _ = (_, _, _) |- _ => destruct x eqn:?
    end.

Lemma readonly_emit (P : event -> Prop) (ev : event) :
  P ev -> readonly P (emit ev).
Proof. intros Hev s. split; [done|]. by repeat constructor. Qed.

Lemma readonly_read_data (P : event -> Prop) : readonly P read_data.
Proof. intros s. by split; [|constructor]. Qed.

Lemma readonly_read_url (P : event -> Prop) : readonly P read_url.
Proof. intros s. by split; [|constructor]. Qed.

Lemma quiet_not_a_write (ev : event) : quiet ev -> not_a_write ev.
Proof. by destruct ev. Qed.

(** Decompose a goal [readonly P m] along the structure of [m]. *)
Ltac readonly_step :=
  first
    [ apply readonly_ret
    | apply readonly_raise
    | apply readonly_lift
    | apply readonly_read_data
    | apply readonly_read_url
    | apply readonly_emit; exact I
    | apply readonly_call; exact I
    | apply readonly_bind; [|intros ?]
    | match goal with
      | |- readonly _ (if ?b then _ else _) => destruct b
      | |- readonly _ (match ?x with _ => _ end) => destruct x
      end ].

Ltac readonly_auto := repeat readonly_step; eauto.

(** Unfold membership in a list built from [++] and [::]. *)
Ltac elem_of_cases :=
  repeat first
    [ rewrite elem_of_app | rewrite elem_of_cons | rewrite elem_of_nil ].

(** ** The plugin *)

Section PluginFacts.

Variable ext : collaborators.
Variable self : plugin.
Variable context_data : dict.

Lemma version_lookup_quiet (ev : event) : version_lookup ev -> quiet ev.
Proof. by destruct ev. Qed.

Lemma resolve_version_lookups
    (template_data folder_entity product_name project_name host_name
       version : pyval) :
  readonly version_lookup
    (resolve_version ext context_data template_data folder_entity product_name
       project_name host_name version).
Proof. unfold resolve_version, start_version. readonly_auto. Qed.

Lemma resolve_version_readonly
    (template_data folder_entity product_name project_name host_name
       version : pyval) :
  readonly quiet
    (resolve_version ext context_data template_data folder_entity product_name
       project_name host_name version).
Proof.
  eapply readonly_weaken;
    [apply version_lookup_quiet|apply resolve_version_lookups].
Qed.

Lemma _get_publish_folder_readonly
    (anatomy template_data folder_entity product_name product_type
       version : pyval) :
  readonly quiet
    (_get_publish_folder ext context_data anatomy template_data folder_entity
       product_name product_type version).
Proof.
  unfold _get_publish_folder.
  repeat first [apply resolve_version_readonly | readonly_step].
Qed.

Lemma base_environment_readonly (settings_variant : string) :
  readonly quiet (base_environment ext context_data settings_variant).
Proof. unfold base_environment. readonly_auto. Qed.

Lemma add_job_dependencies_readonly (data : dict) (job : pyval) (job_info : dict) :
  readonly quiet (add_job_dependencies data job job_info).
Proof. unfold add_job_dependencies. readonly_auto. Qed.

Lemma build_payload_readonly (job : pyval) (instances : list dict) :
  readonly quiet (build_payload ext self context_data job instances).
Proof.
  unfold build_payload.
  repeat first
    [ apply _get_publish_folder_readonly
    | apply base_environment_readonly
    | apply add_job_dependencies_readonly
    | readonly_step ].
Qed.

Lemma _submit_deadline_post_job_readonly (job : pyval) (instances : list dict) :
  readonly not_a_write
    (_submit_deadline_post_job ext self context_data job instances).
Proof.
  unfold _submit_deadline_post_job.
  repeat first
    [ apply (readonly_weaken quiet not_a_write _ quiet_not_a_write),
        build_payload_readonly
    | readonly_step ].
Qed.

Lemma synthesize_instances_readonly :
  readonly quiet (synthesize_instances ext self context_data).
Proof. unfold synthesize_instances. readonly_auto. Qed.

Lemma fake_render_job_readonly (data : dict) :
  readonly quiet (fake_render_job ext context_data data).
Proof. unfold fake_render_job. readonly_auto. Qed.

(** *** Keys of the job info *)

Lemma prefix_append (a x : string) : String.prefix a (a +:+ x) = true.
Proof.
  induction a as [|c a IH]; [by destruct x|].
  change (String c a +:+ x) with (String c (a +:+ x)). simpl.
  by destruct (ascii_dec c c).
Qed.

Lemma dependency_key_prefix (n : nat) :
  is_dependency_key (dependency_key n) = true.
Proof. apply prefix_append. Qed.

Lemma environment_key_prefix (n : nat) :
  is_environment_key (environment_key n) = true.
Proof. apply prefix_append. Qed.

Lemma environment_key_not_dependency (n : nat) :
  is_dependency_key (environment_key n) = false.
Proof. reflexivity. Qed.

Lemma dependency_key_inj : Inj (=) (=) dependency_key.
Proof.
  intros m n H. unfold dependency_key in H.
  apply String.app_inj in H. by apply (inj pretty) in H.
Qed.

Lemma lookup_add_dependencies_other (k : string) (i : nat) (ids : list pyval)
    (job_info : dict) :
  is_dependency_key k = false ->
  add_dependencies i ids job_info !! k = job_info !! k.
Proof.
  intros Hk. revert i job_info.
  induction ids as [|x ids IH]; intros i job_info; simpl; [done|].
  rewrite IH, lookup_insert_ne; [done|].
  intros <-. by rewrite dependency_key_prefix in Hk.
Qed.

(** After the loop, entry [JobDependency(i+n)] holds the [n]-th id, and
    the entries below the start index are untouched. *)
Lemma lookup_add_dependencies (i n : nat) (ids : list pyval) (job_info : dict) :
  add_dependencies i ids job_info !! dependency_key (i + n)
  = match ids !! n with
    | Some x => Some x
    | None => job_info !! dependency_key (i + n)
    end.
Proof.
  revert i n job_info.
  induction ids as [|x ids IH]; intros i n job_info; simpl; [done|].
  destruct n as [|n].
  - replace (i + 0) with i by lia. simpl.
    assert (Hlow : forall (l : list pyval) (j : nat) (m : dict),
               i < j -> add_dependencies j l m !! dependency_key i
                        = m !! dependency_key i).
    { induction l as [|y l IHl]; intros j m Hj; simpl; [done|].
      rewrite IHl by lia. rewrite lookup_insert_ne; [done|].
      intros Heq%dependency_key_inj. lia. }
    rewrite Hlow by lia. by rewrite lookup_insert_eq.
  - replace (i + S n) with (S i + n) by lia. rewrite IH. simpl.
    destruct (ids !! n); [done|].
    rewrite lookup_insert_ne; [done|].
    intros Heq%dependency_key_inj. lia.
Qed.

Lemma add_dependencies_keys (k : string) (v : pyval) (i : nat)
    (ids : list pyval) (job_info : dict) :
  add_dependencies i ids job_info !! k = Some v ->
  job_info !! k = Some v
  ∨ ∃ n, k = dependency_key (i + n) ∧ ids !! n = Some v.
Proof.
  revert i job_info.
  induction ids as [|x ids IH]; intros i job_info; simpl; [by left|].
  intros [H|(n & -> & Hn)]%IH.
  - destruct (decide (k = dependency_key i)) as [->|Hne].
    + rewrite lookup_insert_eq in H. right. exists 0.
      replace (i + 0) with i by lia. naive_solver.
    + rewrite lookup_insert_ne in H by done. by left.
  - right. exists (S n). replace (i + S n) with (S i + n) by lia. done.
Qed.

Lemma lookup_add_environment_other (k : string) (i : nat)
    (items : list (string * pyval)) (job_info : dict) :
  is_environment_key k = false ->
  add_environment ext i items job_info !! k = job_info !! k.
Proof.
  intros Hk. revert i job_info.
  induction items as [|[key_ value_] items IH]; intros i job_info; simpl; [done|].
  rewrite IH, lookup_insert_ne; [done|].
  intros <-. by rewrite environment_key_prefix in Hk.
Qed.

(** *** The payload *)

Lemma initial_payload_secondary_pool (data : dict) (batch user : pyval)
    (job_name : string) (priority initial_status : pyval)
    (output_dir : string) (args : list string) :
  JobInfo (initial_payload self context_data data batch user job_name priority
             initial_status output_dir args) !! "SecondaryPool"
  = Some (secondary_pool self data).
Proof. reflexivity. Qed.

Lemma initial_payload_no_dependency (data : dict) (batch user : pyval)
    (job_name : string) (priority initial_status : pyval)
    (output_dir : string) (args : list string) (k : string) :
  is_dependency_key k = true ->
  JobInfo (initial_payload self context_data data batch user job_name priority
             initial_status output_dir args) !! k = None.
Proof.
  intros Hk. unfold initial_payload, JobInfo. simpl.
  repeat (rewrite lookup_insert_ne; [|by intros <-]).
  apply lookup_empty.
Qed.

(** A payload that was built: its job info is the initial one, extended
    by the dependency chain and the environment entries, minus
    [SecondaryPool]. *)
Lemma build_payload_inr (job : pyval) (instances : list dict) (s s' : state)
    (body : payload) (t : list event) :
  build_payload ext self context_data job instances s = (inr body, s', t) ->
  ∃ (ji0 ji : dict) (env : list (string * pyval)) (td : list event),
    ji0 !! "SecondaryPool" = Some (secondary_pool self (inst_data s))
    ∧ (∀ k, is_dependency_key k = true -> ji0 !! k = None)
    ∧ add_job_dependencies (inst_data s) job ji0 s = (inr ji, s, td)
    ∧ JobInfo body = delete "SecondaryPool" (add_environment ext 0 env ji).
Proof.
  intros H. unfold build_payload in H. inv_run.
  repeat match goal with
    | H : _get_publish_folder _ _ _ _ _ _ _ _ _ = _ |- _ =>
        apply (readonly_inv _ _ _ _ _ _ (_get_publish_folder_readonly _ _ _ _ _ _))
          in H as [-> _]
    | H : base_environment _ _ _ _ = _ |- _ =>
        apply (readonly_inv _ _ _ _ _ _ (base_environment_readonly _))
          in H as [-> _]
    end.
  match goal with
  | H : add_job_dependencies _ _ _ _ = _ |- _ =>
      pose proof (readonly_inv _ _ _ _ _ _
                    (add_job_dependencies_readonly _ _ _) H) as [-> _]
  end.
  do 4 eexists. split_and!; [| |eassumption|reflexivity].
  - apply initial_payload_secondary_pool.
  - intros k Hk. by apply initial_payload_no_dependency.
Qed.

(** A post that happened: the payload was built without error, the post
    is the last event of the submission, and the farm's answer decides
    the outcome. *)
Lemma _submit_deadline_post_job_post (job : pyval) (instances : list dict)
    (s : state) (url : string) (body : payload) (timeout : Z)
    (answer : result response) :
  RequestsPost url body timeout answer
    ∈ events_of (_submit_deadline_post_job ext self context_data job instances) s ->
  ∃ t0 : list event,
    build_payload ext self context_data job instances s = (inr body, s, t0)
    ∧ _submit_deadline_post_job ext self context_data job instances s
      = (submit_outcome answer, s,
         (t0 ++ [Log "debug" "Submitting Deadline publish job ...";
                 RequestsPost url body timeout answer])%list).
Proof.
  unfold events_of, _submit_deadline_post_job. rewrite bind_eq.
  destruct (build_payload ext self context_data job instances s)
    as [[[e|body'] s1] t1] eqn:Hb;
    destruct (readonly_inv _ _ _ _ _ _ (build_payload_readonly _ _) Hb)
      as [-> Hquiet]; simpl.
  - intros Hin. rewrite Forall_forall in Hquiet. by apply Hquiet in Hin.
  - unfold bind, emit, read_url, read_data, lift, call, raise, ret. simpl.
    rewrite Forall_forall in Hquiet.
    repeat (case_match; simplify_eq/=);
      rewrite elem_of_app, ?elem_of_cons, ?elem_of_nil;
      (intros [Hin|Hin]; [by apply Hquiet in Hin|]);
      repeat (destruct Hin as [Hin|Hin]; simplify_eq/=); try done.
    all: exists t1; split; [done|].
    all: unfold submit_outcome;
      repeat match goal with H : _ = _ |- _ => rewrite H end; simpl; try done.
    all: by destruct (ok _).
Qed.

Lemma _submit_deadline_post_job_inr (job : pyval) (instances : list dict)
    (s s' : state) (job_id : pyval) (t : list event) :
  _submit_deadline_post_job ext self context_data job instances s
  = (inr job_id, s', t) ->
  s' = s
  ∧ ∃ url body response,
      RequestsPost url body 10 (inr response) ∈ t
      ∧ ok response = true
      ∧ submit_outcome (inr response) = inr job_id.
Proof.
  intros H.
  destruct (readonly_inv _ _ _ _ _ _
              (_submit_deadline_post_job_readonly _ _) H) as [-> _].
  split; [done|].
  unfold _submit_deadline_post_job in H. inv_run.
  match goal with
  | H : requests_post _ _ _ _ _ _ = inr ?r |- _ =>
      eexists _, _, r; rewrite H; split_and!
  end.
  - apply elem_of_app. right.
    apply list_elem_of_further, list_elem_of_here.
  - by destruct (ok _).
  - unfold submit_outcome.
    destruct (ok _); [|done].
    by repeat match goal with H : _ = _ |- _ => rewrite H end.
Qed.

Lemma add_job_dependencies_inr (data : dict) (job : pyval) (ji0 ji : dict)
    (s s' : state) (t : list event) :
  add_job_dependencies data job ji0 s = (inr ji, s', t) ->
  ∃ deps : list pyval,
    ji = add_dependencies 0 deps ji0
    ∧ if truthy (get data "tileRendering")
      then iterate (get data "assemblySubmissionJobs") = inr deps
      else if truthy (get data "bakingSubmissionJobs")
      then iterate (get data "bakingSubmissionJobs") = inr deps
      else match get_of job "_id" with
           | inr job_id => deps = if truthy job_id then [job_id] else []
           | inl _ => False
           end.
Proof.
  intros H. unfold add_job_dependencies in H.
  destruct (truthy (get data "tileRendering")).
  { inv_run. by eexists. }
  destruct (truthy (get data "bakingSubmissionJobs")) eqn:Hb.
  { inv_run. eexists. split; [done|].
    match goal with
    | H : getitem _ _ = inr ?v |- _ =>
        unfold getitem in H; unfold get;
        destruct (data !! "bakingSubmissionJobs"); by simplify_eq/=
    end. }
  inv_run.
  - match goal with H : get_of job _ = _ |- _ => rewrite H end.
    match goal with H : truthy _ = true |- _ => rewrite H end.
    exists [x]. split; [|done].
    destruct job; simplify_eq/=.
    unfold getitem, get in *. by destruct (d !! "_id"); simplify_eq/=.
  - match goal with H : get_of job _ = _ |- _ => rewrite H end.
    match goal with H : truthy _ = false |- _ => rewrite H end.
    by exists [].
Qed.

Lemma dependency_key_not_environment (k : string) :
  is_dependency_key k = true -> is_environment_key k = false.
Proof.
  unfold is_dependency_key, is_environment_key.
  destruct k as [|c k]; [done|]. cbn [String.prefix].
  destruct (ascii_dec "J" c) as [<-|]; [intros _; reflexivity|done].
Qed.

Lemma dependency_key_not_secondary_pool (k : string) :
  is_dependency_key k = true -> "SecondaryPool" ≠ k.
Proof. by intros Hk <-. Qed.

(** A payload that was built, with everything it was built from. *)
Lemma build_payload_parts (job : pyval) (instances : list dict) (s s' : state)
    (body : payload) (t : list event) :
  build_payload ext self context_data job instances s = (inr body, s', t) ->
  ∃ product_name output_dir paths variant base_env instance_settings
      props batch user deps,
    getitem (inst_data s) "productName" = inr product_name
    ∧ (∃ anatomy_data first product_name0 product_type0,
         getitem (inst_data s) "anatomyData" = inr anatomy_data
         ∧ instances !! 0 = Some first
         ∧ getitem first "productName" = inr product_name0
         ∧ getitem first "productType" = inr product_type0
         ∧ outcome_of
             (_get_publish_folder ext context_data (get context_data "anatomy")
                anatomy_data (get (inst_data s) "folderEntity") product_name0
                product_type0 (override_version (inst_data s))) s
           = inr output_dir)
    ∧ create_metadata_path ext (inst_data s) context_data
        (get context_data "anatomy") = inr paths
    ∧ environ_item (environ ext) "AYON_DEFAULT_SETTINGS_VARIANT" = inr variant
    ∧ (base_environment ext context_data variant s).1.1 = inr base_env
    ∧ get_attr_values_from_data ext (inst_data s) = inr instance_settings
    ∧ subscript job "Props" = inr props
    ∧ subscript props "Batch" = inr batch
    ∧ subscript props "User" = inr user
    ∧ (if truthy (get (inst_data s) "tileRendering")
       then iterate (get (inst_data s) "assemblySubmissionJobs") = inr deps
       else if truthy (get (inst_data s) "bakingSubmissionJobs")
       then iterate (get (inst_data s) "bakingSubmissionJobs") = inr deps
       else match get_of job "_id" with
            | inr job_id => deps = if truthy job_id then [job_id] else []
            | inl _ => False
            end)
    ∧ let payload0 :=
        initial_payload self context_data (inst_data s) batch user
          ("Publish - " +:+ str_of ext product_name)
          (py_or (deadline_priority self)
             (get_default (inst_data s) "priority" (PInt 50)))
          (get_default instance_settings "publishJobState" (PStr "Active"))
          output_dir (publish_arguments paths.2 variant) in
      body = {| JobInfo :=
                  delete "SecondaryPool"
                    (add_environment ext 0 (forward_environ ext self base_env)
                       (add_dependencies 0 deps (JobInfo payload0)));
                PluginInfo := PluginInfo payload0;
                AuxFiles := [] |}.
Proof.
  intros H. unfold build_payload in H. inv_run.
  match goal with
  | H : _get_publish_folder _ _ _ _ _ _ _ _ _ = _ |- _ =>
      pose proof (readonly_inv _ _ _ _ _ _
                    (_get_publish_folder_readonly _ _ _ _ _ _) H)
        as [-> _]
  end.
  match goal with
  | H : base_environment _ _ _ _ = _ |- _ =>
      pose proof (readonly_inv _ _ _ _ _ _
                    (base_environment_readonly _) H) as [-> _]
  end.
  match goal with
  | H : add_job_dependencies _ _ _ _ = _ |- _ =>
      apply add_job_dependencies_inr in H as (deps & -> & Hsrc)
  end.
  match goal with
  | H : getitem context_data "anatomy" = inr ?a |- _ =>
      assert (get context_data "anatomy" = a) as <-
        by (unfold getitem in H; unfold get;
            destruct (context_data !! "anatomy"); by simplify_eq/=)
  end.
  repeat match goal with
    | H1 : ?a = inr ?x, H2 : ?a = inr ?y |- _ =>
        rewrite H1 in H2; injection H2 as <-
    end.
  match goal with
  | H : match instances with [] => _ | _ :: _ => _ end = inr _ |- _ =>
      destruct instances as [|first instances']; simplify_eq/=
  end.
  do 9 eexists. exists deps.
  split_and!; try eassumption; try reflexivity.
  - do 4 eexists. split_and!; try eassumption; try reflexivity.
    unfold outcome_of.
    match goal with
    | H : _get_publish_folder _ _ _ _ _ _ _ _ _ = _ |- _ => by rewrite H
    end.
  - match goal with
    | H : base_environment _ _ _ _ = _ |- _ => by rewrite H
    end.
Qed.

(** C8: whenever a payload is posted, the payload literal the submitter
    built held a [SecondaryPool] entry, whose value is the plugin's
    [deadline_pool_secondary] when that is set and else the instance's
    [secondaryPool]; the posted job info is the job info of that
    literal, extended by the dependency entries and the environment
    entries, with the [SecondaryPool] key deleted: no posted payload has
    a [SecondaryPool] key. *)
Theorem secondary_pool_removed_before_post (job : pyval)
    (instances : list dict) (s : state) (url : string) (body : payload)
    (timeout : Z) (answer : result response) :
  RequestsPost url body timeout answer
    ∈ events_of (_submit_deadline_post_job ext self context_data job instances) s ->
  ∃ (batch user : pyval) (job_name : string) (priority initial_status : pyval)
      (output_dir : string) (args : list string) (deps : list pyval)
      (environment : list (string * pyval)),
    let payload0 :=
      initial_payload self context_data (inst_data s) batch user job_name
        priority initial_status output_dir args in
    JobInfo payload0 !! "SecondaryPool"
    = Some (secondary_pool self (inst_data s))
    ∧ secondary_pool self (inst_data s)
      = (if String.eqb (deadline_pool_secondary self) ""
         then get (inst_data s) "secondaryPool"
         else PStr (deadline_pool_secondary self))
    ∧ JobInfo body
      = delete "SecondaryPool"
          (add_environment ext 0 environment
             (add_dependencies 0 deps (JobInfo payload0)))
    ∧ add_environment ext 0 environment
        (add_dependencies 0 deps (JobInfo payload0)) !! "SecondaryPool"
      = Some (secondary_pool self (inst_data s))
    ∧ JobInfo body !! "SecondaryPool" = None.
Proof.
  intros Hin. apply _submit_deadline_post_job_post in Hin as (t0 & Hb & _).
  apply build_payload_parts in Hb
    as (product_name & output_dir & paths & variant & base_env
        & instance_settings & props & batch & user & deps
        & _ & _ & _ & _ & _ & _ & _ & _ & _ & _ & ->).
  cbn [JobInfo].
  eexists batch, user, _, _, _, output_dir, _, deps, _. cbv zeta.
  split_and!; [apply initial_payload_secondary_pool| |reflexivity|
               |apply lookup_delete_eq].
  - unfold secondary_pool, py_or. simpl. by destruct (String.eqb _ _).
  - rewrite lookup_add_environment_other, lookup_add_dependencies_other
      by done.
    apply initial_payload_secondary_pool.
Qed.

(** C1 (amended): in every posted payload the [JobDependencyN] entries
    are exactly the entries [JobDependency0 .. JobDependency(len-1)] of one
    list [deps], and that list has a single source: the ids in
    [assemblySubmissionJobs] when the instance's [tileRendering] flag is
    truthy; otherwise the ids in [bakingSubmissionJobs] when that value is
    truthy; otherwise the render job's [_id] alone when it is truthy, and
    nothing when it is not. *)
Theorem job_dependencies_single_source (job : pyval) (instances : list dict)
    (s : state) (url : string) (body : payload) (timeout : Z)
    (answer : result response) :
  RequestsPost url body timeout answer
    ∈ events_of (_submit_deadline_post_job ext self context_data job instances) s ->
  ∃ deps : list pyval,
    (∀ n, JobInfo body !! dependency_key n = deps !! n)
    ∧ (∀ k v, is_dependency_key k = true -> JobInfo body !! k = Some v ->
         ∃ n, k = dependency_key n ∧ deps !! n = Some v)
    ∧ if truthy (get (inst_data s) "tileRendering")
      then iterate (get (inst_data s) "assemblySubmissionJobs") = inr deps
      else if truthy (get (inst_data s) "bakingSubmissionJobs")
      then iterate (get (inst_data s) "bakingSubmissionJobs") = inr deps
      else match get_of job "_id" with
           | inr job_id => deps = if truthy job_id then [job_id] else []
           | inl _ => False
           end.
Proof.
  intros Hin. apply _submit_deadline_post_job_post in Hin as (t0 & Hb & _).
  apply build_payload_inr in Hb as (ji0 & ji & env & td & _ & Hnone & Hdep & ->).
  apply add_job_dependencies_inr in Hdep as (deps & -> & Hsrc).
  exists deps. split_and!; [| |done].
  - intros n.
    rewrite lookup_delete_ne
      by (apply dependency_key_not_secondary_pool, dependency_key_prefix).
    rewrite lookup_add_environment_other
      by (apply dependency_key_not_environment, dependency_key_prefix).
    rewrite (lookup_add_dependencies 0 n).
    rewrite Hnone by apply dependency_key_prefix.
    by destruct (deps !! n).
  - intros k v Hk.
    rewrite lookup_delete_ne by by apply dependency_key_not_secondary_pool.
    rewrite lookup_add_environment_other
      by by apply dependency_key_not_environment.
    intros [Hin|(n & -> & Hn)]%add_dependencies_keys.
    + by rewrite Hnone in Hin.
    + by exists n.
Qed.

(** *** The entry point *)

(** C10: on an instance whose data has no truthy [farm] flag, [process]
    returns at once: the state (instance data included) is unchanged and
    the only event is the debug log line, so no skeleton instance is
    built, no folder is resolved, nothing is posted and no file is
    written. *)
Theorem process_skips_local_instance (s : state) :
  truthy (get (inst_data s) "farm") = false ->
  process ext self context_data s
  = (inr tt, s, [Log "debug" "Skipping local instance."]).
Proof.
  intros Hfarm. unfold process. rewrite bind_eq. simpl. by rewrite Hfarm.
Qed.

(** *** The folder resolver *)

Lemma start_version_readonly
    (template_data product_name project_name host_name : pyval) :
  readonly quiet
    (start_version ext context_data template_data product_name project_name
       host_name).
Proof. unfold start_version. readonly_auto. Qed.

Lemma start_version_no_tracking_query
    (template_data product_name project_name host_name : pyval) (s : state) :
  existsb is_tracking_query
    (events_of (start_version ext context_data template_data product_name
                  project_name host_name) s) = false.
Proof.
  unfold events_of, start_version, bind, lift, call. simpl.
  by repeat (case_match; simplify_eq/=).
Qed.

(** The directory is formatted with the version that [resolve_version]
    returned. *)
Lemma _get_publish_folder_version
    (anatomy template_data folder_entity product_name product_type
       version project_name host_name template_name formatted : pyval)
    (s : state) :
  getitem context_data "projectName" = inr project_name ->
  getitem context_data "hostName" = inr host_name ->
  FormatStrict template_name formatted
    ∈ events_of (_get_publish_folder ext context_data anatomy template_data
                   folder_entity product_name product_type version) s ->
  ∃ v t,
    resolve_version ext context_data template_data folder_entity product_name
      project_name host_name version s = (inr v, s, t)
    ∧ subscript formatted "version" = inr v.
Proof.
  intros Hp Hh.
  unfold events_of, _get_publish_folder, bind, lift, call, ret. simpl.
  rewrite Hp. simpl. rewrite Hh. simpl.
  destruct (resolve_version ext context_data template_data folder_entity
              product_name project_name host_name version s)
    as [[[e|v] s1] t1] eqn:Hr;
    destruct (readonly_inv _ _ _ _ _ _
                (resolve_version_lookups _ _ _ _ _ _) Hr) as [-> Hq];
    rewrite Forall_forall in Hq.
  - simpl. intros Hin. by apply Hq in Hin.
  - intros Hin. exists v, t1. split; [done|]. revert Hin.
    unfold setitem, get_of.
    repeat (case_match; simplify_eq/=);
      rewrite ?elem_of_app, ?elem_of_cons, ?elem_of_nil;
      intros Hin; destruct_or?; simplify_eq/=;
      try (by match goal with H : _ ∈ t1 |- _ => apply Hq in H end).
    all: unfold getitem; by simplify_map_eq.
Qed.

(** *** The override version *)

Lemma base_environment_no_format (settings_variant : string) :
  readonly not_a_format (base_environment ext context_data settings_variant).
Proof. unfold base_environment. readonly_auto. Qed.

Lemma add_job_dependencies_no_format (data : dict) (job : pyval)
    (job_info : dict) :
  readonly not_a_format (add_job_dependencies data job job_info).
Proof. unfold add_job_dependencies. readonly_auto. Qed.

(** The only directory formatting of a submission is the one of its call
    to the folder resolver, whose version argument is [override_version]. *)
Lemma build_payload_format (job : pyval) (instances : list dict) (s : state)
    (template_name formatted : pyval) :
  FormatStrict template_name formatted
    ∈ events_of (build_payload ext self context_data job instances) s ->
  ∃ anatomy anatomy_data product_name product_type,
    FormatStrict template_name formatted
      ∈ events_of (_get_publish_folder ext context_data anatomy anatomy_data
                     (get (inst_data s) "folderEntity") product_name
                     product_type (override_version (inst_data s))) s.
Proof.
  unfold events_of, build_payload, bind, lift, call, read_data, ret. simpl.
  repeat (case_match; simplify_eq/=);
    repeat match goal with
      | H : base_environment _ _ _ _ = _ |- _ =>
          apply (readonly_inv _ _ _ _ _ _ (base_environment_no_format _))
            in H as [_ ?]
      | H : add_job_dependencies _ _ _ _ = _ |- _ =>
          apply (readonly_inv _ _ _ _ _ _
                   (add_job_dependencies_no_format _ _ _)) in H as [_ ?]
      | H : Forall _ _ |- _ => rewrite Forall_forall in H
      end;
    elem_of_cases;
    intros Hin; destruct_or?; simplify_eq/=;
    try (by match goal with
            | H : ∀ x, x ∈ ?t -> not_a_format x, Hin : _ ∈ ?t |- _ =>
                apply H in Hin
            end).
  all: match goal with
       | H : _get_publish_folder _ _ ?a ?b _ ?d ?e _ _ = _ |- _ =>
           exists a, b, d, e; by rewrite H
       end.
Qed.

Lemma resolve_version_explicit
    (template_data folder_entity product_name project_name host_name
       version : pyval) (s : state) :
  truthy version = true ->
  resolve_version ext context_data template_data folder_entity product_name
    project_name host_name version s = (inr version, s, []).
Proof. intros Hv. unfold resolve_version. by rewrite Hv. Qed.

Lemma _get_publish_folder_context
    (anatomy template_data folder_entity product_name product_type
       version : pyval) (s : state) (ev : event) :
  ev ∈ events_of (_get_publish_folder ext context_data anatomy template_data
                    folder_entity product_name product_type version) s ->
  ∃ project_name host_name,
    getitem context_data "projectName" = inr project_name
    ∧ getitem context_data "hostName" = inr host_name.
Proof.
  unfold events_of, _get_publish_folder, bind, lift. simpl.
  destruct (getitem context_data "projectName") as [?|project_name];
    [by intros ?%elem_of_nil|].
  destruct (getitem context_data "hostName") as [?|host_name];
    [by intros ?%elem_of_nil|].
  by exists project_name, host_name.
Qed.

(** C4 (amended): the override version is [None] exactly when the
    instance's version equals 1 or the instance has no version (its
    [version] reads as [None]); for every version that does not equal 1,
    the override is that very value.  The submitter hands this override
    to the folder resolver: when it is truthy, the publish directory is
    formatted with it. *)
Theorem override_version_spec (data : dict) :
  (override_version data = PNone
   <-> eq_int (get data "version") 1 = true ∨ get data "version" = PNone)
  ∧ (eq_int (get data "version") 1 = false ->
     override_version data = get data "version")
  ∧ (∀ job instances s template_name formatted,
       inst_data s = data ->
       truthy (override_version data) = true ->
       FormatStrict template_name formatted
         ∈ events_of (build_payload ext self context_data job instances) s ->
       subscript formatted "version" = inr (override_version data)).
Proof.
  split_and!.
  - unfold override_version.
    destruct (eq_int (get data "version") 1) eqn:Heq; simpl.
    + split; [by left|done].
    + split; [by right|]. intros [?| ->]; done.
  - unfold override_version. by intros ->.
  - intros job instances s template_name formatted <- Hv Hin.
    apply build_payload_format in Hin
      as (anatomy & anatomy_data & product_name & product_type & Hin).
    destruct (_get_publish_folder_context _ _ _ _ _ _ _ _ Hin)
      as (project_name & host_name & Hp & Hh).
    destruct (_get_publish_folder_version _ _ _ _ _ _ _ _ _ _ _ Hp Hh Hin)
      as (v & t & Hr & Hsub).
    rewrite resolve_version_explicit in Hr by done. by simplify_eq.
Qed.

(** C7 (amended): a call of the folder resolver with no (truthy) version.
    When a folder entity is given, the tracking service is queried for the
    last version of the product under that folder; a version entity that
    is found gives the version [int(latest) + 1], and when none is found
    the versioning-policy lookup follows the query.  When no folder entity
    is given the tracking service is not queried and the version is the
    one of the versioning-policy lookup.  That lookup never queries the
    tracking service.  The publish directory is formatted with the version
    so resolved. *)
Theorem resolve_version_sources
    (template_data folder_entity product_name project_name host_name
       version : pyval) (s : state) :
  truthy version = false ->
  let resolve :=
    resolve_version ext context_data template_data folder_entity product_name
      project_name host_name version in
  let start :=
    start_version ext context_data template_data product_name project_name
      host_name in
  (truthy folder_entity = true ->
   ∀ folder_id, subscript folder_entity "id" = inr folder_id ->
     let query :=
       GetLastVersionByProductName project_name product_name folder_id in
     match get_last_version_by_product_name ext project_name product_name
             folder_id with
     | inl e => resolve s = (inl e, s, [query])
     | inr version_entity =>
         if truthy version_entity then
           ∀ latest n,
             subscript version_entity "version" = inr latest ->
             py_int ext latest = inr n ->
             resolve s = (inr (PInt (n + 1)), s, [query])
         else
           resolve s = (outcome_of start s, s, query :: events_of start s)
     end)
  ∧ (truthy folder_entity = false -> resolve s = start s)
  ∧ existsb is_tracking_query (events_of start s) = false
  ∧ (∀ anatomy product_type template_name formatted,
       getitem context_data "projectName" = inr project_name ->
       getitem context_data "hostName" = inr host_name ->
       FormatStrict template_name formatted
         ∈ events_of (_get_publish_folder ext context_data anatomy
                        template_data folder_entity product_name product_type
                        version) s ->
       ∃ v t, resolve s = (inr v, s, t)
              ∧ subscript formatted "version" = inr v).
Proof.
  intros Hv resolve start. subst resolve start. split_and!.
  - unfold resolve_version. rewrite Hv. simpl.
    intros Hf folder_id Hid. rewrite Hf.
    unfold bind, lift, call, ret. simpl. rewrite Hid. simpl.
    destruct (get_last_version_by_product_name ext project_name product_name
                folder_id) as [e|version_entity]; [done|].
    cbn beta iota. destruct (truthy version_entity).
    + intros latest n -> ->. done.
    + unfold outcome_of, events_of.
      destruct (start_version ext context_data template_data product_name
                  project_name host_name s) as [[r s'] t] eqn:Hs.
      by destruct (readonly_inv _ _ _ _ _ _
                     (start_version_readonly _ _ _ _) Hs) as [-> _].
  - unfold resolve_version. rewrite Hv. simpl.
    intros Hf. rewrite Hf. rewrite bind_eq. simpl.
    by destruct (start_version ext context_data template_data product_name
                   project_name host_name s) as [[r s'] t].
  - apply start_version_no_tracking_query.
  - intros. by eapply _get_publish_folder_version.
Qed.

(** *** Failure of the farm *)

Lemma get_render_job_quiet (s : state) :
  Forall quiet (events_of (get_render_job ext context_data) s).
Proof.
  unfold events_of, get_render_job, bind, read_data, write_data, raise, ret.
  simpl. repeat (case_match; simplify_eq/=); try by constructor.
  match goal with
  | H : fake_render_job _ _ _ _ = _ |- _ =>
      by apply (readonly_inv _ _ _ _ _ _ (fake_render_job_readonly _)) in H
        as [_ ?]
  end.
Qed.

Lemma build_publish_job_silent (instance_skeleton_data : dict)
    (render_job : pyval) (instances : list dict) (job_id : pyval) :
  readonly (fun _ => False)
    (build_publish_job ext context_data instance_skeleton_data render_job
       instances job_id).
Proof. unfold build_publish_job. readonly_auto. Qed.

Lemma prefix_refl (a : string) : String.prefix a a = true.
Proof.
  induction a as [|c a IH]; [done|]. cbn [String.prefix].
  by destruct (ascii_dec c c).
Qed.

Lemma contains_refl (a : string) : contains a a = true.
Proof.
  destruct a as [|c a]; [done|]. cbn [contains]. by rewrite prefix_refl.
Qed.

(** Record what is known about the events of each block of [process]
    that has run. *)
Ltac block_facts :=
  try match goal with
    | H : synthesize_instances _ _ _ _ = (_, _, _) |- _ =>
        let Hq := fresh "Hquiet" in
        destruct (readonly_inv _ _ _ _ _ _
                    (synthesize_instances_readonly) H) as [? Hq];
        rewrite Forall_forall in Hq
    end;
  try match goal with
    | H : get_render_job _ _ ?s = (_, _, _) |- _ =>
        let Hq := fresh "Hquiet" in
        pose proof (get_render_job_quiet s) as Hq;
        unfold events_of in Hq; rewrite H in Hq;
        rewrite Forall_forall in Hq
    end;
  try match goal with
    | H : _submit_deadline_post_job _ _ _ _ _ _ = (_, _, _) |- _ =>
        let Hq := fresh "Hnowrite" in
        destruct (readonly_inv _ _ _ _ _ _
                    (_submit_deadline_post_job_readonly _ _) H) as [? Hq];
        rewrite Forall_forall in Hq
    end;
  try match goal with
    | H : build_publish_job _ _ _ _ _ _ _ = (_, _, _) |- _ =>
        let Hq := fresh "Hsilent" in
        destruct (readonly_inv _ _ _ _ _ _
                    (build_publish_job_silent _ _ _ _) H) as [? Hq];
        rewrite Forall_forall in Hq
    end.

(** Close a goal in which an event is assumed to lie in a block that
    cannot have recorded it. *)
Ltac absurd_event :=
  match goal with
  | Hq : ∀ x, x ∈ ?t -> _, Hin : _ ∈ ?t |- _ => by apply Hq in Hin
  end.

(** C2: when the farm answers the post with a response that is not [ok],
    [process] raises [Exception(response.text)] (its message contains the
    response body), and no metadata file is written. *)
Theorem farm_failure_aborts (s : state) (url : string) (body : payload)
    (timeout : Z) (response : response) :
  RequestsPost url body timeout (inr response)
    ∈ events_of (process ext self context_data) s ->
  ok response = false ->
  outcome_of (process ext self context_data) s
  = inl (Exception (text response))
  ∧ contains (text response) (message (Exception (text response))) = true
  ∧ ∀ path content,
      WriteFile path content ∉ events_of (process ext self context_data) s.
Proof.
  intros Hin Hok. split_and!; [|apply contains_refl|]; revert Hin.
  all: unfold events_of, outcome_of, process, submit_and_write_metadata,
         bind, lift, read_data, write_url, emit, raise, ret, call; simpl.
  all: repeat (case_match; simplify_eq/=); block_facts.
  all: elem_of_cases; intros Hin; destruct_or?; simplify_eq/=;
         try absurd_event.
  all: match goal with
       | H : _submit_deadline_post_job _ _ _ ?job ?instances ?s1 = _,
         Hin : RequestsPost ?u ?b ?t ?a ∈ _ |- _ =>
           let Hp := fresh "Hp" in
           pose proof (_submit_deadline_post_job_post job instances s1 u b t a)
             as Hp;
           unfold events_of in Hp; rewrite H in Hp;
           destruct (Hp Hin) as (t0 & _ & Hrun);
           unfold submit_outcome in Hrun; rewrite Hok in Hrun;
           apply (f_equal (fun x => x.1.1)) in Hrun; simplify_eq/=
       end.
  all: try done.
  all: intros path content; elem_of_cases;
         intros Hw; destruct_or?; simplify_eq/=; absurd_event.
Qed.

(** *** The metadata file *)

Lemma build_publish_job_inr (instance_skeleton_data : dict)
    (render_job : pyval) (instances : list dict) (job_id : pyval)
    (s s' : state) (publish_job : dict) (t : list event) :
  build_publish_job ext context_data instance_skeleton_data render_job
    instances job_id s = (inr publish_job, s', t) ->
  (∀ k, k ∈ metadata_keys -> is_Some (publish_job !! k))
  ∧ publish_job !! "deadline_publish_job_id"
    = (if truthy job_id then Some job_id else None)
  ∧ publish_job !! "audio"
    = (if truthy (get context_data "audioFile")
       then match os_path_isfile ext (get context_data "audioFile") with
            | inr true => Some (get context_data "audioFile")
            | _ => None
            end
       else None).
Proof.
  intros H. unfold build_publish_job in H. inv_run.
  all: repeat match goal with H : _ = _ |- _ => rewrite H end.
  all: repeat match goal with
         | |- context [if ?b then _ else _] => destruct b
         end.
  all: split_and!;
    [ intros k Hk; unfold metadata_keys in Hk;
      repeat (apply elem_of_cons in Hk as [->|Hk]);
      [..|by apply elem_of_nil in Hk]; by simplify_map_eq
    | by simplify_map_eq
    | by simplify_map_eq ].
Qed.

(** C9: the content of every metadata file that is written has all of
    the keys [folderPath], [frameStart], [frameEnd], [fps], [source],
    [user], [version], [intent], [comment], [job] and [instances]; it has
    the key [deadline_publish_job_id] exactly when the job id returned by
    the farm is truthy (and then holds that id); it has the key [audio]
    exactly when the context names an audio file and [os.path.isfile]
    answers true for it (and then holds that name). *)
Theorem metadata_file_contents (s : state) (path : string) (content : dict) :
  WriteFile path content ∈ events_of (process ext self context_data) s ->
  (∀ k, k ∈ metadata_keys -> is_Some (content !! k))
  ∧ (∃ url body response job_id,
       RequestsPost url body 10 (inr response)
         ∈ events_of (process ext self context_data) s
       ∧ submit_outcome (inr response) = inr job_id
       ∧ (is_Some (content !! "deadline_publish_job_id")
          <-> truthy job_id = true)
       ∧ (truthy job_id = true ->
          content !! "deadline_publish_job_id" = Some job_id))
  ∧ (is_Some (content !! "audio")
     <-> truthy (get context_data "audioFile") = true
         ∧ os_path_isfile ext (get context_data "audioFile") = inr true)
  ∧ (is_Some (content !! "audio") ->
     content !! "audio" = Some (get context_data "audioFile")).
Proof.
  unfold events_of, process, submit_and_write_metadata,
    bind, lift, read_data, write_url, emit, raise, ret, call; simpl.
  repeat (case_match; simplify_eq/=); block_facts.
  all: elem_of_cases; intros Hin; destruct_or?; simplify_eq/=;
         try absurd_event.
  all: match goal with
       | H : build_publish_job _ _ _ _ _ _ _ = _ |- _ =>
           apply build_publish_job_inr in H as (Hkeys & Hid & Haudio)
       end.
  all: match goal with
       | H : _submit_deadline_post_job _ _ _ _ _ _ = _ |- _ =>
           apply _submit_deadline_post_job_inr in H
             as (_ & url & body & response & Hpost & Hok & Hout)
       end.
  all: split_and!; [done| | |].
  all: lazymatch goal with
       | |- _ <-> _ => idtac
       | |- _ -> _ => idtac
       | |- _ =>
           match type of Hout with
           | _ = inr ?j =>
               exists url, body, response, j; split_and!;
               [ elem_of_cases; do 2 right; by left
               | exact Hout
               | rewrite Hid; destruct (truthy j);
                   [ split; [done|intros _; by eexists]
                   | split; [by intros [??]|done] ]
               | intros Ht; by rewrite Hid, Ht ]
           end
       end.
  all: rewrite Haudio; destruct (truthy (get context_data "audioFile"));
         try destruct (os_path_isfile ext _) as [?|[]];
         try (split; [by intros [??]|by intros [??]]);
         try (split; [done|by eauto]); try by intros [??].
Qed.

(** *** The render job *)

Lemma process_farm_run (s : state) (anatomy : pyval)
    (instance_skeleton_data : dict) (instances : list dict)
    (t : list event) :
  truthy (get (inst_data s) "farm") = true ->
  synthesize_instances ext self context_data s
  = (inr (anatomy, instance_skeleton_data, instances), s, t) ->
  process ext self context_data s
  = match get_render_job ext context_data s with
    | (inr render_job, s1, t1) =>
        let '(r, s2, t2) :=
          submit_and_write_metadata ext self context_data anatomy
            instance_skeleton_data instances render_job s1 in
        (r, s2, (t ++ t1 ++ t2)%list)
    | (inl e, s1, t1) => (inl e, s1, (t ++ t1)%list)
    end.
Proof.
  intros Hfarm Hsyn. unfold process.
  rewrite bind_eq. simpl. rewrite Hfarm. simpl.
  rewrite bind_eq, Hsyn. rewrite bind_eq.
  destruct (get_render_job ext context_data s) as [[[e|render_job] s1] t1];
    [done|].
  by destruct (submit_and_write_metadata ext self context_data anatomy
                 instance_skeleton_data instances render_job s1)
    as [[r s2] t2].
Qed.

(** C3 (amended): an instance without a truthy [deadlineSubmissionJob].
    When its [tileRendering] value is exactly [False], fetching the render
    job raises the assertion error, and so does [process] once the
    instances have been synthesized.  Otherwise the fabrication is
    attempted after the debug line: the batch name is [jobBatchName] when
    [assemblySubmissionJobs] is truthy and else the stem of the base name
    of the context's current file, and the OS user is looked up in every
    case, also when the context names a [deadlineUser].  When the base
    name (needed in the second case only) or the OS user cannot be
    obtained, that error is raised, by [process] too, and nothing is
    submitted.  When both are obtained a record is fabricated with that
    batch name and, as user, the context's [deadlineUser] when there is
    one and else the OS user; [process] goes on to the submission with
    that record. *)
Theorem render_job_fallback (s : state) :
  truthy (get (inst_data s) "deadlineSubmissionJob") = false ->
  let s' := {| inst_data := delete "deadlineSubmissionJob" (inst_data s);
               self_deadline_url := self_deadline_url s |} in
  let abort :=
    AssertionError "Cannot continue without valid Deadline submission." in
  let faking := Log "debug" "Faking job data ..." in
  let batch_name batch :=
    if truthy (get (inst_data s) "assemblySubmissionJobs")
    then batch = get (inst_data s) "jobBatchName"
    else ∃ base,
        os_path_basename ext (get context_data "currentFile") = inr base
        ∧ batch = PStr (os_path_splitext ext base).1 in
  let raises e :=
    get_render_job ext context_data s = (inl e, s', [faking])
    ∧ ∀ synthesized t,
        truthy (get (inst_data s) "farm") = true ->
        synthesize_instances ext self context_data s
        = (inr synthesized, s, t) ->
        process ext self context_data s = (inl e, s', (t ++ [faking])%list) in
  (is_False (get (inst_data s) "tileRendering") = true ->
   get_render_job ext context_data s = (inl abort, s', [])
   ∧ ∀ synthesized t,
       truthy (get (inst_data s) "farm") = true ->
       synthesize_instances ext self context_data s = (inr synthesized, s, t) ->
       process ext self context_data s = (inl abort, s', t))
  ∧ (is_False (get (inst_data s) "tileRendering") = false ->
     (∀ e,
        truthy (get (inst_data s) "assemblySubmissionJobs") = false ->
        os_path_basename ext (get context_data "currentFile") = inl e ->
        raises e)
     ∧ (∀ batch e,
          batch_name batch -> getpass_getuser ext = inl e -> raises e)
     ∧ ∀ os_user batch,
         getpass_getuser ext = inr os_user ->
         batch_name batch ->
         let user := get_default context_data "deadlineUser" (PStr os_user) in
         let render_job := fabricated_render_job ext batch user in
         get_render_job ext context_data s = (inr render_job, s', [faking])
         ∧ (∃ props, subscript render_job "Props" = inr props
                     ∧ subscript props "Batch" = inr batch
                     ∧ subscript props "User" = inr user)
         ∧ ∀ anatomy instance_skeleton_data instances t,
             truthy (get (inst_data s) "farm") = true ->
             synthesize_instances ext self context_data s
             = (inr (anatomy, instance_skeleton_data, instances), s, t) ->
             process ext self context_data s
             = let '(r, s2, t2) :=
                 submit_and_write_metadata ext self context_data anatomy
                   instance_skeleton_data instances render_job s' in
               (r, s2, (t ++ faking :: t2)%list)).
Proof.
  intros Hjob s' abort faking batch_name raises.
  assert (Hget : ∀ k, k ≠ "deadlineSubmissionJob" ->
            get (delete "deadlineSubmissionJob" (inst_data s)) k
            = get (inst_data s) k).
  { intros k Hk. unfold get. by rewrite lookup_delete_ne. }
  assert (Hraises : ∀ e,
            get_render_job ext context_data s = (inl e, s', [faking]) ->
            raises e).
  { intros e Hrun. split; [done|].
    intros [[anatomy skeleton] instances] t Hfarm Hsyn.
    by rewrite (process_farm_run _ _ _ _ _ Hfarm Hsyn), Hrun. }
  split.
  - intros Hfalse.
    assert (Hrun : get_render_job ext context_data s = (inl abort, s', [])).
    { unfold get_render_job, bind, read_data, write_data, raise. simpl.
      by rewrite Hjob, Hget, Hfalse. }
    split; [done|].
    intros [[anatomy skeleton] instances] t Hfarm Hsyn.
    rewrite (process_farm_run _ _ _ _ _ Hfarm Hsyn), Hrun.
    by rewrite app_nil_r.
  - intros Hfalse. split_and!.
    + intros e Hasm Hbase. apply Hraises.
      unfold get_render_job, fake_render_job, bind, read_data, write_data,
        raise, emit, lift, ret. simpl.
      rewrite Hjob, !Hget, Hfalse, Hasm by done. simpl.
      by rewrite Hbase.
    + intros batch e Hb Huser. apply Hraises.
      unfold get_render_job, fake_render_job, bind, read_data, write_data,
        raise, emit, lift, ret. simpl.
      rewrite Hjob, !Hget, Hfalse, Huser by done. simpl.
      subst batch_name. cbv beta in Hb.
      destruct (truthy (get (inst_data s) "assemblySubmissionJobs")); [done|].
      destruct Hb as (base & -> & _). done.
    + intros os_user batch Huser Hb user render_job.
      assert (Hrun : get_render_job ext context_data s
                     = (inr render_job, s', [faking])).
      { unfold get_render_job, fake_render_job, bind, read_data, write_data,
          raise, emit, lift, ret. simpl.
        rewrite Hjob, !Hget, Hfalse, Huser by done. simpl.
        subst batch_name. cbv beta in Hb.
        destruct (truthy (get (inst_data s) "assemblySubmissionJobs")).
        - by subst batch.
        - destruct Hb as (base & -> & ->). done. }
      split_and!; [exact Hrun| |].
      * eexists. unfold render_job, fabricated_render_job, subscript, getitem.
        rewrite lookup_insert_eq. split_and!; [done| |]; by simplify_map_eq.
      * intros anatomy skeleton instances t Hfarm Hsyn.
        by rewrite (process_farm_run _ _ _ _ _ Hfarm Hsyn), Hrun.
Qed.

End PluginFacts.

(** ** The scenario, run *)

Lemma process_skips_local_instance_witness :
  process Scenario.ext class_defaults Scenario.context_data
    (Scenario.initial Scenario.local_instance)
  = (inr tt, Scenario.initial Scenario.local_instance,
     [Log "debug" "Skipping local instance."]).
Proof.
  apply (process_skips_local_instance Scenario.ext class_defaults
           Scenario.context_data (Scenario.initial Scenario.local_instance)).
  vm_compute. reflexivity.
Defined.

Lemma farm_failure_aborts_witness :
  outcome_of (process Scenario.ext_failing class_defaults Scenario.context_data)
    (Scenario.initial Scenario.instance_data)
  = inl (Exception "internal error")
  ∧ contains "internal error" (message (Exception "internal error")) = true
  ∧ ∀ path content,
      WriteFile path content
        ∉ events_of (process Scenario.ext_failing class_defaults
                       Scenario.context_data)
            (Scenario.initial Scenario.instance_data).
Proof.
  apply (farm_failure_aborts Scenario.ext_failing class_defaults
           Scenario.context_data (Scenario.initial Scenario.instance_data)
           Scenario.posted_url (Scenario.posted_body Scenario.instance_data)
           10 Scenario.farm_failure).
  - apply (list_elem_of_lookup_2 _ 7). vm_compute. reflexivity.
  - reflexivity.
Defined.

Lemma secondary_pool_removed_before_post_witness :
  ∃ (batch user : pyval) (job_name : string) (priority initial_status : pyval)
      (output_dir : string) (args : list string) (deps : list pyval)
      (environment : list (string * pyval)),
    let payload0 :=
      initial_payload class_defaults Scenario.context_data
        (inst_data (Scenario.submitting Scenario.instance_data)) batch user
        job_name priority initial_status output_dir args in
    JobInfo payload0 !! "SecondaryPool"
    = Some (secondary_pool class_defaults
              (inst_data (Scenario.submitting Scenario.instance_data)))
    ∧ secondary_pool class_defaults
        (inst_data (Scenario.submitting Scenario.instance_data))
      = (if String.eqb (deadline_pool_secondary class_defaults) ""
         then get (inst_data (Scenario.submitting Scenario.instance_data))
                "secondaryPool"
         else PStr (deadline_pool_secondary class_defaults))
    ∧ JobInfo (Scenario.posted_body Scenario.instance_data)
      = delete "SecondaryPool"
          (add_environment Scenario.ext 0 environment
             (add_dependencies 0 deps (JobInfo payload0)))
    ∧ add_environment Scenario.ext 0 environment
        (add_dependencies 0 deps (JobInfo payload0)) !! "SecondaryPool"
      = Some (secondary_pool class_defaults
                (inst_data (Scenario.submitting Scenario.instance_data)))
    ∧ JobInfo (Scenario.posted_body Scenario.instance_data)
        !! "SecondaryPool" = None.
Proof.
  apply (secondary_pool_removed_before_post Scenario.ext class_defaults
           Scenario.context_data Scenario.render_job [Scenario.skeleton]
           (Scenario.submitting Scenario.instance_data)
           Scenario.posted_url (Scenario.posted_body Scenario.instance_data)
           10 (inr Scenario.farm_success)).
  apply (list_elem_of_lookup_2 _ 5). vm_compute. reflexivity.
Defined.

Lemma job_dependencies_single_source_witness :
  ∃ deps : list pyval,
    (∀ n, JobInfo (Scenario.posted_body Scenario.tile_instance)
            !! dependency_key n = deps !! n)
    ∧ (∀ k v, is_dependency_key k = true ->
         JobInfo (Scenario.posted_body Scenario.tile_instance) !! k = Some v ->
         ∃ n, k = dependency_key n ∧ deps !! n = Some v)
    ∧ iterate (get Scenario.tile_instance "assemblySubmissionJobs") = inr deps.
Proof.
  apply (job_dependencies_single_source Scenario.ext class_defaults
           Scenario.context_data Scenario.render_job [Scenario.skeleton]
           (Scenario.submitting Scenario.tile_instance)
           Scenario.posted_url (Scenario.posted_body Scenario.tile_instance)
           10 (inr Scenario.farm_success)).
  apply (list_elem_of_lookup_2 _ 6). vm_compute. reflexivity.
Defined.

(** The claim that tile-assembly ids, when they exist on the instance,
    are the dependencies fails on the code in both directions.  With the
    ids present but the [tileRendering] flag false, the posted payload
    depends on the render job [abc123] alone.  With the flag set but no
    ids (and no baking ids), the payload has no dependency although the
    render job carries an id. *)
Lemma job_dependencies_counterexample :
  (iterate (get Scenario.tile_ids_without_flag "assemblySubmissionJobs")
   = inr [PStr "tileA"; PStr "tileB"]
   ∧ Scenario.posted (events_of (Scenario.submission
                                   Scenario.tile_ids_without_flag)
                        (Scenario.submitting Scenario.tile_ids_without_flag))
     = Some (Scenario.posted_body Scenario.tile_ids_without_flag)
   ∧ JobInfo (Scenario.posted_body Scenario.tile_ids_without_flag)
       !! "JobDependency0" = Some (PStr "abc123")
   ∧ JobInfo (Scenario.posted_body Scenario.tile_ids_without_flag)
       !! "JobDependency1" = None)
  ∧ (iterate (get Scenario.tile_flag_without_ids "assemblySubmissionJobs")
     = inr []
     ∧ get Scenario.tile_flag_without_ids "bakingSubmissionJobs" = PNone
     ∧ subscript Scenario.render_job "_id" = inr (PStr "abc123")
     ∧ Scenario.posted (events_of (Scenario.submission
                                     Scenario.tile_flag_without_ids)
                          (Scenario.submitting Scenario.tile_flag_without_ids))
       = Some (Scenario.posted_body Scenario.tile_flag_without_ids)
     ∧ JobInfo (Scenario.posted_body Scenario.tile_flag_without_ids)
         !! "JobDependency0" = None).
Proof. vm_compute. repeat split. Qed.

(** An instance without a [version] gets the override [None] although
    its version value does not equal 1. *)
Lemma override_version_counterexample :
  ¬ (override_version Scenario.instance_data = PNone
     <-> eq_int (get Scenario.instance_data "version") 1 = true).
Proof.
  intros [Hnone _]. specialize (Hnone eq_refl). vm_compute in Hnone.
  discriminate Hnone.
Qed.

Lemma resolve_version_sources_witness :
  let resolve :=
    resolve_version Scenario.ext Scenario.context_data Scenario.anatomy_data
      (PDict {[ "id" := PStr "f-010" ]}) (PStr "renderMain") (PStr "demo")
      (PStr "maya") PNone in
  let start :=
    start_version Scenario.ext Scenario.context_data Scenario.anatomy_data
      (PStr "renderMain") (PStr "demo") (PStr "maya") in
  let s := Scenario.initial Scenario.instance_data in
  resolve s
  = (inr (PInt 8), s,
     [GetLastVersionByProductName (PStr "demo") (PStr "renderMain")
        (PStr "f-010")])
  ∧ existsb is_tracking_query (events_of start s) = false.
Proof.
  intros resolve start s.
  assert (Hv : truthy PNone = false) by reflexivity.
  destruct (resolve_version_sources Scenario.ext Scenario.context_data
              Scenario.anatomy_data (PDict {[ "id" := PStr "f-010" ]})
              (PStr "renderMain") (PStr "demo") (PStr "maya") PNone s Hv)
    as (Hfound & _ & Hquery & _).
  split; [|exact Hquery].
  assert (Hf : truthy (PDict {[ "id" := PStr "f-010" ]}) = true)
    by (vm_compute; reflexivity).
  assert (Hid : subscript (PDict {[ "id" := PStr "f-010" ]}) "id"
                = inr (PStr "f-010")) by (vm_compute; reflexivity).
  specialize (Hfound Hf _ Hid). cbv zeta in Hfound.
  assert (Hq : get_last_version_by_product_name Scenario.ext (PStr "demo")
                 (PStr "renderMain") (PStr "f-010")
               = inr (PDict {[ "version" := PInt 7 ]})) by reflexivity.
  rewrite Hq in Hfound.
  assert (Ht : truthy (PDict {[ "version" := PInt 7 ]}) = true)
    by (vm_compute; reflexivity).
  rewrite Ht in Hfound.
  apply (Hfound (PInt 7) 7%Z); vm_compute; reflexivity.
Defined.

(** A folder resolver call with no version and no folder entity: the
    call succeeds and the tracking service is never queried. *)
Lemma tracking_query_counterexample :
  let call :=
    _get_publish_folder Scenario.ext Scenario.context_data (PStr "<anatomy>")
      Scenario.anatomy_data PNone (PStr "renderMain") (PStr "render") PNone in
  let s := Scenario.initial (delete "folderEntity" Scenario.instance_data) in
  outcome_of call s = inr "/publish/sh010/renderMain/v1"
  ∧ existsb is_tracking_query (events_of call s) = false.
Proof. vm_compute. split; reflexivity. Qed.

Lemma metadata_file_contents_witness :
  (∀ k, k ∈ metadata_keys -> is_Some (Scenario.written_content !! k))
  ∧ (∃ url body response job_id,
       RequestsPost url body 10 (inr response)
         ∈ events_of (process Scenario.ext class_defaults
                        Scenario.context_with_audio)
             (Scenario.initial Scenario.instance_data)
       ∧ submit_outcome (inr response) = inr job_id
       ∧ (is_Some (Scenario.written_content !! "deadline_publish_job_id")
          <-> truthy job_id = true)
       ∧ (truthy job_id = true ->
          Scenario.written_content !! "deadline_publish_job_id" = Some job_id))
  ∧ (is_Some (Scenario.written_content !! "audio")
     <-> truthy (get Scenario.context_with_audio "audioFile") = true
         ∧ os_path_isfile Scenario.ext
             (get Scenario.context_with_audio "audioFile") = inr true)
  ∧ (is_Some (Scenario.written_content !! "audio") ->
     Scenario.written_content !! "audio"
     = Some (get Scenario.context_with_audio "audioFile")).
Proof.
  apply (metadata_file_contents Scenario.ext class_defaults
           Scenario.context_with_audio
           (Scenario.initial Scenario.instance_data)
           Scenario.metadata_path Scenario.written_content).
  apply (list_elem_of_lookup_2 _ 9). vm_compute. reflexivity.
Defined.

Lemma render_job_fallback_witness :
  get_render_job Scenario.ext Scenario.context_with_deadline_user
    (Scenario.initial Scenario.unsubmitted_instance)
  = (inr (fabricated_render_job Scenario.ext (PStr "sh010_v003")
            (PStr "farm-user")),
     Scenario.initial Scenario.unsubmitted_instance,
     [Log "debug" "Faking job data ..."]).
Proof.
  destruct (render_job_fallback Scenario.ext class_defaults
              Scenario.context_with_deadline_user
              (Scenario.initial Scenario.unsubmitted_instance) eq_refl)
    as [_ Hfake].
  destruct (Hfake eq_refl) as (_ & _ & Hfab).
  destruct (Hfab "osuser" (PStr "sh010_v003") eq_refl
              (ex_intro _ "sh010_v003.ma" (conj eq_refl eq_refl)))
    as (Hrun & _).
  exact Hrun.
Defined.

(** An instance with no farm submission reference and no tile rendering
    data at all, in a context that names a farm user: [process] does not
    abort, and the user of the fabricated record (the [UserName] that is
    posted) is the context's [deadlineUser], not the OS user. *)
Lemma render_job_fallback_counterexample :
  let run :=
    process Scenario.ext class_defaults Scenario.context_with_deadline_user
      (Scenario.initial Scenario.unsubmitted_instance) in
  get Scenario.unsubmitted_instance "deadlineSubmissionJob" = PNone
  ∧ get Scenario.unsubmitted_instance "tileRendering" = PNone
  ∧ getpass_getuser Scenario.ext = inr "osuser"
  ∧ run.1.1 = inr tt
  ∧ (b ← Scenario.posted run.2; JobInfo b !! "UserName")
    = Some (PStr "farm-user").
Proof. vm_compute. repeat split. Qed.

(** * Further properties *)

(** ** More on the resource collector *)

Section ResourceCollectorExtras.

Variable assemble : list string -> list Collection * list string.

(** The removal loop never raises: a frame is only removed after the
    membership test. *)
Lemma remove_frames_total (frame_range idx : list Z) :
  ∃ idx', remove_frames frame_range idx = inr idx'.
Proof.
  revert idx. induction frame_range as [|frame rest IH]; intros idx.
  - by exists idx.
  - simpl. unfold remove, mem. case_bool_decide; simpl; apply IH.
Qed.

(** X1: [get_resource_files] returns a list exactly when
    [clique.assemble] detects one collection; with none, or with several,
    it raises the assertion error ["Multiple collections found"],
    whatever the frame range. *)
Theorem get_resource_files_succeeds_iff (resources : list string)
    (frame_range : option (list Z)) :
  ((∃ out, get_resource_files assemble resources frame_range = inr out)
   <-> length (assemble resources).1 = 1)
  ∧ (length (assemble resources).1 ≠ 1 ->
     get_resource_files assemble resources frame_range
     = inl (AssertionError "Multiple collections found")).
Proof.
  unfold get_resource_files.
  destruct (assemble resources) as [[|c [|c' cs]] rest]; simpl.
  - split; [|done]. split; [by intros [out ?]|done].
  - split; [|done]. split; [done|intros _].
    destruct frame_range as [frames|]; [|by eexists].
    destruct (remove_frames_total frames (indexes c)) as [idx ->].
    by eexists.
  - split; [|done]. split; [by intros [out ?]|done].
Qed.

Lemma remove_frames_disjoint (frame_range idx : list Z) :
  (∀ frame, frame ∈ frame_range -> frame ∉ idx) ->
  remove_frames frame_range idx = inr idx.
Proof.
  induction frame_range as [|frame rest IH]; intros Hdis; [done|].
  simpl. unfold mem. rewrite bool_decide_eq_false_2; simpl.
  - apply IH. intros f Hf. apply Hdis. by right.
  - apply Hdis. by left.
Qed.

(** X2: a frame range that lists no frame of the collection (the empty
    range included) changes nothing: the result is the full member
    list, as without a frame range. *)
Theorem get_resource_files_disjoint_range (resources : list string)
    (c : Collection) (rest : list string) (frame_range : list Z) :
  assemble resources = ([c], rest) ->
  (∀ frame, frame ∈ frame_range -> frame ∉ indexes c) ->
  get_resource_files assemble resources (Some frame_range)
  = inr (members c).
Proof.
  intros Hasm Hdis. unfold get_resource_files. rewrite Hasm.
  rewrite remove_frames_disjoint by done. by destruct c.
Qed.

(** X3: a frame range that lists every frame of the collection leaves
    nothing: the result is the empty list, not an error. *)
Theorem get_resource_files_all_removed (resources : list string)
    (c : Collection) (rest : list string) (frame_range : list Z) :
  assemble resources = ([c], rest) ->
  well_formed c ->
  (∀ i, i ∈ indexes c -> i ∈ frame_range) ->
  get_resource_files assemble resources (Some frame_range) = inr [].
Proof.
  intros Hasm Hwf Hall. unfold get_resource_files. rewrite Hasm.
  destruct (remove_frames_spec frame_range (indexes c)) as (idx & -> & _ & Hmem).
  { by apply well_formed_NoDup. }
  destruct idx as [|i idx]; [done|].
  exfalso. destruct (Hmem i) as [[Hi Hn] _]; [by left|]. by apply Hn, Hall.
Qed.

End ResourceCollectorExtras.

Lemma get_resource_files_disjoint_range_witness :
  get_resource_files Scenario.assemble Scenario.foo_files (Some [0; 7]%Z)
  = inr (members Scenario.foo_collection).
Proof.
  apply (get_resource_files_disjoint_range Scenario.assemble
           Scenario.foo_files Scenario.foo_collection []).
  - vm_compute. reflexivity.
  - intros frame Hf Hin. vm_compute in Hin.
    repeat (apply elem_of_cons in Hf as [->|Hf]);
      [..|by apply elem_of_nil in Hf];
      repeat (apply elem_of_cons in Hin as [Hin|Hin]; [discriminate Hin|]);
      by apply elem_of_nil in Hin.
Defined.

Lemma get_resource_files_all_removed_witness :
  get_resource_files Scenario.assemble Scenario.foo_files
    (Some [4; 3; 2; 1; 9]%Z) = inr [].
Proof.
  apply (get_resource_files_all_removed Scenario.assemble
           Scenario.foo_files Scenario.foo_collection []).
  - vm_compute. reflexivity.
  - unfold well_formed. simpl. repeat (constructor; try lia).
  - intros i Hi. simpl in Hi.
    repeat (apply elem_of_cons in Hi as [->|Hi]);
      [..|by apply elem_of_nil in Hi]; set_solver.
Defined.

(** ** More on the submitted payload *)

Section PayloadExtras.

Variable ext : collaborators.
Variable self : plugin.
Variable context_data : dict.

(** The keys of the job info that no loop of the submitter touches keep
    the value the payload literal gave them. *)
Lemma posted_lookup_fixed (k : string) (env : list (string * pyval))
    (deps : list pyval) (job_info : dict) :
  is_dependency_key k = false ->
  is_environment_key k = false ->
  k ≠ "SecondaryPool" ->
  delete "SecondaryPool"
    (add_environment ext 0 env (add_dependencies 0 deps job_info)) !! k
  = job_info !! k.
Proof.
  intros Hd He Hs. rewrite lookup_delete_ne by done.
  rewrite lookup_add_environment_other by done.
  by rewrite lookup_add_dependencies_other.
Qed.

Ltac posted_parts Hin :=
  apply _submit_deadline_post_job_post in Hin as (?t0 & Hb & _);
  apply build_payload_parts in Hb
    as (product_name & output_dir & paths & variant & base_env
        & instance_settings & props & batch & user & deps
        & Hname & Hdir & Hpaths & Hvariant & Hbase & Hsettings
        & Hprops & Hbatch & Huser & Hdeps & ->);
  cbn [JobInfo PluginInfo AuxFiles].

(** X4: the [Priority] of every posted payload is the plugin's
    [deadline_priority] when that is truthy, else the instance's
    [priority], else 50. *)
Theorem posted_priority (job : pyval) (instances : list dict) (s : state)
    (url : string) (body : payload) (timeout : Z)
    (answer : result response) :
  RequestsPost url body timeout answer
    ∈ events_of (_submit_deadline_post_job ext self context_data job instances) s ->
  JobInfo body !! "Priority"
  = Some (if truthy (deadline_priority self) then deadline_priority self
          else match inst_data s !! "priority" with
               | Some p => p
               | None => PInt 50
               end).
Proof.
  intros Hin. posted_parts Hin.
  rewrite posted_lookup_fixed by done.
  unfold py_or, get_default.
  by destruct (inst_data s !! "priority").
Qed.

(** X5: in every posted payload [Department] and [Group] are the
    plugin's attributes, whatever the instance data holds; [Pool] is the
    plugin's [deadline_pool] when that is not empty, else the instance's
    [primaryPool] ([None] when the instance has none). *)
Theorem posted_pool_department_group (job : pyval) (instances : list dict)
    (s : state) (url : string) (body : payload) (timeout : Z)
    (answer : result response) :
  RequestsPost url body timeout answer
    ∈ events_of (_submit_deadline_post_job ext self context_data job instances) s ->
  JobInfo body !! "Department" = Some (PStr (deadline_department self))
  ∧ JobInfo body !! "Group" = Some (PStr (deadline_group self))
  ∧ JobInfo body !! "Pool"
    = Some (if String.eqb (deadline_pool self) ""
            then get (inst_data s) "primaryPool"
            else PStr (deadline_pool self)).
Proof.
  intros Hin. posted_parts Hin.
  rewrite !posted_lookup_fixed by done. split_and!; [done|done|].
  change (Some (py_or (PStr (deadline_pool self))
                  (get (inst_data s) "primaryPool")) = 
          Some (if String.eqb (deadline_pool self) ""
                then get (inst_data s) "primaryPool"
                else PStr (deadline_pool self))).
  unfold py_or. simpl. by destruct (String.eqb _ _).
Qed.

(** X6: the [InitialStatus] of every posted payload is the
    [publishJobState] among the instance's attribute values, and
    ["Active"] when there is none. *)
Theorem posted_initial_status (job : pyval) (instances : list dict)
    (s : state) (url : string) (body : payload) (timeout : Z)
    (answer : result response) :
  RequestsPost url body timeout answer
    ∈ events_of (_submit_deadline_post_job ext self context_data job instances) s ->
  ∃ instance_settings,
    get_attr_values_from_data ext (inst_data s) = inr instance_settings
    ∧ JobInfo body !! "InitialStatus"
      = Some (match instance_settings !! "publishJobState" with
              | Some state => state
              | None => PStr "Active"
              end).
Proof.
  intros Hin. posted_parts Hin. exists instance_settings. split; [done|].
  rewrite posted_lookup_fixed by done.
  change (Some (get_default instance_settings "publishJobState" (PStr "Active"))
          = Some (match instance_settings !! "publishJobState" with
                  | Some state => state
                  | None => PStr "Active"
                  end)).
  unfold get_default. by destruct (instance_settings !! "publishJobState").
Qed.

(** X7: every posted payload is named after the instance's product and
    carries the batch name and the user of the render job it follows. *)
Theorem posted_identity (job : pyval) (instances : list dict) (s : state)
    (url : string) (body : payload) (timeout : Z)
    (answer : result response) :
  RequestsPost url body timeout answer
    ∈ events_of (_submit_deadline_post_job ext self context_data job instances) s ->
  ∃ product_name props batch user,
    getitem (inst_data s) "productName" = inr product_name
    ∧ subscript job "Props" = inr props
    ∧ subscript props "Batch" = inr batch
    ∧ subscript props "User" = inr user
    ∧ JobInfo body !! "Plugin" = Some (PStr "Ayon")
    ∧ JobInfo body !! "Name"
      = Some (PStr ("Publish - " +:+ str_of ext product_name))
    ∧ JobInfo body !! "BatchName" = Some batch
    ∧ JobInfo body !! "UserName" = Some user.
Proof.
  intros Hin. posted_parts Hin.
  exists product_name, props, batch, user.
  rewrite !posted_lookup_fixed by done. by split_and!.
Qed.

Lemma replace_char_not_in (a b : ascii) (s : string) :
  a ≠ b -> a ∉ list_ascii_of_string (replace_char a b s).
Proof.
  intros Hne. induction s as [|c s IH]; simpl; [by intros ?%elem_of_nil|].
  intros [Heq|Hin]%elem_of_cons; [|done].
  destruct (Ascii.eqb_spec c a); congruence.
Qed.

Lemma replace_char_id (a b : ascii) (s : string) :
  a ∉ list_ascii_of_string s -> replace_char a b s = s.
Proof.
  induction s as [|c s IH]; simpl; [done|].
  intros [Hc Hs]%not_elem_of_cons.
  rewrite IH by done. by destruct (Ascii.eqb_spec c a); [subst|].
Qed.

Lemma replace_char_length (a b : ascii) (s : string) :
  String.length (replace_char a b s) = String.length s.
Proof. induction s as [|c s IH]; simpl; [done|]. by rewrite IH. Qed.

Lemma list_ascii_of_replace_char (a b : ascii) (s : string) :
  list_ascii_of_string (replace_char a b s)
  = (fun c => if Ascii.eqb c a then b else c) <$> list_ascii_of_string s.
Proof. induction s as [|c s IH]; simpl; [done|]. by rewrite IH. Qed.

(** X8: the [OutputDirectory0] of every posted payload is the directory
    the folder resolver returned in which every backslash has become a
    slash and every other character is kept, in place; so it has the
    same length, holds no backslash, and is the resolver's directory
    itself when that has no backslash. *)
Theorem posted_output_directory (job : pyval) (instances : list dict)
    (s : state) (url : string) (body : payload) (timeout : Z)
    (answer : result response) :
  RequestsPost url body timeout answer
    ∈ events_of (_submit_deadline_post_job ext self context_data job instances) s ->
  ∃ anatomy_data first product_name product_type output_dir directory,
    getitem (inst_data s) "anatomyData" = inr anatomy_data
    ∧ instances !! 0 = Some first
    ∧ getitem first "productName" = inr product_name
    ∧ getitem first "productType" = inr product_type
    ∧ outcome_of
        (_get_publish_folder ext context_data (get context_data "anatomy")
           anatomy_data (get (inst_data s) "folderEntity") product_name
           product_type (override_version (inst_data s))) s
      = inr output_dir
    ∧ JobInfo body !! "OutputDirectory0" = Some (PStr directory)
    ∧ list_ascii_of_string directory
      = (fun c => if Ascii.eqb c (ascii_of_nat 92) then ascii_of_nat 47
                  else c) <$> list_ascii_of_string output_dir
    ∧ String.length directory = String.length output_dir
    ∧ (ascii_of_nat 92 ∉ list_ascii_of_string directory)
    ∧ (ascii_of_nat 92 ∉ list_ascii_of_string output_dir ->
       directory = output_dir).
Proof.
  intros Hin. posted_parts Hin.
  destruct Hdir as (anatomy_data & first & pn & pt & ? & ? & ? & ? & ?).
  exists anatomy_data, first, pn, pt, output_dir.
  eexists. rewrite posted_lookup_fixed by done.
  split_and!; try eassumption; try reflexivity.
  - apply list_ascii_of_replace_char.
  - apply replace_char_length.
  - by apply replace_char_not_in.
  - apply replace_char_id.
Qed.

Lemma publish_arguments_staging (rootless_metadata_path variant : string) :
  "--use-staging" ∈ publish_arguments rootless_metadata_path variant
  <-> variant = "staging".
Proof.
  unfold publish_arguments.
  destruct (String.eqb_spec variant "staging") as [->|Hne].
  - split; [done|intros _]. set_solver.
  - split; [|done]. intros Hin.
    repeat (apply elem_of_cons in Hin as [Hin|Hin]; [discriminate Hin|]).
    by apply elem_of_nil in Hin.
Qed.

(** X9: the [Arguments] of every posted payload are, joined by spaces:
    [--headless], [publish], the quoted rootless metadata path and the
    targets [deadline] and [farm]; [--use-staging] is among them exactly
    when the settings variant of the environment is ["staging"], and
    then it comes last. *)
Theorem posted_arguments (job : pyval) (instances : list dict) (s : state)
    (url : string) (body : payload) (timeout : Z)
    (answer : result response) :
  RequestsPost url body timeout answer
    ∈ events_of (_submit_deadline_post_job ext self context_data job instances) s ->
  ∃ paths variant args,
    create_metadata_path ext (inst_data s) context_data
      (get context_data "anatomy") = inr paths
    ∧ environ_item (environ ext) "AYON_DEFAULT_SETTINGS_VARIANT" = inr variant
    ∧ PluginInfo body !! "Arguments" = Some (PStr (join " " args))
    ∧ take 7 args
      = [ "--headless"; "publish"; dquote +:+ paths.2 +:+ dquote;
          "--targets"; "deadline"; "--targets"; "farm" ]
    ∧ drop 7 args = (if String.eqb variant "staging"
                     then ["--use-staging"] else [])
    ∧ ("--use-staging" ∈ args <-> variant = "staging").
Proof.
  intros Hin. posted_parts Hin.
  exists paths, variant, (publish_arguments paths.2 variant).
  split_and!; [done|done|done| | |apply publish_arguments_staging].
  - unfold publish_arguments. by destruct (String.eqb _ _).
  - unfold publish_arguments. by destruct (String.eqb _ _).
Qed.

(** *** The environment block *)

Lemma odict_set_keys (k : string) (v : pyval) (d : list (string * pyval)) :
  (odict_set k v d).*1
  = if decide (k ∈ d.*1) then d.*1 else (d.*1 ++ [k])%list.
Proof.
  induction d as [|[k' v'] d IH]; [done|].
  cbn [odict_set]. destruct (String.eqb_spec k' k) as [->|Hne].
  - cbn. rewrite decide_True by (by left). done.
  - cbn [fmap list_fmap fst]. rewrite IH. cbn.
    destruct (decide (k ∈ d.*1)) as [Hin|Hnin].
    + rewrite decide_True by (by right). done.
    + rewrite decide_False; [done|].
      intros [?|?]%elem_of_cons; congruence.
Qed.

Lemma odict_set_NoDup (k : string) (v : pyval) (d : list (string * pyval)) :
  NoDup d.*1 -> NoDup (odict_set k v d).*1.
Proof.
  intros Hnd. rewrite odict_set_keys. case_decide; [done|].
  apply NoDup_app. split_and!; [done| |apply NoDup_singleton].
  intros x Hx ->%list_elem_of_singleton. done.
Qed.

(** Assignment then lookup: the assigned key holds the new value and
    every other key keeps its own. *)
Lemma elem_of_odict_set (k : string) (v : pyval) (d : list (string * pyval))
    (k' : string) (v' : pyval) :
  NoDup d.*1 ->
  (k', v') ∈ odict_set k v d
  <-> (k' = k ∧ v' = v) ∨ (k' ≠ k ∧ (k', v') ∈ d).
Proof.
  induction d as [|[k0 v0] d IH]; intros Hnd.
  - cbn. rewrite list_elem_of_singleton, elem_of_nil. naive_solver.
  - cbn in Hnd. apply NoDup_cons in Hnd as [Hk0 Hnd].
    cbn [odict_set]. destruct (String.eqb_spec k0 k) as [->|Hne].
    + rewrite !elem_of_cons. split.
      * intros [?|Hin]; [naive_solver|].
        right. split; [|by right]. intros ->.
        apply Hk0. apply list_elem_of_fmap. by exists (k, v').
      * intros [[-> ->]|[Hk [?|?]]]; [by left|naive_solver|by right].
    + rewrite !elem_of_cons, IH by done. naive_solver.
Qed.

Section ForwardedKeys.

Variable E : gmap string string.

Let forward (acc : list (string * pyval)) (env_key : string) :=
  if getenv_truthy E env_key
  then odict_set env_key (environ_get E env_key) acc
  else acc.

Lemma forward_keys_prefix (keys : list string) (env : list (string * pyval)) :
  ∃ extra, (foldl forward env keys).*1 = (env.*1 ++ extra)%list.
Proof.
  revert env. induction keys as [|k keys IH]; intros env; simpl.
  - exists []. by rewrite app_nil_r.
  - destruct (IH (forward env k)) as [extra ->].
    unfold forward. destruct (getenv_truthy E k); [|by exists extra].
    rewrite odict_set_keys. case_decide; [by exists extra|].
    exists (k :: extra). by rewrite <- app_assoc.
Qed.

Lemma forward_NoDup (keys : list string) (env : list (string * pyval)) :
  NoDup env.*1 -> NoDup (foldl forward env keys).*1.
Proof.
  revert env. induction keys as [|k keys IH]; intros env Hnd; [done|].
  simpl. apply IH. unfold forward.
  destruct (getenv_truthy E k); [by apply odict_set_NoDup|done].
Qed.

Lemma elem_of_forward (keys : list string) (env : list (string * pyval))
    (k : string) (v : pyval) :
  NoDup env.*1 ->
  (k, v) ∈ foldl forward env keys
  <-> if bool_decide (k ∈ keys) && getenv_truthy E k
      then v = environ_get E k
      else (k, v) ∈ env.
Proof.
  revert env. induction keys as [|k0 keys IH]; intros env Hnd; [done|].
  cbn [foldl]. rewrite IH.
  2:{ unfold forward.
      destruct (getenv_truthy E k0); [by apply odict_set_NoDup|done]. }
  destruct (decide (k ∈ keys)) as [Hin|Hnin].
  { rewrite !bool_decide_eq_true_2 by (done || by right). cbn.
    destruct (getenv_truthy E k) eqn:Hk; [done|].
    unfold forward. destruct (getenv_truthy E k0) eqn:Hk0; [|done].
    rewrite elem_of_odict_set by done.
    split; [intros [[-> _]|[_ ?]]; [congruence|done]|].
    intros Hkv. right. split; [congruence|done]. }
  rewrite (bool_decide_eq_false_2 (k ∈ keys)) by done. cbn.
  unfold forward. destruct (decide (k = k0)) as [->|Hne].
  - rewrite bool_decide_eq_true_2 by (by left). cbn.
    destruct (getenv_truthy E k0) eqn:Hk0; [|done].
    rewrite elem_of_odict_set by done.
    split; [intros [[_ ->]|[? _]]; done|]. intros ->. by left.
  - rewrite bool_decide_eq_false_2
      by (intros [?|?]%elem_of_cons; congruence). cbn.
    destruct (getenv_truthy E k0) eqn:Hk0; [|done].
    rewrite elem_of_odict_set by done.
    split; [intros [[? _]|[_ ?]]; done|]. intros ?. by right.
Qed.

End ForwardedKeys.

Lemma environment_key_inj : Inj (=) (=) environment_key.
Proof.
  intros m n H. unfold environment_key in H.
  apply String.app_inj in H. by apply (inj pretty) in H.
Qed.

Lemma dependency_key_not_an_environment_key (n : nat) :
  is_dependency_key (environment_key n) = false.
Proof. reflexivity. Qed.

Lemma lookup_add_environment (i n : nat) (items : list (string * pyval))
    (job_info : dict) :
  add_environment ext i items job_info !! environment_key (i + n)
  = match items !! n with
    | Some item => Some (environment_entry (str_of ext) item)
    | None => job_info !! environment_key (i + n)
    end.
Proof.
  revert i n job_info.
  induction items as [|[key_ value_] items IH]; intros i n job_info;
    [done|].
  cbn [add_environment]. destruct n as [|n].
  - replace (i + 0) with i by lia. cbn [lookup list_lookup].
    assert (Hlow : forall (l : list (string * pyval)) (j : nat) (m : dict),
               i < j -> add_environment ext j l m !! environment_key i
                        = m !! environment_key i).
    { induction l as [|[k v] l IHl]; intros j m Hj; [done|].
      cbn [add_environment]. rewrite IHl by lia.
      rewrite lookup_insert_ne; [done|].
      intros Heq%environment_key_inj. lia. }
    rewrite Hlow by lia. by rewrite lookup_insert_eq.
  - replace (i + S n) with (S i + n) by lia. rewrite IH.
    cbn [lookup list_lookup].
    destruct (lookup n items); [done|].
    rewrite lookup_insert_ne; [done|].
    intros Heq%environment_key_inj. lia.
Qed.

Lemma initial_payload_no_environment (data : dict) (batch user : pyval)
    (job_name : string) (priority initial_status : pyval)
    (output_dir : string) (args : list string) (k : string) :
  is_environment_key k = true ->
  JobInfo (initial_payload self context_data data batch user job_name priority
             initial_status output_dir args) !! k = None.
Proof.
  intros Hk. unfold initial_payload, JobInfo. simpl.
  repeat (rewrite lookup_insert_ne; [|by intros <-]).
  apply lookup_empty.
Qed.

Lemma base_environment_keys (variant : string) (s : state)
    (base_env : list (string * pyval)) :
  outcome_of (base_environment ext context_data variant) s = inr base_env ->
  base_env.*1 = fixed_environment_keys.
Proof.
  unfold outcome_of. intros H.
  destruct (base_environment ext context_data variant s) as [[r s'] t] eqn:Hb.
  simpl in H. subst r. unfold base_environment in Hb. inv_run. done.
Qed.

(** The environment of a post: its entries, in order. *)
Lemma posted_environment (job : pyval) (instances : list dict) (s : state)
    (url : string) (body : payload) (timeout : Z)
    (answer : result response) :
  RequestsPost url body timeout answer
    ∈ events_of (_submit_deadline_post_job ext self context_data job instances) s ->
  ∃ variant base_env,
    environ_item (environ ext) "AYON_DEFAULT_SETTINGS_VARIANT" = inr variant
    ∧ outcome_of (base_environment ext context_data variant) s = inr base_env
    ∧ ∀ n, JobInfo body !! environment_key n
           = environment_entry (str_of ext)
               <$> forward_environ ext self base_env !! n.
Proof.
  intros Hin. posted_parts Hin. exists variant, base_env.
  split_and!; [done|done|]. intros n.
  rewrite lookup_delete_ne by (by intros Heq; apply (f_equal is_environment_key) in Heq; rewrite environment_key_prefix in Heq).
  rewrite (lookup_add_environment 0 n).
  destruct (forward_environ ext self base_env !! n); [done|].
  rewrite lookup_add_dependencies_other
    by apply dependency_key_not_an_environment_key.
  apply initial_payload_no_environment, environment_key_prefix.
Qed.

(** X10: the [EnvironmentKeyValueN] entries of every posted payload
    enumerate one list of variables, entry [N] holding ["key=value"] of
    the [N]-th variable; no variable occurs twice, and the first eleven
    are the fixed pipeline variables in the order the code writes
    them. *)
Theorem posted_environment_entries (job : pyval) (instances : list dict)
    (s : state) (url : string) (body : payload) (timeout : Z)
    (answer : result response) :
  RequestsPost url body timeout answer
    ∈ events_of (_submit_deadline_post_job ext self context_data job instances) s ->
  ∃ env : list (string * pyval),
    (∀ n, JobInfo body !! environment_key n
          = environment_entry (str_of ext) <$> env !! n)
    ∧ NoDup env.*1
    ∧ take 11 env.*1 = fixed_environment_keys.
Proof.
  intros Hin.
  apply posted_environment in Hin as (variant & base_env & _ & Hbase & Hn).
  apply base_environment_keys in Hbase.
  exists (forward_environ ext self base_env). split_and!; [done| |].
  - apply forward_NoDup. rewrite Hbase. by apply NoDup_ListNoDup; repeat constructor; set_solver.
  - unfold forward_environ.
    destruct (forward_keys_prefix (environ ext) (environ_keys self) base_env)
      as [extra ->].
    rewrite Hbase. done.
Qed.

(** X11: which variables are sent, and with which value.  A variable of
    the allow-list [environ_keys] that is set and not empty in the
    process environment is sent with the value it has there, also when
    the fixed block holds a variable of that name, whose value is then
    replaced.  Every other variable (one that is not on the allow-list,
    or is unset or empty in the process environment) is sent exactly
    when the fixed block holds it, and with the fixed block's value.
    Nothing else is sent. *)
Theorem posted_environment_allow_list (job : pyval) (instances : list dict)
    (s : state) (url : string) (body : payload) (timeout : Z)
    (answer : result response) :
  RequestsPost url body timeout answer
    ∈ events_of (_submit_deadline_post_job ext self context_data job instances) s ->
  ∃ (env base_env : list (string * pyval)) (variant : string),
    (∀ n, JobInfo body !! environment_key n
          = environment_entry (str_of ext) <$> env !! n)
    ∧ environ_item (environ ext) "AYON_DEFAULT_SETTINGS_VARIANT" = inr variant
    ∧ outcome_of (base_environment ext context_data variant) s = inr base_env
    ∧ ∀ k v,
        (k, v) ∈ env
        <-> if bool_decide (k ∈ environ_keys self)
               && getenv_truthy (environ ext) k
            then v = environ_get (environ ext) k
            else (k, v) ∈ base_env.
Proof.
  intros Hin.
  apply posted_environment in Hin as (variant & base_env & Hv & Hbase & Hn).
  exists (forward_environ ext self base_env), base_env, variant.
  split_and!; [done|done|done|].
  intros k v. apply elem_of_forward.
  rewrite (base_environment_keys _ _ _ Hbase).
  by apply NoDup_ListNoDup; repeat constructor; set_solver.
Qed.

End PayloadExtras.

(** ** More on the entry point *)

Section ProcessExtras.

Variable ext : collaborators.
Variable self : plugin.
Variable context_data : dict.

Lemma get_render_job_state (s s1 : state) (r : result pyval)
    (t : list event) :
  get_render_job ext context_data s = (r, s1, t) ->
  s1 = {| inst_data := delete "deadlineSubmissionJob" (inst_data s);
          self_deadline_url := self_deadline_url s |}.
Proof.
  unfold get_render_job, bind, read_data, write_data, raise, ret. simpl.
  repeat (case_match; simplify_eq/=); intros; simplify_eq/=; try done.
  match goal with
  | H : fake_render_job _ _ _ _ = _ |- _ =>
      by apply (readonly_inv _ _ _ _ _ _ (fake_render_job_readonly _ _ _)) in H
        as [-> _]
  end.
Qed.

(** The runs of [process] on a farm instance: either it fails before the
    submission, having neither posted nor written anything, or the
    submission ran in the state [s2] and decided what followed. *)
Lemma process_run (s : state) :
  truthy (get (inst_data s) "farm") = true ->
  let run := process ext self context_data s in
  (Forall quiet run.2
   ∧ (∃ e, run.1.1 = inl e)
   ∧ (inst_data run.1.2 = inst_data s
      ∨ inst_data run.1.2 = delete "deadlineSubmissionJob" (inst_data s)))
  ∨ ∃ anatomy skeleton instances t0 render_job s1 t1 deadline deadline_url
      submitted ts,
      synthesize_instances ext self context_data s
      = (inr (anatomy, skeleton, instances), s, t0)
      ∧ get_render_job ext context_data s = (inr render_job, s1, t1)
      ∧ getitem (inst_data s1) "deadline" = inr deadline
      ∧ subscript deadline "url" = inr deadline_url
      ∧ truthy deadline_url = true
      ∧ let s2 := {| inst_data := inst_data s1;
                     self_deadline_url := deadline_url |} in
        run.1.2 = s2
        ∧ _submit_deadline_post_job ext self context_data render_job instances
            s2 = (submitted, s2, ts)
        ∧ match submitted with
          | inl e => run.1.1 = inl e ∧ run.2 = (t0 ++ t1 ++ ts)%list
          | inr job_id =>
              ((∃ e, run.1.1 = inl e)
               ∧ (run.2 = (t0 ++ t1 ++ ts)%list
                  ∨ run.2 = (t0 ++ t1 ++ ts ++ [CreateMetadataPath])%list))
              ∨ ∃ publish_job paths,
                  build_publish_job ext context_data skeleton render_job
                    ((fun inst : dict => <["deadline" := deadline]> inst)
                       <$> instances) job_id s2
                  = (inr publish_job, s2, [])
                  ∧ create_metadata_path ext (inst_data s2) context_data
                      anatomy = inr paths
                  ∧ run.1.1 = write_json ext paths.1 publish_job
                  ∧ run.2 = (t0 ++ t1 ++ ts
                             ++ [CreateMetadataPath;
                                 WriteFile paths.1 publish_job])%list
          end.
Proof.
  intros Hfarm run. subst run.
  unfold process, submit_and_write_metadata,
    bind, lift, read_data, write_url, emit, raise, ret, call; simpl.
  rewrite Hfarm. simpl.
  repeat (case_match; simplify_eq/=).
  all: repeat match goal with
    | H : synthesize_instances _ _ _ _ = (_, _, _) |- _ =>
        let Hq := fresh "Hquiet" in
        pose proof (readonly_inv _ _ _ _ _ _
                      (synthesize_instances_readonly _ _ _) H) as [-> Hq];
        revert H
    end; intros.
  all: repeat match goal with
    | H : get_render_job _ _ ?s = (_, _, _) |- _ =>
        let Hq := fresh "Hquiet" in
        pose proof (get_render_job_quiet ext context_data s) as Hq;
        unfold events_of in Hq; rewrite H in Hq;
        pose proof (get_render_job_state _ _ _ _ H); revert H
    end; intros; simplify_eq/=.
  all: repeat match goal with
    | H : _submit_deadline_post_job _ _ _ _ _ _ = (_, _, _) |- _ =>
        pose proof (readonly_inv _ _ _ _ _ _
                      (_submit_deadline_post_job_readonly _ _ _ _ _) H)
          as [-> _]; revert H
    end; intros.
  all: repeat match goal with
    | H : build_publish_job _ _ _ _ _ _ _ = (_, _, ?t) |- _ =>
        let Hq := fresh "Hsilent" in
        pose proof (readonly_inv _ _ _ _ _ _
                      (build_publish_job_silent _ _ _ _ _ _) H) as [-> Hq];
        destruct t; [|by apply Forall_cons in Hq as [[] _]];
        revert H
    end; intros.
  all: cbn [inst_data self_deadline_url] in *.
  all: repeat match goal with
    | H1 : ?a = inr ?x, H2 : ?a = inr ?y |- _ =>
        rewrite H1 in H2; injection H2 as <-
    end.
  all: try (left; split_and!;
            [ rewrite ?Forall_app; by split_and?
            | by eexists
            | (by left) || (by right) ]).
  all: right; do 11 eexists;
    (split_and!;
     [reflexivity|eassumption|eassumption|eassumption|eassumption
     |reflexivity|eassumption|]);
    cbn beta iota; cbn [app]; rewrite ?app_nil_r.
  all: try (split; reflexivity).
  all: try (left; split; [by eexists|]; (by left) || (by right)).
  all: right; eexists _, _; split_and!;
    [eassumption|eassumption|reflexivity|reflexivity].
Qed.

Lemma process_local_run (s : state) :
  truthy (get (inst_data s) "farm") = false ->
  process ext self context_data s
  = (inr tt, s, [Log "debug" "Skipping local instance."]).
Proof.
  intros Hfarm. unfold process. rewrite bind_eq. simpl. by rewrite Hfarm.
Qed.

(** X12: [process] touches the instance data in one way only: it may
    remove [deadlineSubmissionJob]; every other key is as it was, however
    the run ends. *)
Theorem process_instance_data_frame (s : state) (k : string) :
  k ≠ "deadlineSubmissionJob" ->
  inst_data (process ext self context_data s).1.2 !! k = inst_data s !! k.
Proof.
  intros Hk.
  destruct (truthy (get (inst_data s) "farm")) eqn:Hfarm.
  - destruct (process_run s Hfarm)
      as [(_ & _ & [-> | ->])
         |(anatomy & skeleton & instances & t0 & rj & s1 & t1 & dl & u & r
           & ts & _ & Hrj & _ & _ & _ & -> & _)]; [done| |].
    + by rewrite lookup_delete_ne.
    + apply get_render_job_state in Hrj as ->. simpl.
      by rewrite lookup_delete_ne.
  - by rewrite process_local_run.
Qed.

(** The last stage stops at the assertion when the URL is not truthy. *)
Lemma submit_and_write_metadata_requires_url (s : state)
    (deadline deadline_url anatomy : pyval) (skeleton : dict)
    (instances : list dict) (render_job : pyval) :
  getitem (inst_data s) "deadline" = inr deadline ->
  subscript deadline "url" = inr deadline_url ->
  truthy deadline_url = false ->
  submit_and_write_metadata ext self context_data anatomy skeleton instances
    render_job s
  = (inl (AssertionError "Requires Deadline Webservice URL"),
     {| inst_data := inst_data s; self_deadline_url := deadline_url |}, []).
Proof.
  intros Hd Hu Hfalse.
  unfold submit_and_write_metadata, bind, lift, read_data, write_url, raise,
    ret. simpl. rewrite Hd. simpl. rewrite Hu. simpl. by rewrite Hfalse.
Qed.

(** X13: without a truthy webservice URL in [instance.data["deadline"]]
    a farm instance is never submitted: [process] raises, and nothing is
    posted and nothing is written; when the instances were synthesized
    and a render job was found or fabricated, the error is the assertion
    error [Requires Deadline Webservice URL]. *)
Theorem process_requires_url (s : state) (deadline deadline_url : pyval) :
  truthy (get (inst_data s) "farm") = true ->
  getitem (inst_data s) "deadline" = inr deadline ->
  subscript deadline "url" = inr deadline_url ->
  truthy deadline_url = false ->
  Forall quiet (events_of (process ext self context_data) s)
  ∧ (∃ e, outcome_of (process ext self context_data) s = inl e)
  ∧ (∀ synthesized render_job,
       outcome_of (synthesize_instances ext self context_data) s
       = inr synthesized ->
       outcome_of (get_render_job ext context_data) s = inr render_job ->
       outcome_of (process ext self context_data) s
       = inl (AssertionError "Requires Deadline Webservice URL")).
Proof.
  intros Hfarm Hd Hu Hfalse.
  assert (Hnot : ∀ s1 r t1 dl u,
            get_render_job ext context_data s = (r, s1, t1) ->
            getitem (inst_data s1) "deadline" = inr dl ->
            subscript dl "url" = inr u -> truthy u = true -> False).
  { intros s1 r t1 dl u Hrj Hd' Hu' Htrue.
    apply get_render_job_state in Hrj as ->. simpl in Hd'.
    unfold getitem in Hd, Hd'. rewrite lookup_delete_ne in Hd' by done.
    destruct (inst_data s !! "deadline"); simplify_eq/=. congruence. }
  split_and!.
  - unfold events_of.
    destruct (process_run s Hfarm)
      as [(Hq & _)
         |(anatomy & skeleton & instances & t0 & rj & s1 & t1 & dl & u & r
           & ts & _ & Hrj & Hd' & Hu' & Htrue & _)]; [done|].
    destruct (Hnot _ _ _ _ _ Hrj Hd' Hu' Htrue).
  - unfold outcome_of.
    destruct (process_run s Hfarm)
      as [(_ & He & _)
         |(anatomy & skeleton & instances & t0 & rj & s1 & t1 & dl & u & r
           & ts & _ & Hrj & Hd' & Hu' & Htrue & _)]; [done|].
    destruct (Hnot _ _ _ _ _ Hrj Hd' Hu' Htrue).
  - unfold outcome_of. intros synthesized render_job Hsyn Hrj.
    unfold process. rewrite bind_eq. unfold read_data at 1.
    cbn [inst_data]. rewrite Hfarm. cbn [negb]. rewrite bind_eq.
    destruct (synthesize_instances ext self context_data s)
      as [[[e|[[anatomy skeleton] instances]] s'] t0] eqn:Hs;
      [discriminate Hsyn|].
    destruct (readonly_inv _ _ _ _ _ _
                (synthesize_instances_readonly _ _ _) Hs) as [-> _].
    rewrite bind_eq.
    destruct (get_render_job ext context_data s)
      as [[[e|rj] s1] t1] eqn:Hg; [discriminate Hrj|].
    pose proof (get_render_job_state _ _ _ _ Hg) as ->.
    rewrite (submit_and_write_metadata_requires_url _ deadline deadline_url);
      [done| |done|done].
    simpl. unfold getitem in *. by rewrite lookup_delete_ne.
Qed.

(** The events of a submission that returned a job id: the quiet events
    of building the payload, the debug line and the one post. *)
Lemma _submit_deadline_post_job_events (job : pyval) (instances : list dict)
    (s s' : state) (job_id : pyval) (ts : list event) :
  _submit_deadline_post_job ext self context_data job instances s
  = (inr job_id, s', ts) ->
  ∃ t0 url body response,
    ts = (t0 ++ [Log "debug" "Submitting Deadline publish job ...";
                 RequestsPost url body 10 (inr response)])%list
    ∧ Forall quiet t0
    ∧ ok response = true
    ∧ submit_outcome (inr response) = inr job_id.
Proof.
  intros H.
  destruct (_submit_deadline_post_job_inr _ _ _ _ _ _ _ _ _ H)
    as (-> & url & body & response & Hin & Hok & Hout).
  pose proof (_submit_deadline_post_job_post ext self context_data job
                instances s url body 10 (inr response)) as Hpost.
  unfold events_of in Hpost. rewrite H in Hpost.
  destruct (Hpost Hin) as (t0 & Hb & Hrun).
  injection Hrun as _ ->.
  exists t0, url, body, response. split_and!; try done.
  by destruct (readonly_inv _ _ _ _ _ _
                 (build_payload_readonly _ _ _ _ _) Hb).
Qed.

(** X14: a run of [process] on a farm instance that returns normally has
    posted exactly once and written exactly once: its events end with
    the post (timeout 10, answered with an [ok] response), the
    computation of the metadata path and the file write, and everything
    before is quiet. *)
Theorem process_success_events (s : state) :
  truthy (get (inst_data s) "farm") = true ->
  outcome_of (process ext self context_data) s = inr tt ->
  ∃ t url body response path content,
    events_of (process ext self context_data) s
    = (t ++ [RequestsPost url body 10 (inr response);
             CreateMetadataPath; WriteFile path content])%list
    ∧ Forall quiet t
    ∧ ok response = true
    ∧ write_json ext path content = inr tt.
Proof.
  intros Hfarm Hout. unfold outcome_of, events_of in *.
  destruct (process_run s Hfarm)
    as [(_ & [e He] & _)
       |(anatomy & skeleton & instances & t0 & rj & s1 & t1 & dl & u & r
         & ts & Hsyn & Hrj & _ & _ & _ & _ & Hsub & Hcase)]; [congruence|].
  destruct r as [e|job_id]; [destruct Hcase; congruence|].
  destruct Hcase as [[[e He] _]|(pj & paths & _ & _ & Hw & ->)];
    [congruence|].
  apply _submit_deadline_post_job_events in Hsub
    as (tb & url & body & response & -> & Hq & Hok & _).
  exists (t0 ++ t1 ++ tb
          ++ [Log "debug" "Submitting Deadline publish job ..."])%list,
    url, body, response, paths.1, pj.
  split_and!; [|
    |done|congruence].
  - by rewrite <- !app_assoc.
  - rewrite !Forall_app. split_and!; try done.
    + by destruct (readonly_inv _ _ _ _ _ _
                     (synthesize_instances_readonly _ _ _) Hsyn).
    + pose proof (get_render_job_quiet ext context_data s) as Hq'.
      unfold events_of in Hq'. by rewrite Hrj in Hq'.
    + by repeat constructor.
Qed.

(** A metadata file that is written: everything it was made of. *)
Lemma process_write_inv (s : state) (path : string) (content : dict) :
  WriteFile path content ∈ events_of (process ext self context_data) s ->
  ∃ anatomy skeleton instances t0 render_job s1 t1 deadline job_id,
    synthesize_instances ext self context_data s
    = (inr (anatomy, skeleton, instances), s, t0)
    ∧ get_render_job ext context_data s = (inr render_job, s1, t1)
    ∧ inst_data s !! "deadline" = Some deadline
    ∧ (∃ s2 ts,
         _submit_deadline_post_job ext self context_data render_job instances
           s2 = (inr job_id, s2, ts))
    ∧ (build_publish_job ext context_data skeleton render_job
         ((fun inst : dict => <["deadline" := deadline]> inst) <$> instances)
         job_id (process ext self context_data s).1.2).1.1
      = inr content.
Proof.
  unfold events_of. intros Hin.
  destruct (truthy (get (inst_data s) "farm")) eqn:Hfarm.
  2:{ rewrite process_local_run in Hin by done.
      by apply list_elem_of_singleton in Hin. }
  destruct (process_run s Hfarm)
    as [(Hq & _)
       |(anatomy & skeleton & instances & t0 & rj & s1 & t1 & dl & u & r
         & ts & Hsyn & Hrj & Hd & _ & _ & Hs2 & Hsub & Hcase)].
  { rewrite Forall_forall in Hq. by apply Hq in Hin. }
  assert (Hq0 : Forall quiet t0)
    by by destruct (readonly_inv _ _ _ _ _ _
                      (synthesize_instances_readonly _ _ _) Hsyn).
  assert (Hq1 : Forall quiet t1).
  { pose proof (get_render_job_quiet ext context_data s) as Hq'.
    unfold events_of in Hq'. by rewrite Hrj in Hq'. }
  assert (Hqs : Forall not_a_write ts)
    by by destruct (readonly_inv _ _ _ _ _ _
                      (_submit_deadline_post_job_readonly _ _ _ _ _) Hsub).
  rewrite Forall_forall in Hq0, Hq1, Hqs.
  assert (Hpre : WriteFile path content ∉ (t0 ++ t1 ++ ts)%list).
  { rewrite !elem_of_app. intros [H|[H|H]].
    - by apply Hq0 in H.
    - by apply Hq1 in H.
    - by apply Hqs in H. }
  assert (Hdl : inst_data s !! "deadline" = Some dl).
  { pose proof (get_render_job_state _ _ _ _ Hrj) as ->. simpl in Hd.
    unfold getitem in Hd. rewrite lookup_delete_ne in Hd by done.
    by destruct (inst_data s !! "deadline"); simplify_eq/=. }
  destruct r as [e|job_id].
  { destruct Hcase as [_ Ht]. by rewrite Ht in Hin. }
  destruct Hcase as [[_ [Ht|Ht]]|(pj & paths & Hpj & _ & _ & Ht)];
    rewrite Ht in Hin.
  - done.
  - rewrite !app_assoc in Hin. apply elem_of_app in Hin as [Hin|Hin].
    + by rewrite <- !app_assoc in Hin.
    + by apply list_elem_of_singleton in Hin.
  - rewrite !app_assoc in Hin. apply elem_of_app in Hin as [Hin|Hin].
    + by rewrite <- !app_assoc in Hin.
    + apply elem_of_cons in Hin as [?|Hin]; [done|].
      apply list_elem_of_singleton in Hin. simplify_eq.
      exists anatomy, skeleton, instances, t0, rj, s1, t1, dl, job_id.
      split_and!; try done; [by eexists _, _|by rewrite Hs2, Hpj].
Qed.

Lemma get_render_job_truthy (s s1 : state) (render_job : pyval)
    (t : list event) :
  get_render_job ext context_data s = (inr render_job, s1, t) ->
  truthy render_job = true.
Proof.
  unfold get_render_job, fake_render_job, bind, read_data, write_data,
    raise, emit, lift, ret. simpl.
  repeat (case_match; simplify_eq/=); intros; simplify_eq/=.
  all: try (by match goal with
               | H : negb (truthy ?v) = false |- truthy ?v = true =>
                   destruct (truthy v)
               end).
  all: unfold fabricated_render_job; simpl;
    rewrite bool_decide_eq_false_2; [done|apply insert_non_empty].
Qed.

Lemma build_publish_job_fields (instance_skeleton_data : dict)
    (render_job : pyval) (instances : list dict) (job_id : pyval)
    (s : state) (publish_job : dict) :
  (build_publish_job ext context_data instance_skeleton_data render_job
     instances job_id s).1.1 = inr publish_job ->
  publish_job !! "job" = Some (py_or render_job PNone)
  ∧ publish_job !! "instances" = Some (PList (PDict <$> instances)).
Proof.
  intros H.
  destruct (build_publish_job ext context_data instance_skeleton_data
              render_job instances job_id s) as [[r s'] t] eqn:Hb.
  simpl in H. subst r. unfold build_publish_job in Hb. inv_run.
  all: repeat match goal with
         | |- context [if ?b then _ else _] => destruct b
         end.
  all: split; by simplify_map_eq.
Qed.

(** X15: the [job] entry of every metadata file that is written is a
    truthy render-job record, the one the instance carried or the
    fabricated one: it is never [None]. *)
Theorem metadata_job_is_never_none (s : state) (path : string)
    (content : dict) :
  WriteFile path content ∈ events_of (process ext self context_data) s ->
  ∃ render_job,
    outcome_of (get_render_job ext context_data) s = inr render_job
    ∧ content !! "job" = Some render_job
    ∧ truthy render_job = true.
Proof.
  intros Hin.
  apply process_write_inv in Hin
    as (anatomy & skeleton & instances & t0 & rj & s1 & t1 & dl & job_id
        & _ & Hrj & _ & _ & Hpj).
  apply build_publish_job_fields in Hpj as [Hjob _].
  pose proof (get_render_job_truthy _ _ _ _ Hrj) as Ht.
  exists rj. unfold outcome_of. rewrite Hrj. split_and!; [done| |done].
  rewrite Hjob. unfold py_or. by rewrite Ht.
Qed.

(** X16: the [instances] of every metadata file that is written are the
    synthesized instances, in order, each with the instance's [deadline]
    data stored under the key [deadline]; there is at least one. *)
Theorem metadata_instances_carry_deadline (s : state) (path : string)
    (content : dict) :
  WriteFile path content ∈ events_of (process ext self context_data) s ->
  ∃ anatomy skeleton instances deadline,
    outcome_of (synthesize_instances ext self context_data) s
    = inr (anatomy, skeleton, instances)
    ∧ inst_data s !! "deadline" = Some deadline
    ∧ content !! "instances"
      = Some (PList ((fun inst : dict => PDict (<["deadline" := deadline]> inst))
                       <$> instances))
    ∧ instances ≠ [].
Proof.
  intros Hin.
  apply process_write_inv in Hin
    as (anatomy & skeleton & instances & t0 & rj & s1 & t1 & dl & job_id
        & Hsyn & Hrj & Hdl & (s2 & ts & Hsub) & Hpj).
  apply build_publish_job_fields in Hpj as [_ Hinst].
  exists anatomy, skeleton, instances, dl.
  unfold outcome_of. rewrite Hsyn. split_and!; [done|done| |].
  - rewrite Hinst. by rewrite <- list_fmap_compose.
  - intros ->.
    destruct (_submit_deadline_post_job_inr _ _ _ _ _ _ _ _ _ Hsub)
      as (_ & url & body & response & Hpost & _).
    pose proof (_submit_deadline_post_job_post ext self context_data rj []
                  s2 url body 10 (inr response)) as Hbuilt.
    unfold events_of in Hbuilt. rewrite Hsub in Hbuilt.
    destruct (Hbuilt Hpost) as (tb & Hb & _).
    apply build_payload_parts in Hb
      as (? & ? & ? & ? & ? & ? & ? & ? & ? & ?
          & _ & (? & ? & ? & ? & _ & Hfirst & _) & _).
    discriminate Hfirst.
Qed.

End ProcessExtras.

(** ** The request, the folder resolver and the early failures *)

Section SubmissionExtras.

Variable ext : collaborators.
Variable self : plugin.
Variable context_data : dict.

Lemma filter_is_post_quiet (t : list event) :
  Forall quiet t -> List.filter is_post t = [].
Proof.
  induction 1 as [|ev t Hev _ IH]; [done|].
  simpl. rewrite IH. by destruct ev.
Qed.

(** The runs of the submitter: it fails before the network call with
    quiet events only, or it posts once, last, and returns what the
    answer decides. *)
Lemma _submit_deadline_post_job_run (job : pyval) (instances : list dict)
    (s : state) :
  let run := _submit_deadline_post_job ext self context_data job instances s in
  (Forall quiet run.2 ∧ ∃ e, run.1.1 = inl e)
  ∨ ∃ t0 body deadline auth verify,
      build_payload ext self context_data job instances s = (inr body, s, t0)
      ∧ Forall quiet t0
      ∧ getitem (inst_data s) "deadline" = inr deadline
      ∧ subscript deadline "auth" = inr auth
      ∧ subscript deadline "verify" = inr verify
      ∧ let url := str_of ext (self_deadline_url s) +:+ "/api/jobs" in
        let answer := requests_post ext url body 10 auth verify in
        run = (submit_outcome answer, s,
               (t0 ++ [Log "debug" "Submitting Deadline publish job ...";
                       RequestsPost url body 10 answer])%list).
Proof.
  intros run. subst run. unfold _submit_deadline_post_job.
  rewrite bind_eq.
  destruct (build_payload ext self context_data job instances s)
    as [[[e|body] s'] t0] eqn:Hb;
    destruct (readonly_inv _ _ _ _ _ _
                (build_payload_readonly _ _ _ _ _) Hb) as [-> Hq].
  { left. split; [done|by eexists]. }
  unfold bind, emit, read_url, read_data, lift, call, raise, ret. simpl.
  destruct (getitem (inst_data s) "deadline") as [e|deadline] eqn:Hd; simpl.
  { left. split; [|by eexists].
    rewrite Forall_app. split; [done|by repeat constructor]. }
  destruct (subscript deadline "auth") as [e|auth] eqn:Ha; simpl.
  { left. split; [|by eexists].
    rewrite Forall_app. split; [done|by repeat constructor]. }
  destruct (subscript deadline "verify") as [e|verify] eqn:Hv; simpl.
  { left. split; [|by eexists].
    rewrite Forall_app. split; [done|by repeat constructor]. }
  right. exists t0, body, deadline, auth, verify.
  split_and!; try done. cbv zeta. unfold submit_outcome.
  destruct (requests_post ext _ body 10 auth verify) as [e|r]; simpl; [done|].
  destruct (ok r); simpl; [|done].
  destruct (json r) as [e|j]; simpl; [done|].
  by destruct (subscript j "_id").
Qed.

(** X17: every request [process] sends goes to the webservice named in
    [instance.data["deadline"]["url"]], at [/api/jobs], with a timeout
    of 10 and the [auth] and [verify] settings of that same record;
    the attribute [deadline_url] the plugin held before does not
    matter.  The payload carries no auxiliary files. *)
Theorem process_post_request (s : state) (url : string) (body : payload)
    (timeout : Z) (answer : result response) :
  RequestsPost url body timeout answer
    ∈ events_of (process ext self context_data) s ->
  ∃ deadline deadline_url auth verify,
    inst_data s !! "deadline" = Some deadline
    ∧ subscript deadline "url" = inr deadline_url
    ∧ truthy deadline_url = true
    ∧ subscript deadline "auth" = inr auth
    ∧ subscript deadline "verify" = inr verify
    ∧ url = str_of ext deadline_url +:+ "/api/jobs"
    ∧ timeout = 10%Z
    ∧ answer = requests_post ext url body 10 auth verify
    ∧ AuxFiles body = [].
Proof.
  unfold events_of. intros Hin.
  destruct (truthy (get (inst_data s) "farm")) eqn:Hfarm.
  2:{ rewrite process_local_run in Hin by done.
      by apply list_elem_of_singleton in Hin. }
  destruct (process_run ext self context_data s Hfarm)
    as [(Hq & _)
       |(anatomy & skeleton & instances & t0 & rj & s1 & t1 & dl & u & r
         & ts & Hsyn & Hrj & Hd & Hu & Htrue & Hs2 & Hsub & Hcase)].
  { rewrite Forall_forall in Hq. by apply Hq in Hin. }
  assert (Hq0 : Forall quiet t0)
    by by destruct (readonly_inv _ _ _ _ _ _
                      (synthesize_instances_readonly _ _ _) Hsyn).
  assert (Hq1 : Forall quiet t1).
  { pose proof (get_render_job_quiet ext context_data s) as Hq'.
    unfold events_of in Hq'. by rewrite Hrj in Hq'. }
  rewrite Forall_forall in Hq0, Hq1.
  assert (Hts : RequestsPost url body timeout answer ∈ ts).
  { destruct r as [e|job_id].
    - destruct Hcase as [_ Ht]. rewrite Ht in Hin.
      apply elem_of_app in Hin as [H|Hin]; [by apply Hq0 in H|].
      apply elem_of_app in Hin as [H|Hin]; [by apply Hq1 in H|done].
    - destruct Hcase as [[_ [Ht|Ht]]|(pj & paths & _ & _ & _ & Ht)];
        rewrite Ht in Hin;
        (apply elem_of_app in Hin as [H|Hin]; [by apply Hq0 in H|]);
        (apply elem_of_app in Hin as [H|Hin]; [by apply Hq1 in H|]);
        try done;
        (apply elem_of_app in Hin as [H|Hin]; [done|]);
        repeat (apply elem_of_cons in Hin as [Hin|Hin]; [discriminate Hin|]);
        by apply elem_of_nil in Hin. }
  assert (Hdl : inst_data s !! "deadline" = Some dl).
  { pose proof (get_render_job_state _ _ _ _ _ _ Hrj) as ->. simpl in Hd.
    unfold getitem in Hd. rewrite lookup_delete_ne in Hd by done.
    by destruct (inst_data s !! "deadline"); simplify_eq/=. }
  pose proof (_submit_deadline_post_job_run rj instances
                {| inst_data := inst_data s1; self_deadline_url := u |})
    as Hrun.
  cbv zeta in Hrun. rewrite Hsub in Hrun. cbn [fst snd] in Hrun.
  destruct Hrun as [[Hq _]
                   |(tb & body' & dl' & auth & verify & Hb & Hqb & Hd' & Ha
                     & Hv & Hrun)].
  { rewrite Forall_forall in Hq. by apply Hq in Hts. }
  cbn [inst_data self_deadline_url] in *.
  rewrite Hd in Hd'. injection Hd' as <-.
  injection Hrun as _ ->.
  rewrite Forall_forall in Hqb.
  apply elem_of_app in Hts as [H|Hts]; [by apply Hqb in H|].
  apply elem_of_cons in Hts as [H|Hts]; [discriminate H|].
  apply list_elem_of_singleton in Hts. injection Hts as -> -> -> ->.
  exists dl, u, auth, verify. split_and!; try done.
  apply build_payload_parts in Hb
    as (? & ? & ? & ? & ? & ? & ? & ? & ? & ? & _ & _ & _ & _ & _ & _ & _ & _
        & _ & _ & ->).
  done.
Qed.

(** X18: [process] sends at most one request for an instance, however
    the run ends. *)
Theorem process_posts_at_most_once (s : state) :
  (List.length
     (List.filter is_post (events_of (process ext self context_data) s))
   ≤ 1)%nat.
Proof.
  unfold events_of.
  destruct (truthy (get (inst_data s) "farm")) eqn:Hfarm.
  2:{ rewrite process_local_run by done. simpl. lia. }
  destruct (process_run ext self context_data s Hfarm)
    as [(Hq & _)
       |(anatomy & skeleton & instances & t0 & rj & s1 & t1 & dl & u & r
         & ts & Hsyn & Hrj & Hd & Hu & Htrue & Hs2 & Hsub & Hcase)].
  { rewrite filter_is_post_quiet by done. simpl. lia. }
  assert (Hq0 : Forall quiet t0)
    by by destruct (readonly_inv _ _ _ _ _ _
                      (synthesize_instances_readonly _ _ _) Hsyn).
  assert (Hq1 : Forall quiet t1).
  { pose proof (get_render_job_quiet ext context_data s) as Hq'.
    unfold events_of in Hq'. by rewrite Hrj in Hq'. }
  assert (Hts : (List.length (List.filter is_post ts) ≤ 1)%nat).
  { pose proof (_submit_deadline_post_job_run rj instances
                  {| inst_data := inst_data s1; self_deadline_url := u |})
      as Hrun.
    cbv zeta in Hrun. rewrite Hsub in Hrun. cbn [fst snd] in Hrun.
    destruct Hrun as [[Hq _]|(tb & ? & ? & ? & ? & _ & Hqb & _ & _ & _ & Hrun)].
    - rewrite filter_is_post_quiet by done. simpl. lia.
    - injection Hrun as _ ->. rewrite List.filter_app.
      rewrite filter_is_post_quiet by done. simpl. lia. }
  assert (Hevents : ∃ rest, (process ext self context_data s).2
                            = (t0 ++ t1 ++ ts ++ rest)%list
                            ∧ List.filter is_post rest = []).
  { destruct r as [e|job_id].
    - destruct Hcase as [_ ->]. exists []. by rewrite app_nil_r.
    - destruct Hcase as [[_ [->| ->]]|(pj & paths & _ & _ & _ & ->)].
      + exists []. by rewrite app_nil_r.
      + by eexists.
      + by eexists. }
  destruct Hevents as (rest & -> & Hrest).
  rewrite !List.filter_app, Hrest, app_nil_r.
  rewrite !filter_is_post_quiet by done. done.
Qed.

(** The synthesis stops at [expectedFiles[0]] when that raises. *)
Lemma synthesize_instances_no_files (s : state) (e : exn) :
  first_item (get (inst_data s) "expectedFiles") = inl e ->
  ∃ e' t,
    synthesize_instances ext self context_data s = (inl e', s, t)
    ∧ ∀ anatomy skeleton,
        getitem context_data "anatomy" = inr anatomy ->
        create_skeleton_instance ext (inst_data s) context_data
          (families_transfer self) (instance_transfer self) = inr skeleton ->
        e' = e.
Proof.
  intros Hfirst. unfold synthesize_instances.
  unfold bind at 1. unfold read_data at 1.
  unfold bind at 1. unfold lift at 1.
  destruct (getitem context_data "anatomy") as [e0|anatomy].
  { eexists _, _. split; [done|]. intros; simplify_eq. }
  unfold bind at 1. unfold call at 1.
  destruct (create_skeleton_instance ext _ _ _ _) as [e0|skeleton].
  { eexists _, _. split; [done|]. intros; simplify_eq. }
  unfold bind at 1.
  assert (Hreview :
    ∃ b t, (if is_False (get (inst_data s) "review")
            then emit (Log "debug" "Instance has review explicitly disabled.")
                 ;;; ret true
            else ret false) s = (inr b, s, t)).
  { destruct (is_False _); by eexists _, _. }
  destruct Hreview as (b & t & ->).
  unfold bind at 1. unfold read_data, lift at 1. cbn [inst_data].
  rewrite Hfirst. simpl. by eexists _, _.
Qed.

(** X19: a farm instance whose [expectedFiles] has no first item (the
    key is missing, or the list is empty) makes [process] raise before
    anything is posted or written, and before the submission reference
    is taken out of the instance data; when the skeleton instance could
    be created the error is the one the subscript raises. *)
Theorem process_needs_expected_files (s : state) (e : exn) :
  truthy (get (inst_data s) "farm") = true ->
  first_item (get (inst_data s) "expectedFiles") = inl e ->
  (∃ e', outcome_of (process ext self context_data) s = inl e')
  ∧ Forall quiet (events_of (process ext self context_data) s)
  ∧ (process ext self context_data s).1.2 = s
  ∧ ∀ anatomy skeleton,
      getitem context_data "anatomy" = inr anatomy ->
      create_skeleton_instance ext (inst_data s) context_data
        (families_transfer self) (instance_transfer self) = inr skeleton ->
      outcome_of (process ext self context_data) s = inl e.
Proof.
  intros Hfarm Hfirst.
  destruct (synthesize_instances_no_files s e Hfirst)
    as (e' & t & Hsyn & Hexact).
  assert (Hrun : process ext self context_data s = (inl e', s, t)).
  { unfold process. rewrite bind_eq. unfold read_data at 1.
    cbn [inst_data]. rewrite Hfarm. cbn [negb].
    by rewrite (bind_inl _ _ _ _ _ _ Hsyn). }
  unfold outcome_of, events_of in *. rewrite Hrun. cbn [fst snd].
  split_and!; [by eexists| |done|].
  - by destruct (readonly_inv _ _ _ _ _ _
                   (synthesize_instances_readonly _ _ _) Hsyn).
  - intros anatomy skeleton Ha Hs.
    by rewrite (Hexact anatomy skeleton Ha Hs).
Qed.

End SubmissionExtras.

Section ResolverExtras.

Variable ext : collaborators.
Variable context_data : dict.

(** X20: a truthy [version] argument is used as it is: the folder
    resolver then asks neither the tracking service nor the versioning
    policy, and does not need the template data to hold a [task]; with
    no version and no folder entity, template data without a [task]
    make it raise [KeyError] before any call. *)
Theorem publish_folder_explicit_version
    (anatomy folder_entity product_name product_type project_name
       host_name : pyval) (template_data : dict) (s : state) :
  getitem context_data "projectName" = inr project_name ->
  getitem context_data "hostName" = inr host_name ->
  template_data !! "task" = None ->
  let run version :=
    _get_publish_folder ext context_data anatomy (PDict template_data)
      folder_entity product_name product_type version s in
  (∀ version,
     truthy version = true ->
     ∃ formatted,
       formatted !! "version" = Some version
       ∧ match get_publish_template_name ext project_name host_name
                 product_type PNone PNone with
         | inl e =>
             run version
             = (inl e, s, [GetPublishTemplateName product_type PNone PNone])
         | inr template_name =>
             run version
             = (format_strict ext anatomy template_name (PDict formatted), s,
                [GetPublishTemplateName product_type PNone PNone;
                 FormatStrict template_name (PDict formatted)])
         end)
  ∧ (∀ version,
       truthy version = false ->
       truthy folder_entity = false ->
       run version = (inl (KeyError "task"), s, [])).
Proof.
  intros Hp Hh Htask run. subst run. cbv beta.
  unfold _get_publish_folder, resolve_version, start_version.
  unfold bind, lift, call, ret. simpl. rewrite Hp, Hh. simpl.
  split.
  - intros version ->. simpl. unfold get, getitem. rewrite Htask. simpl.
    eexists. split; [|destruct (get_publish_template_name _ _ _ _ _ _);
                       reflexivity].
    by simplify_map_eq.
  - intros version -> ->. simpl. unfold getitem. by rewrite Htask.
Qed.

(** X21: the directory is formatted with the caller's template data in
    which [version], [subset], [family] and [product] are set (the
    product name under [subset] and [product.name], the product type
    under [family] and [product.type]) and every other key is as the
    caller gave it; the template is the one
    [get_publish_template_name] returns for the task of the template
    data, and the result is what [format_strict] returns. *)
Theorem publish_folder_template_data
    (anatomy template_data folder_entity product_name product_type
       version template_name formatted : pyval) (s : state) :
  FormatStrict template_name formatted
    ∈ events_of (_get_publish_folder ext context_data anatomy template_data
                   folder_entity product_name product_type version) s ->
  ∃ (given enriched : dict) project_name host_name task task_name task_type,
    template_data = PDict given
    ∧ formatted = PDict enriched
    ∧ enriched !! "subset" = Some product_name
    ∧ enriched !! "family" = Some product_type
    ∧ enriched !! "product"
      = Some (PDict (<["type" := product_type]>
                       (<["name" := product_name]> ∅)))
    ∧ is_Some (enriched !! "version")
    ∧ (∀ k, k ∉ resolver_keys -> enriched !! k = given !! k)
    ∧ getitem context_data "projectName" = inr project_name
    ∧ getitem context_data "hostName" = inr host_name
    ∧ task = py_or (get given "task") (PDict ∅)
    ∧ get_of task "name" = inr task_name
    ∧ get_of task "type" = inr task_type
    ∧ get_publish_template_name ext project_name host_name product_type
        task_name task_type = inr template_name
    ∧ outcome_of (_get_publish_folder ext context_data anatomy template_data
                    folder_entity product_name product_type version) s
      = format_strict ext anatomy template_name formatted.
Proof.
  unfold events_of, outcome_of. intros Hin.
  unfold _get_publish_folder in *.
  rewrite bind_eq in *. unfold lift at 1 in Hin. unfold lift at 1.
  destruct (getitem context_data "projectName") as [e|project_name] eqn:Hp;
    [by apply elem_of_nil in Hin|].
  rewrite bind_eq in *. unfold lift at 1 in Hin. unfold lift at 1.
  destruct (getitem context_data "hostName") as [e|host_name] eqn:Hh;
    [by apply elem_of_nil in Hin|].
  rewrite bind_eq in *.
  destruct (resolve_version ext context_data template_data folder_entity
              product_name project_name host_name version s)
    as [[[e|v] s1] t1] eqn:Hres;
    destruct (readonly_inv _ _ _ _ _ _
                (resolve_version_lookups _ _ _ _ _ _ _ _) Hres) as [-> Hq];
    rewrite Forall_forall in Hq.
  { cbn [snd] in Hin. by apply Hq in Hin. }
  revert Hin.
  unfold bind, lift, call, ret. simpl.
  destruct template_data as [| | | | |given]; simpl;
    try (rewrite !app_nil_r; intros Hin; by apply Hq in Hin).
  destruct (get_of (py_or (get given "task") (PDict ∅)) "name")
    as [e|task_name] eqn:Hname; simpl;
    [rewrite !app_nil_r; intros Hin; by apply Hq in Hin|].
  destruct (get_of (py_or (get given "task") (PDict ∅)) "type")
    as [e|task_type] eqn:Htype; simpl;
    [rewrite !app_nil_r; intros Hin; by apply Hq in Hin|].
  destruct (get_publish_template_name ext project_name host_name product_type
              task_name task_type) as [e|tn] eqn:Htn; simpl.
  { rewrite elem_of_app. intros [Hin|Hin]; [by apply Hq in Hin|].
    by apply list_elem_of_singleton in Hin. }
  rewrite elem_of_app. intros [Hin|Hin]; [by apply Hq in Hin|].
  apply elem_of_cons in Hin as [Hin|Hin]; [discriminate Hin|].
  apply list_elem_of_singleton in Hin. injection Hin as -> ->.
  eexists given, _, project_name, host_name, _, task_name, task_type.
  split_and!; try reflexivity; try eassumption.
  - by simplify_map_eq.
  - by simplify_map_eq.
  - by simplify_map_eq.
  - by simplify_map_eq.
  - intros k Hk. unfold resolver_keys in Hk.
    rewrite !not_elem_of_cons in Hk. destruct Hk as (? & ? & ? & ? & _).
    by rewrite !lookup_insert_ne.
Qed.

End ResolverExtras.

(** ** The scenario and the further properties *)

Lemma posted_priority_witness :
  JobInfo (Scenario.posted_body Scenario.instance_data) !! "Priority"
  = Some (if truthy (deadline_priority class_defaults)
          then deadline_priority class_defaults
          else match inst_data (Scenario.submitting Scenario.instance_data)
                       !! "priority" with
               | Some p => p
               | None => PInt 50
               end).
Proof.
  apply (posted_priority Scenario.ext class_defaults Scenario.context_data
           Scenario.render_job [Scenario.skeleton]
           (Scenario.submitting Scenario.instance_data)
           Scenario.posted_url (Scenario.posted_body Scenario.instance_data)
           10 (inr Scenario.farm_success)).
  apply (list_elem_of_lookup_2 _ 5). vm_compute. reflexivity.
Defined.

Lemma posted_pool_department_group_witness :
  JobInfo (Scenario.posted_body Scenario.instance_data) !! "Department"
  = Some (PStr (deadline_department class_defaults))
  ∧ JobInfo (Scenario.posted_body Scenario.instance_data) !! "Group"
    = Some (PStr (deadline_group class_defaults))
  ∧ JobInfo (Scenario.posted_body Scenario.instance_data) !! "Pool"
    = Some (if String.eqb (deadline_pool class_defaults) ""
            then get (inst_data (Scenario.submitting Scenario.instance_data))
                   "primaryPool"
            else PStr (deadline_pool class_defaults)).
Proof.
  apply (posted_pool_department_group Scenario.ext class_defaults
           Scenario.context_data Scenario.render_job [Scenario.skeleton]
           (Scenario.submitting Scenario.instance_data)
           Scenario.posted_url (Scenario.posted_body Scenario.instance_data)
           10 (inr Scenario.farm_success)).
  apply (list_elem_of_lookup_2 _ 5). vm_compute. reflexivity.
Defined.

Lemma posted_initial_status_witness :
  ∃ instance_settings : dict,
    get_attr_values_from_data Scenario.ext
      (inst_data (Scenario.submitting Scenario.instance_data))
    = inr instance_settings
    ∧ JobInfo (Scenario.posted_body Scenario.instance_data) !! "InitialStatus"
      = Some (match instance_settings !! "publishJobState" with
              | Some state => state
              | None => PStr "Active"
              end).
Proof.
  apply (posted_initial_status Scenario.ext class_defaults
           Scenario.context_data Scenario.render_job [Scenario.skeleton]
           (Scenario.submitting Scenario.instance_data)
           Scenario.posted_url (Scenario.posted_body Scenario.instance_data)
           10 (inr Scenario.farm_success)).
  apply (list_elem_of_lookup_2 _ 5). vm_compute. reflexivity.
Defined.

Lemma posted_identity_witness :
  ∃ product_name props batch user,
    getitem (inst_data (Scenario.submitting Scenario.instance_data))
      "productName" = inr product_name
    ∧ subscript Scenario.render_job "Props" = inr props
    ∧ subscript props "Batch" = inr batch
    ∧ subscript props "User" = inr user
    ∧ JobInfo (Scenario.posted_body Scenario.instance_data) !! "Plugin"
      = Some (PStr "Ayon")
    ∧ JobInfo (Scenario.posted_body Scenario.instance_data) !! "Name"
      = Some (PStr ("Publish - " +:+ str_of Scenario.ext product_name))
    ∧ JobInfo (Scenario.posted_body Scenario.instance_data) !! "BatchName"
      = Some batch
    ∧ JobInfo (Scenario.posted_body Scenario.instance_data) !! "UserName"
      = Some user.
Proof.
  apply (posted_identity Scenario.ext class_defaults Scenario.context_data
           Scenario.render_job [Scenario.skeleton]
           (Scenario.submitting Scenario.instance_data)
           Scenario.posted_url (Scenario.posted_body Scenario.instance_data)
           10 (inr Scenario.farm_success)).
  apply (list_elem_of_lookup_2 _ 5). vm_compute. reflexivity.
Defined.

Lemma posted_output_directory_witness :
  ∃ anatomy_data first product_name product_type output_dir directory,
    getitem (inst_data (Scenario.submitting Scenario.instance_data))
      "anatomyData" = inr anatomy_data
    ∧ [Scenario.skeleton] !! 0 = Some first
    ∧ getitem first "productName" = inr product_name
    ∧ getitem first "productType" = inr product_type
    ∧ outcome_of
        (_get_publish_folder Scenario.ext Scenario.context_data
           (get Scenario.context_data "anatomy") anatomy_data
           (get (inst_data (Scenario.submitting Scenario.instance_data))
              "folderEntity")
           product_name product_type
           (override_version
              (inst_data (Scenario.submitting Scenario.instance_data))))
        (Scenario.submitting Scenario.instance_data)
      = inr output_dir
    ∧ JobInfo (Scenario.posted_body Scenario.instance_data)
        !! "OutputDirectory0" = Some (PStr directory)
    ∧ list_ascii_of_string directory
      = (fun c => if Ascii.eqb c (ascii_of_nat 92) then ascii_of_nat 47
                  else c) <$> list_ascii_of_string output_dir
    ∧ String.length directory = String.length output_dir
    ∧ (ascii_of_nat 92 ∉ list_ascii_of_string directory)
    ∧ (ascii_of_nat 92 ∉ list_ascii_of_string output_dir ->
       directory = output_dir).
Proof.
  apply (posted_output_directory Scenario.ext class_defaults
           Scenario.context_data Scenario.render_job [Scenario.skeleton]
           (Scenario.submitting Scenario.instance_data)
           Scenario.posted_url (Scenario.posted_body Scenario.instance_data)
           10 (inr Scenario.farm_success)).
  apply (list_elem_of_lookup_2 _ 5). vm_compute. reflexivity.
Defined.

Lemma posted_arguments_witness :
  ∃ paths variant args,
    create_metadata_path Scenario.ext
      (inst_data (Scenario.submitting Scenario.instance_data))
      Scenario.context_data (get Scenario.context_data "anatomy") = inr paths
    ∧ environ_item (environ Scenario.ext) "AYON_DEFAULT_SETTINGS_VARIANT"
      = inr variant
    ∧ PluginInfo (Scenario.posted_body Scenario.instance_data) !! "Arguments"
      = Some (PStr (join " " args))
    ∧ take 7 args
      = [ "--headless"; "publish"; dquote +:+ paths.2 +:+ dquote;
          "--targets"; "deadline"; "--targets"; "farm" ]
    ∧ drop 7 args = (if String.eqb variant "staging"
                     then ["--use-staging"] else [])
    ∧ ("--use-staging" ∈ args <-> variant = "staging").
Proof.
  apply (posted_arguments Scenario.ext class_defaults Scenario.context_data
           Scenario.render_job [Scenario.skeleton]
           (Scenario.submitting Scenario.instance_data)
           Scenario.posted_url (Scenario.posted_body Scenario.instance_data)
           10 (inr Scenario.farm_success)).
  apply (list_elem_of_lookup_2 _ 5). vm_compute. reflexivity.
Defined.

Lemma posted_environment_entries_witness :
  ∃ env : list (string * pyval),
    (∀ n, JobInfo (Scenario.posted_body Scenario.instance_data)
            !! environment_key n
          = environment_entry (str_of Scenario.ext) <$> env !! n)
    ∧ NoDup env.*1
    ∧ take 11 env.*1 = fixed_environment_keys.
Proof.
  apply (posted_environment_entries Scenario.ext class_defaults
           Scenario.context_data Scenario.render_job [Scenario.skeleton]
           (Scenario.submitting Scenario.instance_data)
           Scenario.posted_url (Scenario.posted_body Scenario.instance_data)
           10 (inr Scenario.farm_success)).
  apply (list_elem_of_lookup_2 _ 5). vm_compute. reflexivity.
Defined.

Lemma posted_environment_allow_list_witness :
  ∃ (env base_env : list (string * pyval)) (variant : string),
    (∀ n, JobInfo (Scenario.posted_body Scenario.instance_data)
            !! environment_key n
          = environment_entry (str_of Scenario.ext) <$> env !! n)
    ∧ environ_item (environ Scenario.ext) "AYON_DEFAULT_SETTINGS_VARIANT"
      = inr variant
    ∧ outcome_of (base_environment Scenario.ext Scenario.context_data variant)
        (Scenario.submitting Scenario.instance_data) = inr base_env
    ∧ ∀ k v,
        (k, v) ∈ env
        <-> if bool_decide (k ∈ environ_keys class_defaults)
               && getenv_truthy (environ Scenario.ext) k
            then v = environ_get (environ Scenario.ext) k
            else (k, v) ∈ base_env.
Proof.
  apply (posted_environment_allow_list Scenario.ext class_defaults
           Scenario.context_data Scenario.render_job [Scenario.skeleton]
           (Scenario.submitting Scenario.instance_data)
           Scenario.posted_url (Scenario.posted_body Scenario.instance_data)
           10 (inr Scenario.farm_success)).
  apply (list_elem_of_lookup_2 _ 5). vm_compute. reflexivity.
Defined.

Lemma process_instance_data_frame_witness :
  inst_data (process Scenario.ext class_defaults Scenario.context_data
               (Scenario.initial Scenario.instance_data)).1.2 !! "deadline"
  = inst_data (Scenario.initial Scenario.instance_data) !! "deadline".
Proof.
  apply (process_instance_data_frame Scenario.ext class_defaults
           Scenario.context_data (Scenario.initial Scenario.instance_data)
           "deadline").
  discriminate.
Defined.

Lemma process_requires_url_witness :
  Forall quiet
    (events_of (process Scenario.ext class_defaults Scenario.context_data)
       (Scenario.initial Scenario.no_url_instance))
  ∧ (∃ e, outcome_of
            (process Scenario.ext class_defaults Scenario.context_data)
            (Scenario.initial Scenario.no_url_instance) = inl e)
  ∧ (∀ synthesized render_job,
       outcome_of
         (synthesize_instances Scenario.ext class_defaults
            Scenario.context_data)
         (Scenario.initial Scenario.no_url_instance) = inr synthesized ->
       outcome_of (get_render_job Scenario.ext Scenario.context_data)
         (Scenario.initial Scenario.no_url_instance) = inr render_job ->
       outcome_of (process Scenario.ext class_defaults Scenario.context_data)
         (Scenario.initial Scenario.no_url_instance)
       = inl (AssertionError "Requires Deadline Webservice URL")).
Proof.
  apply (process_requires_url Scenario.ext class_defaults
           Scenario.context_data (Scenario.initial Scenario.no_url_instance)
           Scenario.no_url_deadline (PStr "")).
  - vm_compute. reflexivity.
  - vm_compute. reflexivity.
  - vm_compute. reflexivity.
  - reflexivity.
Defined.

Lemma process_success_events_witness :
  ∃ t url body response path content,
    events_of (process Scenario.ext class_defaults Scenario.context_data)
      (Scenario.initial Scenario.instance_data)
    = (t ++ [RequestsPost url body 10 (inr response);
             CreateMetadataPath; WriteFile path content])%list
    ∧ Forall quiet t
    ∧ ok response = true
    ∧ write_json Scenario.ext path content = inr tt.
Proof.
  apply (process_success_events Scenario.ext class_defaults
           Scenario.context_data (Scenario.initial Scenario.instance_data)).
  - vm_compute. reflexivity.
  - vm_compute. reflexivity.
Defined.

Lemma metadata_job_is_never_none_witness :
  ∃ render_job,
    outcome_of (get_render_job Scenario.ext Scenario.context_with_audio)
      (Scenario.initial Scenario.instance_data) = inr render_job
    ∧ Scenario.written_content !! "job" = Some render_job
    ∧ truthy render_job = true.
Proof.
  apply (metadata_job_is_never_none Scenario.ext class_defaults
           Scenario.context_with_audio
           (Scenario.initial Scenario.instance_data)
           Scenario.metadata_path Scenario.written_content).
  apply (list_elem_of_lookup_2 _ 9). vm_compute. reflexivity.
Defined.

Lemma metadata_instances_carry_deadline_witness :
  ∃ anatomy skeleton instances deadline,
    outcome_of
      (synthesize_instances Scenario.ext class_defaults
         Scenario.context_with_audio)
      (Scenario.initial Scenario.instance_data)
    = inr (anatomy, skeleton, instances)
    ∧ inst_data (Scenario.initial Scenario.instance_data) !! "deadline"
      = Some deadline
    ∧ Scenario.written_content !! "instances"
      = Some (PList ((fun inst : dict => PDict (<["deadline" := deadline]> inst))
                       <$> instances))
    ∧ instances ≠ [].
Proof.
  apply (metadata_instances_carry_deadline Scenario.ext class_defaults
           Scenario.context_with_audio
           (Scenario.initial Scenario.instance_data)
           Scenario.metadata_path Scenario.written_content).
  apply (list_elem_of_lookup_2 _ 9). vm_compute. reflexivity.
Defined.

Lemma process_post_request_witness :
  ∃ deadline deadline_url auth verify,
    inst_data (Scenario.initial Scenario.instance_data) !! "deadline"
    = Some deadline
    ∧ subscript deadline "url" = inr deadline_url
    ∧ truthy deadline_url = true
    ∧ subscript deadline "auth" = inr auth
    ∧ subscript deadline "verify" = inr verify
    ∧ Scenario.posted_url = str_of Scenario.ext deadline_url +:+ "/api/jobs"
    ∧ 10%Z = 10%Z
    ∧ inr Scenario.farm_success
      = requests_post Scenario.ext Scenario.posted_url
          Scenario.process_posted_body 10 auth verify
    ∧ AuxFiles Scenario.process_posted_body = [].
Proof.
  apply (process_post_request Scenario.ext class_defaults
           Scenario.context_data (Scenario.initial Scenario.instance_data)
           Scenario.posted_url Scenario.process_posted_body 10
           (inr Scenario.farm_success)).
  apply (list_elem_of_lookup_2 _ 7). vm_compute. reflexivity.
Defined.

Lemma process_needs_expected_files_witness :
  (∃ e', outcome_of
           (process Scenario.ext class_defaults Scenario.context_data)
           (Scenario.initial Scenario.no_files_instance) = inl e')
  ∧ Forall quiet
      (events_of (process Scenario.ext class_defaults Scenario.context_data)
         (Scenario.initial Scenario.no_files_instance))
  ∧ (process Scenario.ext class_defaults Scenario.context_data
       (Scenario.initial Scenario.no_files_instance)).1.2
    = Scenario.initial Scenario.no_files_instance
  ∧ ∀ anatomy skeleton,
      getitem Scenario.context_data "anatomy" = inr anatomy ->
      create_skeleton_instance Scenario.ext
        (inst_data (Scenario.initial Scenario.no_files_instance))
        Scenario.context_data (families_transfer class_defaults)
        (instance_transfer class_defaults) = inr skeleton ->
      outcome_of (process Scenario.ext class_defaults Scenario.context_data)
        (Scenario.initial Scenario.no_files_instance) = inl IndexError.
Proof.
  apply (process_needs_expected_files Scenario.ext class_defaults
           Scenario.context_data
           (Scenario.initial Scenario.no_files_instance) IndexError).
  - vm_compute. reflexivity.
  - vm_compute. reflexivity.
Defined.

Lemma publish_folder_explicit_version_witness :
  let run version :=
    _get_publish_folder Scenario.ext Scenario.context_data (PStr "<anatomy>")
      (PDict ∅) PNone (PStr "renderMain") (PStr "render") version
      (Scenario.initial Scenario.instance_data) in
  (∀ version,
     truthy version = true ->
     ∃ formatted,
       formatted !! "version" = Some version
       ∧ match get_publish_template_name Scenario.ext (PStr "demo")
                 (PStr "maya") (PStr "render") PNone PNone with
         | inl e =>
             run version
             = (inl e, Scenario.initial Scenario.instance_data,
                [GetPublishTemplateName (PStr "render") PNone PNone])
         | inr template_name =>
             run version
             = (format_strict Scenario.ext (PStr "<anatomy>") template_name
                  (PDict formatted),
                Scenario.initial Scenario.instance_data,
                [GetPublishTemplateName (PStr "render") PNone PNone;
                 FormatStrict template_name (PDict formatted)])
         end)
  ∧ (∀ version,
       truthy version = false ->
       truthy PNone = false ->
       run version
       = (inl (KeyError "task"), Scenario.initial Scenario.instance_data, [])).
Proof.
  apply (publish_folder_explicit_version Scenario.ext
           Scenario.context_data (PStr "<anatomy>") PNone (PStr "renderMain")
           (PStr "render") (PStr "demo") (PStr "maya") ∅
           (Scenario.initial Scenario.instance_data)).
  - vm_compute. reflexivity.
  - vm_compute. reflexivity.
  - reflexivity.
Defined.

Lemma publish_folder_template_data_witness :
  ∃ (given enriched : dict) project_name host_name task task_name task_type,
    Scenario.anatomy_data = PDict given
    ∧ PDict Scenario.formatted_data = PDict enriched
    ∧ enriched !! "subset" = Some (PStr "renderMain")
    ∧ enriched !! "family" = Some (PStr "render")
    ∧ enriched !! "product"
      = Some (PDict (<["type" := PStr "render"]>
                       (<["name" := PStr "renderMain"]> ∅)))
    ∧ is_Some (enriched !! "version")
    ∧ (∀ k, k ∉ resolver_keys -> enriched !! k = given !! k)
    ∧ getitem Scenario.context_data "projectName" = inr project_name
    ∧ getitem Scenario.context_data "hostName" = inr host_name
    ∧ task = py_or (get given "task") (PDict ∅)
    ∧ get_of task "name" = inr task_name
    ∧ get_of task "type" = inr task_type
    ∧ get_publish_template_name Scenario.ext project_name host_name
        (PStr "render") task_name task_type = inr (PStr "render")
    ∧ outcome_of
        (_get_publish_folder Scenario.ext Scenario.context_data
           (PStr "<anatomy>") Scenario.anatomy_data PNone (PStr "renderMain")
           (PStr "render") (PInt 5))
        (Scenario.initial Scenario.instance_data)
      = format_strict Scenario.ext (PStr "<anatomy>") (PStr "render")
          (PDict Scenario.formatted_data).
Proof.
  apply (publish_folder_template_data Scenario.ext Scenario.context_data
           (PStr "<anatomy>") Scenario.anatomy_data PNone (PStr "renderMain")
           (PStr "render") (PInt 5) (PStr "render")
           (PDict Scenario.formatted_data)
           (Scenario.initial Scenario.instance_data)).
  apply (list_elem_of_lookup_2 _ 1). vm_compute. reflexivity.
Defined.
